(** * lxd_container: reconciliation of one LXD instance

    A shallow embedding of [plugins/modules/cloud/lxd/lxd_container.py]
    (class [LXDContainerManagement]) together with the properties of its
    state machine, its configuration comparison, its address wait and its
    result reporting.

    The module object is split in two: the values fixed by [__init__]
    ([params]) and the members that change while [run] executes ([st]).
    The control-plane client ([LXDClient]) and the wall clock are the
    environment ([world]): the client answers each call with a decoded
    response or raises [LXDClientException], and time is counted in
    microseconds.

    Conventions of the embedding:
    - a method is a function from states to an outcome and a state; an
      exception keeps the state reached, as the handler of [run] reads
      [self.actions] and [self.diff];
    - the members of the fetched document are objects that
      [_apply_container_configs] assigns to in place, and that the diff
      and the request body share; they are referred to by [ref] and read
      through the current state;
    - [config] values are strings, as the control plane stores them;
    - the set [set(CONFIG_PARAMS) - set(CONFIG_CREATION_PARAMS)] is
      iterated in the order of [elements];
    - the members [log_verbosity] and [logs] of the result, which echo
      the verbosity of the host and the wire log of the client, are left
      out. *)

From Stdlib Require Import ZArith String List Bool Lia.
From stdpp Require Import base option list gmap strings fin_maps.

Local Open Scope string_scope.
Local Open Scope Z_scope.

(** ** JSON-like values *)

(** One member of a decoded JSON document or of the module parameters.
    The shapes are those the instance and state documents use:
    [architecture] is a string, [ephemeral] a boolean, [profiles] a list
    of strings, [config] a flat mapping, [devices] a mapping of mappings,
    [network] a mapping from device names to address entries (only the
    [family] and [address] members of an entry are read). *)
Inductive obj :=
| ONone
| OBool (b : bool)
| OStr (s : string)
| OList (l : list string)
| ODict (d : gmap string string)
| ODevs (d : gmap string (gmap string string))
| ONetwork (n : gmap string (list (string * string))).

#[global] Instance obj_eq_dec : EqDecision obj.
Proof. solve_decision. Defined.

(** Python truth value of an object ([x or {}]). *)
Definition truthy (o : obj) : bool :=
  match o with
  | ONone => false
  | OBool b => b
  | OStr s => negb (String.eqb s "")
  | OList l => negb (bool_decide (l = []))
  | ODict d => negb (bool_decide (d = ∅))
  | ODevs d => negb (bool_decide (d = ∅))
  | ONetwork n => negb (bool_decide (n = ∅))
  end.

(** A decoded response of the control plane: its [type] member and its
    [metadata] member ([None] when the member is null). *)
Record response := Response {
  r_type : string;
  r_metadata : option (gmap string obj)
}.

(** ** Exceptions *)

Inductive exn :=
| LXDClientException (msg : string)
| KeyError (key : string)
| TypeError (what : string)
| AttributeError (what : string)
| FuelExhausted.

(** ** Requests *)

Inductive http_method := GET | PUT | POST | DELETE.

#[global] Instance http_method_eq_dec : EqDecision http_method.
Proof. solve_decision. Defined.

(** The URL is kept structured: the path and the mapping handed to
    [urlencode]. *)
Record url := Url { u_path : string; u_query : list (string * string) }.

Inductive body :=
| NoBody
| StateBody (action : string) (timeout : Z) (force : option bool)
| InstanceBody (members : gmap string obj).

Inductive call :=
| Authenticate (trust_password : string)
| Do (method : http_method) (u : url) (body_json : body) (ok_error_codes : list Z).

(** A request that creates, changes or deletes something on the control
    plane: anything sent with [do] other than a GET.  The authentication
    exchange is kept apart; [run] performs it whenever a trust password
    was given. *)
Definition is_mutating (c : call) : bool :=
  match c with
  | Authenticate _ => false
  | Do GET _ _ _ => false
  | Do _ _ _ _ => true
  end.

(** ** Environment *)

(** The client answers a call, knowing the calls made before it, with a
    response or with the message of the [LXDClientException] it raises;
    the call takes [elapsed] microseconds of wall-clock time. *)
Record world := World {
  respond : list call -> call -> string + response;
  elapsed : list call -> call -> N;
  start_time : Z
}.

(** ** Module parameters and constants *)

Definition LXD_ANSIBLE_STATES : list (string * string) :=
  [("started", "_started"); ("stopped", "_stopped");
   ("restarted", "_restarted"); ("absent", "_destroyed");
   ("frozen", "_frozen")].

Definition ANSIBLE_LXD_STATES : list (string * string) :=
  [("Running", "started"); ("Stopped", "stopped"); ("Frozen", "frozen")].

Definition CONFIG_PARAMS : list string :=
  ["architecture"; "config"; "devices"; "ephemeral"; "profiles"; "source"; "type"].

Definition CONFIG_CREATION_PARAMS : list string := ["source"; "type"].

(** [set(CONFIG_PARAMS) - set(CONFIG_CREATION_PARAMS)] *)
Definition mutable_set : gset string :=
  list_to_set CONFIG_PARAMS ∖ list_to_set CONFIG_CREATION_PARAMS.

(** The order in which the set is iterated. *)
Definition mutable_params : list string := elements mutable_set.

Fixpoint assoc (k : string) (l : list (string * string)) : option string :=
  match l with
  | [] => None
  | (k', v) :: l' => if String.eqb k k' then Some v else assoc k l'
  end.

(** What [__init__] reads from [module.params] and [module.check_mode]. *)
Record params := Params {
  name : string;
  module_params : gmap string obj;
  state : string;
  timeout : Z;
  wait_for_ipv4_addresses : bool;
  force_stop : bool;
  target : option string;
  trust_password : option string;
  instances_endpoint : string;
  check_mode : bool
}.

(** [_build_config]: the attributes of the desired specification that
    were supplied. *)
Definition _build_config (mp : gmap string obj) : gmap string obj :=
  foldl (fun cfg attr =>
           match mp !! attr with
           | Some ONone | None => cfg
           | Some param_val => <[attr := param_val]> cfg
           end) ∅ CONFIG_PARAMS.

Definition config (p : params) : gmap string obj := _build_config (module_params p).

Definition endpoint (p : params) : string := "/1.0" ++ instances_endpoint p.

(** ** Mutable state of one run *)

(** Object identity.  Objects are named by where they were created: a
    member of the metadata of the fetched instance document, a member of
    [self.config], or an object built afresh. *)
Inductive ref :=
| FromResponse (key : string)
| FromParams (key : string)
| Fresh (o : obj).

Record diff_side := DiffSide {
  d_state : option string;
  d_instance : option (gmap string ref)
}.

Record st := St {
  old_container_json : option response;
  old_state : option string;
  actions : list string;
  diff_before : diff_side;
  diff_after : diff_side;
  addresses : option (gmap string (list string));
  trace : list call;
  clock : Z
}.

Definition init (w : world) : st :=
  {| old_container_json := None; old_state := None; actions := [];
     diff_before := DiffSide None None; diff_after := DiffSide None None;
     addresses := None; trace := []; clock := start_time w |}.

(** ** The monad of the methods: state and exceptions *)

(** A method reads and updates the members of [self] and either returns
    or raises; the state reached is kept in both cases, as the handler of
    [run] reads [self.actions] and [self.diff] after an exception. *)
Definition M (A : Type) : Type := st -> (exn + A) * st.

Definition ret {A} (a : A) : M A := fun s => (inr a, s).

Definition bind {A B} (m : M A) (f : A -> M B) : M B :=
  fun s => match m s with
           | (inr a, s') => f a s'
           | (inl e, s') => (inl e, s')
           end.

Definition raise {A} (e : exn) : M A := fun s => (inl e, s).

Definition gets {A} (f : st -> A) : M A := fun s => (inr (f s), s).

Definition modify (f : st -> st) : M unit := fun s => (inr tt, f s).

Notation "x <- m ;; k" := (bind m (fun x => k))
  (at level 100, m at next level, k at level 200, right associativity).
Notation "m ;;; k" := (bind m (fun _ => k))
  (at level 100, k at level 200, right associativity).

(** [d[k]] on a dictionary. *)
Definition subscript {A} (d : gmap string A) (k : string) : M A :=
  match d !! k with
  | Some v => ret v
  | None => raise (KeyError k)
  end.

Definition when (b : bool) (m : M unit) : M unit := if b then m else ret tt.

(** Setters of the members of [self]. *)
Definition set_old_container_json (r : response) (s : st) : st :=
  {| old_container_json := Some r; old_state := old_state s; actions := actions s;
     diff_before := diff_before s; diff_after := diff_after s;
     addresses := addresses s; trace := trace s; clock := clock s |}.

Definition set_old_state (o : string) (s : st) : st :=
  {| old_container_json := old_container_json s; old_state := Some o; actions := actions s;
     diff_before := diff_before s; diff_after := diff_after s;
     addresses := addresses s; trace := trace s; clock := clock s |}.

Definition append_action (a : string) (s : st) : st :=
  {| old_container_json := old_container_json s; old_state := old_state s;
     actions := actions s ++ [a];
     diff_before := diff_before s; diff_after := diff_after s;
     addresses := addresses s; trace := trace s; clock := clock s |}.

Definition set_diff_before (d : diff_side) (s : st) : st :=
  {| old_container_json := old_container_json s; old_state := old_state s; actions := actions s;
     diff_before := d; diff_after := diff_after s;
     addresses := addresses s; trace := trace s; clock := clock s |}.

Definition set_diff_after (d : diff_side) (s : st) : st :=
  {| old_container_json := old_container_json s; old_state := old_state s; actions := actions s;
     diff_before := diff_before s; diff_after := d;
     addresses := addresses s; trace := trace s; clock := clock s |}.

Definition set_addresses (a : gmap string (list string)) (s : st) : st :=
  {| old_container_json := old_container_json s; old_state := old_state s; actions := actions s;
     diff_before := diff_before s; diff_after := diff_after s;
     addresses := Some a; trace := trace s; clock := clock s |}.

Definition record_call (c : call) (dt : Z) (s : st) : st :=
  {| old_container_json := old_container_json s; old_state := old_state s; actions := actions s;
     diff_before := diff_before s; diff_after := diff_after s;
     addresses := addresses s; trace := trace s ++ [c]; clock := clock s + dt |}.

Definition advance_clock (dt : Z) (s : st) : st :=
  {| old_container_json := old_container_json s; old_state := old_state s; actions := actions s;
     diff_before := diff_before s; diff_after := diff_after s;
     addresses := addresses s; trace := trace s; clock := clock s + dt |}.

(** ** The object store *)

(** The metadata mapping of the fetched document, as it currently is. *)
Definition old_metadata (s : st) : option (gmap string obj) :=
  r ← old_container_json s; r_metadata r.

(** The object a reference denotes in the current state. *)
Definition deref (cfg : gmap string obj) (s : st) (r : ref) : option obj :=
  match r with
  | FromResponse key => md ← old_metadata s; md !! key
  | FromParams key => cfg !! key
  | Fresh o => Some o
  end.

(** In-place replacement of a member of the fetched metadata. *)
Definition store_metadata (key : string) (o : obj) (s : st) : st :=
  match old_container_json s with
  | Some r =>
      match r_metadata r with
      | Some md => set_old_container_json (Response (r_type r) (Some (<[key := o]> md))) s
      | None => s
      end
  | None => s
  end.

(** What a dictionary of references serialises to. *)
Definition render (cfg : gmap string obj) (s : st) (d : gmap string ref) : gmap string obj :=
  omap (deref cfg s) d.

(** ** The methods of [LXDContainerManagement] *)

Definition is_volatile (k : string) : bool := String.prefix "volatile." k.

(** [dict((k, v) for k, v in d.items() if not k.startswith('volatile.'))] *)
Definition without_volatile (d : gmap string string) : gmap string string :=
  filter (fun kv => is_volatile kv.1 = false) d.

(** [isinstance(section, dict)] for [section] a key of the metadata
    mapping, which is a string. *)
Definition isinstance_dict (section : string) : bool := false.

(** The view [o.items()] of a flat mapping. *)
Definition items (o : obj) : M (gmap string string) :=
  match o with
  | ODict d => ret d
  | _ => raise (AttributeError "items")
  end.

Section Methods.

Context (w : world) (p : params).

(** [self.client.do(method, url, body_json, ok_error_codes)] *)
Definition client_do (method : http_method) (u : url) (b : body)
    (ok_error_codes : list Z) : M response :=
  fun s =>
    let c := Do method u b ok_error_codes in
    let s' := record_call c (Z.of_N (elapsed w (trace s) c)) s in
    match respond w (trace s) c with
    | inl msg => (inl (LXDClientException msg), s')
    | inr r => (inr r, s')
    end.

(** [self.client.authenticate(trust_password)] *)
Definition client_authenticate (pw : string) : M unit :=
  fun s =>
    let c := Authenticate pw in
    let s' := record_call c (Z.of_N (elapsed w (trace s) c)) s in
    match respond w (trace s) c with
    | inl msg => (inl (LXDClientException msg), s')
    | inr _ => (inr tt, s')
    end.

(** [self.old_container_json] and [self.old_state]; the attributes exist
    once [run] has assigned them. *)
Definition self_old_container_json : M response :=
  v <- gets old_container_json ;;
  match v with
  | Some r => ret r
  | None => raise (AttributeError "old_container_json")
  end.

Definition self_old_state : M string :=
  v <- gets old_state ;;
  match v with
  | Some o => ret o
  | None => raise (AttributeError "old_state")
  end.

(** [resp_json['metadata'][key]] *)
Definition metadata_member (resp_json : response) (key : string) : M obj :=
  match r_metadata resp_json with
  | Some md => subscript md key
  | None => raise (TypeError "metadata")
  end.

Definition _get_container_json : M response :=
  client_do GET (Url (endpoint p ++ "/" ++ name p) []) NoBody [404].

Definition _get_container_state_json : M response :=
  client_do GET (Url (endpoint p ++ "/" ++ name p ++ "/state") []) NoBody [404].

Definition _container_json_to_module_state (resp_json : response) : M string :=
  if String.eqb (r_type resp_json) "error" then ret "absent"
  else
    status <- metadata_member resp_json "status" ;;
    match status with
    | OStr lxd_state =>
        match assoc lxd_state ANSIBLE_LXD_STATES with
        | Some a => ret a
        | None => raise (KeyError lxd_state)
        end
    | ONone | OBool _ => raise (KeyError "status")
    | _ => raise (TypeError "unhashable")
    end.

Definition _change_state (action : string) (force_stop : bool) : M unit :=
  let body_json := StateBody action (timeout p) (if force_stop then Some true else None) in
  if negb (check_mode p) then
    client_do PUT (Url (endpoint p ++ "/" ++ name p ++ "/state") []) body_json [] ;;; ret tt
  else ret tt.

Definition _create_container : M unit :=
  let config := <["name" := OStr (name p)]> (config p) in
  when (negb (check_mode p))
    (match target p with
     | Some t =>
         if negb (String.eqb t "") then
           client_do POST (Url (endpoint p) [("target", t)]) (InstanceBody config) [] ;;; ret tt
         else client_do POST (Url (endpoint p) []) (InstanceBody config) [] ;;; ret tt
     | None => client_do POST (Url (endpoint p) []) (InstanceBody config) [] ;;; ret tt
     end) ;;;
  modify (append_action "create").

Definition _start_container : M unit :=
  _change_state "start" false ;;; modify (append_action "start").

Definition _stop_container : M unit :=
  _change_state "stop" (force_stop p) ;;; modify (append_action "stop").

Definition _restart_container : M unit :=
  _change_state "restart" (force_stop p) ;;; modify (append_action "restart").

Definition _delete_container : M unit :=
  when (negb (check_mode p))
    (client_do DELETE (Url (endpoint p ++ "/" ++ name p) []) NoBody [] ;;; ret tt) ;;;
  modify (append_action "delete").

Definition _freeze_container : M unit :=
  _change_state "freeze" false ;;; modify (append_action "freeze").

Definition _unfreeze_container : M unit :=
  _change_state "unfreeze" false ;;; modify (append_action "unfreez").

(** *** Address wait *)

(** [resp_json['metadata']['network'] or {}], then its [items()]. *)
Definition network_of (o : obj) : M (gmap string (list (string * string))) :=
  if truthy o then
    match o with
    | ONetwork n => ret n
    | _ => raise (TypeError "network")
    end
  else ret ∅.

(** [[a['address'] for a in v['addresses'] if a['family'] == 'inet']] *)
Definition inet_addresses (v : list (string * string)) : list string :=
  snd <$> filter (fun a : string * string => a.1 = "inet") v.

Definition _container_ipv4_addresses (ignore_devices : list string) :
    M (gmap string (list string)) :=
  resp_json <- _get_container_state_json ;;
  net <- metadata_member resp_json "network" ;;
  network <- network_of net ;;
  let network : gmap string (list (string * string)) :=
    filter (fun kv : string * list (string * string) => kv.1 ∉ ignore_devices)
           (network : gmap string (list (string * string))) in
  ret (inet_addresses <$> network).

Definition _has_all_ipv4_addresses (addresses : gmap string (list string)) : bool :=
  bool_decide (0 < size addresses)%nat
  && bool_decide (map_Forall (fun _ v => (0 < length v)%nat) addresses).

(** [datetime.datetime.now()], in microseconds. *)
Definition datetime_now : M Z := gets clock.

(** [time.sleep(seconds)] *)
Definition time_sleep (seconds : Z) : M unit := modify (advance_clock (seconds * 1000000)).

(** The [while] loop of [_get_addresses].  [fuel] bounds the number of
    iterations; every iteration sleeps one second, so [timeout] of them
    reach the deadline (lemma [poll_fuel] below). *)
Fixpoint poll (fuel : nat) (due : Z) : M unit :=
  now <- datetime_now ;;
  if now <? due then
    match fuel with
    | O => raise FuelExhausted
    | S fuel' =>
        time_sleep 1 ;;;
        addresses <- _container_ipv4_addresses ["lo"] ;;
        if _has_all_ipv4_addresses addresses
        then modify (set_addresses addresses)
        else poll fuel' due
    end
  else ret tt.

(** [try: m except LXDClientException as e: e.msg = msg; raise] *)
Definition rename_client_exception {A} (m : M A) (msg : string) : M A :=
  fun s => match m s with
           | (inl (LXDClientException _), s') => (inl (LXDClientException msg), s')
           | r => r
           end.

Definition _get_addresses : M unit :=
  rename_client_exception
    (now <- datetime_now ;;
     let due := now + timeout p * 1000000 in
     poll (Z.to_nat (timeout p)) due)
    "timeout for getting IPv4 addresses".

(** *** Configuration comparison *)

(** The loop over [self.config['config'].items()] of
    [_needs_to_change_container_config]. *)
Definition config_differs (old_configs desired : gmap string string) : bool :=
  existsb (fun kv =>
             match old_configs !! kv.1 with
             | None => true
             | Some v' => negb (bool_decide (v' = kv.2))
             end) (map_to_list desired).

Definition _needs_to_change_container_config (key : string) : M bool :=
  match config p !! key with
  | None => ret false
  | Some desired =>
      if String.eqb key "config" then
        resp_json <- self_old_container_json ;;
        old <- metadata_member resp_json key ;;
        old_items <- items old ;;
        let old_configs := without_volatile old_items in
        desired_items <- items desired ;;
        ret (config_differs old_configs desired_items)
      else
        resp_json <- self_old_container_json ;;
        old_configs <- metadata_member resp_json key ;;
        ret (negb (bool_decide (desired = old_configs)))
  end.

Fixpoint any_needs_change (ps : list string) : M bool :=
  match ps with
  | [] => ret false
  | param :: ps' =>
      b <- _needs_to_change_container_config param ;;
      if b then ret true else any_needs_change ps'
  end.

Definition _needs_to_apply_container_configs : M bool :=
  any_needs_change mutable_params.

(** [o[k] = v] on the object a reference denotes.  Only objects of the
    fetched document are ever assigned to. *)
Definition setitem (r : ref) (k v : string) : M unit :=
  match r with
  | FromResponse key =>
      resp_json <- self_old_container_json ;;
      o <- metadata_member resp_json key ;;
      match o with
      | ODict d => modify (store_metadata key (ODict (<[k := v]> d)))
      | _ => raise (TypeError "item assignment")
      end
  | _ => raise (TypeError "item assignment")
  end.

(** [for k, v in self.config['config'].items(): body_json['config'][k] = v] *)
Fixpoint merge_items (body_json : gmap string ref) (kvs : list (string * string)) : M unit :=
  match kvs with
  | [] => ret tt
  | (k, v) :: kvs' =>
      r <- subscript body_json "config" ;;
      setitem r k v ;;;
      merge_items body_json kvs'
  end.

(** The loop of [_apply_container_configs] that builds [body_json]. *)
Fixpoint build_body (ps : list string) (body_json : gmap string ref) : M (gmap string ref) :=
  match ps with
  | [] => ret body_json
  | param :: ps' =>
      resp_json <- self_old_container_json ;;
      body_json <-
        match r_metadata resp_json with
        | None => raise (TypeError "in")
        | Some old_metadata =>
            ret (if bool_decide (is_Some (old_metadata !! param))
                 then <[param := FromResponse param]> body_json
                 else body_json)
        end ;;
      b <- _needs_to_change_container_config param ;;
      body_json <-
        (if b then
           if String.eqb param "config" then
             desired <- subscript (config p) "config" ;;
             desired_items <- items desired ;;
             merge_items body_json (map_to_list desired_items) ;;;
             ret body_json
           else
             ret (<[param := FromParams param]> body_json)
         else ret body_json) ;;
      build_body ps' body_json
  end.

Definition set_after_instance (b : gmap string ref) (s : st) : st :=
  set_diff_after (DiffSide (d_state (diff_after s)) (Some b)) s.

Definition _apply_container_configs : M unit :=
  self_old_container_json ;;;
  body_json <- build_body mutable_params ∅ ;;
  modify (set_after_instance body_json) ;;;
  when (negb (check_mode p))
    (rendered <- gets (fun s => render (config p) s body_json) ;;
     client_do PUT (Url (endpoint p ++ "/" ++ name p) []) (InstanceBody rendered) [] ;;;
     ret tt) ;;;
  modify (append_action "apply_container_configs").

(** *** The state handlers *)

(** [self.old_state == o] *)
Definition old_state_is (o : string) : M bool :=
  old <- self_old_state ;; ret (String.eqb old o).

Definition apply_if_needed : M unit :=
  b <- _needs_to_apply_container_configs ;;
  when b _apply_container_configs.

Definition _started : M unit :=
  absent <- old_state_is "absent" ;;
  (if absent then
     _create_container ;;;
     _start_container
   else
     frozen <- old_state_is "frozen" ;;
     (if frozen then _unfreeze_container
      else
        stopped <- old_state_is "stopped" ;;
        when stopped _start_container) ;;;
     apply_if_needed) ;;;
  when (wait_for_ipv4_addresses p) _get_addresses.

Definition _stopped : M unit :=
  absent <- old_state_is "absent" ;;
  if absent then _create_container
  else
    stopped <- old_state_is "stopped" ;;
    if stopped then
      b <- _needs_to_apply_container_configs ;;
      when b (_start_container ;;;
              _apply_container_configs ;;;
              _stop_container)
    else
      frozen <- old_state_is "frozen" ;;
      when frozen _unfreeze_container ;;;
      apply_if_needed ;;;
      _stop_container.

Definition _restarted : M unit :=
  absent <- old_state_is "absent" ;;
  (if absent then
     _create_container ;;;
     _start_container
   else
     frozen <- old_state_is "frozen" ;;
     when frozen _unfreeze_container ;;;
     apply_if_needed ;;;
     _restart_container) ;;;
  when (wait_for_ipv4_addresses p) _get_addresses.

Definition _destroyed : M unit :=
  absent <- old_state_is "absent" ;;
  when (negb absent)
    (frozen <- old_state_is "frozen" ;;
     when frozen _unfreeze_container ;;;
     stopped <- old_state_is "stopped" ;;
     when (negb stopped) _stop_container ;;;
     _delete_container).

Definition _frozen : M unit :=
  absent <- old_state_is "absent" ;;
  if absent then
    _create_container ;;;
    _start_container ;;;
    _freeze_container
  else
    stopped <- old_state_is "stopped" ;;
    when stopped _start_container ;;;
    apply_if_needed ;;;
    _freeze_container.

(** [getattr(self, method_name)] for the handlers. *)
Definition getattr (method_name : string) : M unit :=
  if String.eqb method_name "_started" then _started
  else if String.eqb method_name "_stopped" then _stopped
  else if String.eqb method_name "_restarted" then _restarted
  else if String.eqb method_name "_destroyed" then _destroyed
  else if String.eqb method_name "_frozen" then _frozen
  else raise (AttributeError method_name).

(** *** [run] *)

(** One side of the reported diff, serialised. *)
Record diff_view := DiffView {
  v_state : option string;
  v_instance : option (gmap string obj)
}.

Definition view (s : st) (d : diff_side) : diff_view :=
  DiffView (d_state d) (render (config p) s <$> d_instance d).

(** The keyword arguments of [exit_json] and of [fail_json]. *)
Record result_json := ResultJson {
  changed : bool;
  res_old_state : string;
  res_actions : list string;
  res_diff_before : diff_view;
  res_diff_after : diff_view;
  res_addresses : option (gmap string (list string))
}.

Record fail_params := FailParams {
  msg : string;
  fail_changed : bool;
  fail_actions : list string;
  fail_diff_before : diff_view;
  fail_diff_after : diff_view
}.

Inductive outcome :=
| exit_json (r : result_json)
| fail_json (f : fail_params)
| uncaught (e : exn).

(** The entry of [diff['before']['instance']] for one section. *)
Definition before_entry (section : string) (content : obj) : M ref :=
  if negb (isinstance_dict section) then ret (FromResponse section)
  else
    content_items <- items content ;;
    ret (Fresh (ODict (without_volatile content_items))).

Fixpoint before_entries (sections : list (string * obj)) : M (gmap string ref) :=
  match sections with
  | [] => ret ∅
  | (section, content) :: rest =>
      r <- before_entry section content ;;
      d <- before_entries rest ;;
      ret (<[section := r]> d)
  end.

(** The [try] block of [run], in its three parts: what is observed
    before the handler is chosen, the call of the handler, and the
    result handed to [exit_json]. *)
Definition observe : M unit :=
  match trust_password p with
  | Some pw => client_authenticate pw
  | None => ret tt
  end ;;;
  resp_json <- _get_container_json ;;
  modify (set_old_container_json resp_json) ;;;
  resp_json <- self_old_container_json ;;
  o <- _container_json_to_module_state resp_json ;;
  modify (set_old_state o) ;;;
  old <- self_old_state ;;
  modify (fun s => set_diff_before (DiffSide (Some old) (d_instance (diff_before s))) s) ;;;
  modify (fun s => set_diff_after (DiffSide (Some (state p)) (d_instance (diff_after s))) s) ;;;
  resp_json <- self_old_container_json ;;
  old_sections <-
    match r_metadata resp_json with
    | None => raise (AttributeError "items")
    | Some md => ret (filter (fun kv : string * obj => kv.1 ∈ mutable_set) md)
    end ;;
  before <- before_entries (map_to_list (old_sections : gmap string obj)) ;;
  modify (fun s => set_diff_before (DiffSide (d_state (diff_before s)) (Some before)) s).

Definition dispatch : M unit :=
  match assoc (state p) LXD_ANSIBLE_STATES with
  | None => raise (KeyError (state p))
  | Some method_name => getattr method_name
  end.

Definition report : M result_json :=
  old <- self_old_state ;;
  gets (fun s =>
    {| changed := bool_decide (0 < length (actions s))%nat;
       res_old_state := old;
       res_actions := actions s;
       res_diff_before := view s (diff_before s);
       res_diff_after := view s (diff_after s);
       res_addresses := addresses s |}).

Definition run_body : M result_json :=
  observe ;;; dispatch ;;; report.

(** [run]: the [try] block and its [except LXDClientException] handler. *)
Definition run_from (s : st) : outcome * st :=
  match run_body s with
  | (inr result, s') => (exit_json result, s')
  | (inl (LXDClientException m), s') =>
      (fail_json {| msg := m;
                    fail_changed := bool_decide (0 < length (actions s'))%nat;
                    fail_actions := actions s';
                    fail_diff_before := view s' (diff_before s');
                    fail_diff_after := view s' (diff_after s') |}, s')
  | (inl e, s') => (uncaught e, s')
  end.

Definition run : outcome := (run_from (init w)).1.

(** The calls the client received during [run]. *)
Definition run_trace : list call := trace (run_from (init w)).2.

End Methods.

(** ** The transition table of the design *)

(** The observed states of the design and the module states they are
    reported as. *)
Inductive observed := Absent | Stopped | Running | Frozen.

Definition module_state (o : observed) : string :=
  match o with
  | Absent => "absent"
  | Stopped => "stopped"
  | Running => "started"
  | Frozen => "frozen"
  end.

(** The lifecycle operations of the executor. *)
Inductive operation :=
| Create | Start | Stop | Restart | Delete | Freeze | Unfreeze | ApplyConfig.

#[global] Instance operation_eq_dec : EqDecision operation.
Proof. solve_decision. Defined.

(** The method that carries an operation out. *)
Definition perform (w : world) (p : params) (op : operation) : M unit :=
  match op with
  | Create => _create_container w p
  | Start => _start_container w p
  | Stop => _stop_container w p
  | Restart => _restart_container w p
  | Delete => _delete_container w p
  | Freeze => _freeze_container w p
  | Unfreeze => _unfreeze_container w p
  | ApplyConfig => _apply_container_configs w p
  end.

(** The name under which the method logs itself in [self.actions]. *)
Definition log_name (op : operation) : string :=
  match op with
  | Create => "create"
  | Start => "start"
  | Stop => "stop"
  | Restart => "restart"
  | Delete => "delete"
  | Freeze => "freeze"
  | Unfreeze => "unfreez"
  | ApplyConfig => "apply_container_configs"
  end.

Fixpoint perform_all (w : world) (p : params) (ops : list operation) : M unit :=
  match ops with
  | [] => ret tt
  | op :: ops' => perform w p op ;;; perform_all w p ops'
  end.

Definition apply_config_if (needed : bool) : list operation :=
  if needed then [ApplyConfig] else [].

(** The row of the transition table for the desired state started. *)
Definition started_table (o : observed) (needed : bool) : list operation :=
  match o with
  | Absent => [Create; Start]
  | Frozen => Unfreeze :: apply_config_if needed
  | Stopped => Start :: apply_config_if needed
  | Running => apply_config_if needed
  end.

(** The rows for the other desired states, as the handlers [_stopped],
    [_restarted], [_destroyed] and [_frozen] have them. *)
Definition stopped_table (o : observed) (needed : bool) : list operation :=
  match o with
  | Absent => [Create]
  | Stopped => if needed then [Start; ApplyConfig; Stop] else []
  | Frozen => (Unfreeze :: apply_config_if needed) ++ [Stop]
  | Running => apply_config_if needed ++ [Stop]
  end.

Definition restarted_table (o : observed) (needed : bool) : list operation :=
  match o with
  | Absent => [Create; Start]
  | Frozen => (Unfreeze :: apply_config_if needed) ++ [Restart]
  | Stopped | Running => apply_config_if needed ++ [Restart]
  end.

Definition destroyed_table (o : observed) : list operation :=
  match o with
  | Absent => []
  | Frozen => [Unfreeze; Stop; Delete]
  | Running => [Stop; Delete]
  | Stopped => [Delete]
  end.

Definition frozen_table (o : observed) (needed : bool) : list operation :=
  match o with
  | Absent => [Create; Start; Freeze]
  | Stopped => (Start :: apply_config_if needed) ++ [Freeze]
  | Running | Frozen => apply_config_if needed ++ [Freeze]
  end.

(** The request an operation other than apply-config sends when the run
    is not a dry run. *)
Definition request_of (p : params) (op : operation) : call :=
  let state_url := Url (endpoint p ++ "/" ++ name p ++ "/state") [] in
  let forced := if force_stop p then Some true else None in
  match op with
  | Create =>
      Do POST
        (Url (endpoint p)
           (match target p with
            | Some t => if String.eqb t "" then [] else [("target", t)]
            | None => []
            end))
        (InstanceBody (<["name" := OStr (name p)]> (config p))) []
  | Start => Do PUT state_url (StateBody "start" (timeout p) None) []
  | Stop => Do PUT state_url (StateBody "stop" (timeout p) forced) []
  | Restart => Do PUT state_url (StateBody "restart" (timeout p) forced) []
  | Freeze => Do PUT state_url (StateBody "freeze" (timeout p) None) []
  | Unfreeze => Do PUT state_url (StateBody "unfreeze" (timeout p) None) []
  | Delete => Do DELETE (Url (endpoint p ++ "/" ++ name p) []) NoBody []
  | ApplyConfig => Do PUT (Url (endpoint p ++ "/" ++ name p) []) NoBody []
  end.

(** ** Statements of the design that the properties refer to *)

(** The fetch of the instance state, which only the address wait issues. *)
Definition state_fetch (p : params) : call :=
  Do GET (Url (endpoint p ++ "/" ++ name p ++ "/state") []) NoBody [404].

(** The address wait was skipped: the client saw no state fetch. *)
Definition waiter_skipped (w : world) (p : params) : Prop :=
  forall c, c ∈ run_trace w p -> c <> state_fetch p.

(** ** Predicates on states and methods *)

(** [inv I E m]: started in a state satisfying [I], the method [m]
    returns in a state satisfying [I], or raises [e] in a state
    satisfying [E e]. *)
Definition inv {A} (I : st -> Prop) (E : exn -> st -> Prop) (m : M A) : Prop :=
  forall s, I s ->
    match m s with
    | (inr _, s') => I s'
    | (inl e, s') => E e s'
    end.

(** The members a method other than [_apply_container_configs] never
    writes: the fetched document and the state derived from it. *)
Definition same_observation (s s' : st) : Prop :=
  old_container_json s' = old_container_json s /\ old_state s' = old_state s.

(** A state that holds the fetched document and nothing else; the
    comparison reads only the fetched document. *)
Definition observing (oc : option response) : st :=
  {| old_container_json := oc; old_state := None; actions := [];
     diff_before := DiffSide None None; diff_after := DiffSide None None;
     addresses := None; trace := []; clock := 0 |}.

(** Only the fetched document differs between the two states. *)
Definition only_json_changed (s s' : st) : Prop :=
  old_state s' = old_state s /\ actions s' = actions s /\
  diff_before s' = diff_before s /\ diff_after s' = diff_after s /\
  addresses s' = addresses s /\ trace s' = trace s /\ clock s' = clock s.

(** An exception other than the client's. *)
Definition is_py (e : exn) : Prop := forall m, e <> LXDClientException m.

(** The attribute is missing from the module parameters, or [None]. *)
Definition omitted (p : params) (key : string) : Prop :=
  module_params p !! key = None \/ module_params p !! key = Some ONone.

(** The action log holds no apply-config entry. *)
Definition not_applied (s : st) : Prop := "apply_container_configs" ∉ actions s.

(** Every call the client has received is read-only. *)
Definition read_only (s : st) : Prop := Forall (fun c => is_mutating c = false) (trace s).


(** The member [key] of the metadata of the fetched document, as it
    currently is. *)
Definition observed_section (s : st) (key : string) : option obj :=
  md ← old_metadata s; md !! key.

(** Every mutable attribute the caller supplied is present in the
    fetched document. *)
Definition sections_present (p : params) (s : st) : Prop :=
  forall key, key ∈ mutable_params -> is_Some (config p !! key) ->
              is_Some (observed_section s key).

(** The client accepts every request. *)
Definition accepting (w : world) : Prop :=
  forall tr c, exists r, respond w tr c = inr r.

(** Every call the client has received was answered with a response. *)
Definition all_answered (w : world) (s : st) : Prop :=
  forall tr c tr', trace s = (tr ++ c :: tr')%list -> exists r, respond w tr c = inr r.

(** The last call the client received is [c], it failed with the message
    [m0], and every call before it was answered with a response. *)
Definition failed_at (w : world) (s : st) (c : call) (m0 : string) : Prop :=
  exists tr, trace s = (tr ++ [c])%list /\ respond w tr c = inl m0 /\
             forall tr1 c1 tr2, tr = (tr1 ++ c1 :: tr2)%list ->
                                exists r, respond w tr1 c1 = inr r.

Definition timeout_message : string := "timeout for getting IPv4 addresses".

(** What is known when a method raises outside the address wait, inside
    its loop, and at the end of [run]. *)
Definition raised_plain (w : world) (p : params) (e : exn) (s : st) : Prop :=
  match e with
  | LXDClientException m => exists c, failed_at w s c m /\ c <> state_fetch p
  | _ => all_answered w s
  end.

Definition raised_polling (w : world) (p : params) (e : exn) (s : st) : Prop :=
  match e with
  | LXDClientException m => failed_at w s (state_fetch p) m
  | _ => all_answered w s
  end.

Definition raised_in_run (w : world) (p : params) (e : exn) (s : st) : Prop :=
  match e with
  | LXDClientException m =>
      exists c m0, failed_at w s c m0 /\
                   (c <> state_fetch p -> m = m0) /\
                   (c = state_fetch p -> m = timeout_message)
  | _ => all_answered w s
  end.

(** The answer to the fetch of the instance at the start of [run]. *)
Definition fetched (w : world) (p : params) : string + response :=
  respond w
    (match trust_password p with
     | Some pw => [Authenticate pw]
     | None => []
     end)
    (Do GET (Url (endpoint p ++ "/" ++ name p) []) NoBody [404]).

(** The sections of the fetched metadata [md] are as fetched, except
    that [config] may have been assigned to. *)
Definition sections_kept (md : gmap string obj) (s : st) : Prop :=
  is_Some (old_metadata s) /\
  (forall key, key <> "config" -> observed_section s key = md !! key) /\
  (is_Some (observed_section s "config") <-> is_Some (md !! "config")).

(** The request body refers to the fetched [config], if to any. *)
Definition body_ok (body_json : gmap string ref) : Prop :=
  body_json !! "config" = None \/ body_json !! "config" = Some (FromResponse "config").

(** What holds of the diff while the handler runs: the before side and
    the state of the after side are as [observe] left them, and the
    after side has an instance part exactly when apply-config is logged. *)
Definition diff_kept (p : params) (md : gmap string obj) (o : string)
    (before : gmap string ref) (s : st) : Prop :=
  diff_before s = DiffSide (Some o) (Some before) /\
  old_state s = Some o /\
  d_state (diff_after s) = Some (state p) /\
  sections_kept md s /\
  (is_Some (d_instance (diff_after s)) <-> "apply_container_configs" ∈ actions s).

(** The references [before_entries] builds for a list of sections. *)
Definition aliases (sections : list (string * obj)) : gmap string ref :=
  foldr (fun kv d => <[kv.1 := FromResponse kv.1]> d) ∅ sections.

(** *** The start of a run *)

(** The fetch of the instance document. *)
Definition instance_fetch (p : params) : call :=
  Do GET (Url (endpoint p ++ "/" ++ name p) []) NoBody [404].

(** The authentication, when a trust password was given, is answered
    with a response. *)
Definition authenticated (w : world) (p : params) : Prop :=
  match trust_password p with
  | Some pw => exists r, respond w [] (Authenticate pw) = inr r
  | None => True
  end.

(** The state of the run after the authentication and after the fetch. *)
Definition after_authentication (w : world) (p : params) : st :=
  match trust_password p with
  | Some pw => record_call (Authenticate pw) (Z.of_N (elapsed w [] (Authenticate pw))) (init w)
  | None => init w
  end.

Definition after_fetch (w : world) (p : params) : st :=
  record_call (instance_fetch p)
    (Z.of_N (elapsed w (trace (after_authentication w p)) (instance_fetch p)))
    (after_authentication w p).

(** The four states a module reports as [old_state]. *)
Definition module_states : list string := ["absent"; "started"; "stopped"; "frozen"].

(** *** The address wait *)

(** Addresses as [_get_addresses] stores them: at least one device, no
    device without an address, and no loopback device. *)
Definition usable_addresses (a : gmap string (list string)) : Prop :=
  (0 < size a)%nat /\ map_Forall (fun _ v => v <> []) a /\ a !! "lo" = None.


(** Only the clock, the calls and the addresses differ between the two
    states. *)
Definition only_waited (s s' : st) : Prop :=
  old_container_json s' = old_container_json s /\ old_state s' = old_state s /\
  actions s' = actions s /\ diff_before s' = diff_before s /\
  diff_after s' = diff_after s.

(** The number of mutating requests the client has received. *)
Definition mutating_requests (tr : list call) : nat :=
  length (filter (fun c => is_mutating c = true) tr).

(** The action log accounts for the mutating requests: one entry each. *)
Definition accounted (s : st) : Prop :=
  length (actions s) = mutating_requests (trace s).

(** A mutating request has been answered and is not logged yet. *)
Definition sent_unlogged (s : st) : Prop :=
  mutating_requests (trace s) = S (length (actions s)).

(** A request has failed: the log accounts for every mutating request
    except, when it was one, the request that failed. *)
Definition failed_unlogged (e : exn) (s : st) : Prop :=
  match e with
  | LXDClientException _ =>
      exists c, last (trace s) = Some c /\
                mutating_requests (trace s) =
                  (length (actions s) + (if is_mutating c then 1 else 0))%nat
  | _ => True
  end.

(** *** Converged attributes *)


(** *** Dry run and real run *)

(** The same request, in or out of check mode. *)
Definition with_check_mode (b : bool) (p : params) : params :=
  {| name := name p; module_params := module_params p; state := state p;
     timeout := timeout p; wait_for_ipv4_addresses := wait_for_ipv4_addresses p;
     force_stop := force_stop p; target := target p;
     trust_password := trust_password p;
     instances_endpoint := instances_endpoint p; check_mode := b |}.

(** Two computations that, started in states that differ only in the
    clock, the calls and the addresses, return the same value in such
    states whenever both return. *)
Definition same_effect {A} (m1 m2 : M A) : Prop :=
  forall s1 s2, only_waited s1 s2 ->
    match m1 s1, m2 s2 with
    | (inr a1, t1), (inr a2, t2) => a1 = a2 /\ only_waited t1 t2
    | _, _ => True
    end.

(** ** Scenarios *)

(** An instance document with the given status and configuration. *)
Definition instance_document (status : string) (cfg : gmap string string) : response :=
  Response "sync"
    (Some (<["status" := OStr status]>
           (<["name" := OStr "c1"]>
           (<["architecture" := OStr "x86_64"]>
           (<["config" := ODict cfg]>
           (<["devices" := ODevs ∅]>
           (<["ephemeral" := OBool false]>
           (<["profiles" := OList ["default"]]> ∅)))))))).

(** A state document with the given network member. *)
Definition state_document (network : gmap string (list (string * string))) : response :=
  Response "sync" (Some (<["status" := OStr "Running"]> (<["network" := ONetwork network]> ∅))).

(** A control plane that holds one instance [c1], accepts every request
    and answers at once. *)
Definition one_instance (status : string) (cfg : gmap string string)
    (network : gmap string (list (string * string))) : world :=
  {| respond := fun _ c =>
       match c with
       | Do GET (Url path _) _ _ =>
           if String.eqb path "/1.0/instances/c1" then inr (instance_document status cfg)
           else inr (state_document network)
       | _ => inr (Response "sync" None)
       end;
     elapsed := fun _ _ => 0%N;
     start_time := 0 |}.

(** The same control plane, failing every fetch of the instance state
    with the given message. *)
Definition failing_state_fetch (status : string) (cfg : gmap string string)
    (message : string) : world :=
  {| respond := fun _ c =>
       match c with
       | Do GET (Url path _) _ _ =>
           if String.eqb path "/1.0/instances/c1" then inr (instance_document status cfg)
           else inl message
       | _ => inr (Response "sync" None)
       end;
     elapsed := fun _ _ => 0%N;
     start_time := 0 |}.

(** Parameters for the instance [c1]: desired state, desired [config]
    (if supplied), address wait, dry run; [type] has its default. *)
Definition request_for (desired_state : string) (cfg : option (gmap string string))
    (wait dry_run : bool) : params :=
  {| name := "c1";
     module_params :=
       match cfg with
       | Some c => <["config" := ODict c]> (<["type" := OStr "container"]> ∅)
       | None => <["type" := OStr "container"]> ∅
       end;
     state := desired_state;
     timeout := 2;
     wait_for_ipv4_addresses := wait;
     force_stop := false;
     target := None;
     trust_password := None;
     instances_endpoint := "/instances";
     check_mode := dry_run |}.

(** The state of the run once the instance has been observed. *)
Definition observed_state (w : world) (p : params) : st := (observe w p (init w)).2.

(** * Properties *)

Example mutable_params_value :
  mutable_params = ["config"; "ephemeral"; "architecture"; "devices"; "profiles"].
Proof. vm_compute. reflexivity. Qed.

(** ** Equations of the monad *)

Lemma bind_inr {A B} (m : M A) (f : A -> M B) s a s' :
  m s = (inr a, s') -> bind m f s = f a s'.
Proof. intros H. unfold bind. rewrite H. reflexivity. Qed.

Lemma bind_inl {A B} (m : M A) (f : A -> M B) s e s' :
  m s = (inl e, s') -> bind m f s = (inl e, s').
Proof. intros H. unfold bind. rewrite H. reflexivity. Qed.

Lemma bind_ret_r (m : M unit) s : bind m (fun _ => ret tt) s = m s.
Proof. unfold bind, ret. destruct (m s) as [[e|[]] s']; reflexivity. Qed.

Lemma bind_assoc {A B C} (m : M A) (f : A -> M B) (g : B -> M C) s :
  bind (bind m f) g s = bind m (fun a => bind (f a) g) s.
Proof. unfold bind. destruct (m s) as [[e|a] s']; reflexivity. Qed.

Lemma bind_ext {A B} (m : M A) (f g : A -> M B) s :
  (forall a s', m s = (inr a, s') -> f a s' = g a s') -> bind m f s = bind m g s.
Proof.
  intros H. unfold bind. destruct (m s) as [[e|a] s'] eqn:E; [reflexivity|].
  apply H. reflexivity.
Qed.

Lemma old_state_is_eval o o' s :
  old_state s = Some o -> old_state_is o' s = (inr (String.eqb o o'), s).
Proof.
  intros H. unfold old_state_is, self_old_state, bind, gets, ret. cbn. rewrite H. reflexivity.
Qed.

(** ** What the methods leave untouched *)

Lemma client_do_same w m u b ok s :
  same_observation s (client_do w m u b ok s).2.
Proof. unfold client_do. destruct (respond _ _ _); split; reflexivity. Qed.

Lemma perform_same w p op s :
  op <> ApplyConfig -> same_observation s (perform w p op s).2.
Proof.
  intros Hop.
  destruct op; try congruence; cbn [perform];
    unfold _create_container, _start_container, _stop_container,
           _restart_container, _delete_container, _freeze_container,
           _unfreeze_container, _change_state, when, bind, ret, modify;
    destruct (check_mode p); cbn [negb];
    repeat match goal with
           | |- context [match target p with _ => _ end] => destruct (target p)
           | |- context [if negb (String.eqb ?a ?b) then _ else _] => destruct (String.eqb a b); cbn [negb]
           | |- context [client_do ?w ?m ?u ?b ?ok ?s] =>
               let H := fresh in
               pose proof (client_do_same w m u b ok s) as H;
               destruct (client_do w m u b ok s) as [[?|?] ?]; cbn in H |- *
           end;
    try (split; reflexivity); try assumption.
Qed.

Lemma needs_to_change_reads p key s :
  _needs_to_change_container_config p key s =
  ((_needs_to_change_container_config p key (observing (old_container_json s))).1, s).
Proof.
  unfold _needs_to_change_container_config.
  destruct (config p !! key) as [desired|]; [|reflexivity].
  unfold bind, self_old_container_json, gets, metadata_member, subscript, items, ret, raise.
  cbn.
  destruct (String.eqb key "config");
    (destruct (old_container_json s) as [r|]; cbn; [|reflexivity]);
    (destruct (r_metadata r) as [md|]; cbn; [|reflexivity]);
    (destruct (md !! key) as [o|]; cbn; [|reflexivity]); [|reflexivity].
  destruct o; try reflexivity. destruct desired; reflexivity.
Qed.

Lemma any_needs_change_reads p ps s :
  any_needs_change p ps s =
  ((any_needs_change p ps (observing (old_container_json s))).1, s).
Proof.
  revert s. induction ps as [|param ps IH]; intros s; [reflexivity|].
  cbn [any_needs_change]. unfold bind.
  rewrite (needs_to_change_reads p param s).
  rewrite (needs_to_change_reads p param (observing _)).
  cbn [old_container_json observing].
  destruct (_needs_to_change_container_config p param _).1 as [e|[|]]; cbn;
    [reflexivity|reflexivity|].
  rewrite IH. rewrite (IH (observing _)) at 1. reflexivity.
Qed.

Lemma any_needs_change_same p ps s s' b :
  old_container_json s' = old_container_json s ->
  (any_needs_change p ps s).1 = inr b ->
  any_needs_change p ps s' = (inr b, s').
Proof.
  intros Hoc H.
  rewrite any_needs_change_reads in H. rewrite any_needs_change_reads.
  rewrite Hoc. cbn [fst] in H. rewrite H. reflexivity.
Qed.

Lemma needs_to_apply_same p s s' b :
  old_container_json s' = old_container_json s ->
  (_needs_to_apply_container_configs p s).1 = inr b ->
  _needs_to_apply_container_configs p s' = (inr b, s').
Proof. exact (any_needs_change_same p mutable_params s s' b). Qed.

(** Case analysis on the outcome of the computation a [bind] runs first. *)
Ltac run_first :=
  match goal with
  | |- context [let (_, _) := ?m ?s in _] =>
      destruct (m s) as [[?|?] ?] eqn:?; cbv beta iota
  end.

Lemma bind_ret_l {A B} (a : A) (f : A -> M B) s : bind (ret a) f s = f a s.
Proof. reflexivity. Qed.

Lemma when_true m s : when true m s = m s.
Proof. reflexivity. Qed.

Lemma when_false m s : when false m s = (inr tt, s).
Proof. reflexivity. Qed.

Lemma started_plan_eq w p (o : observed) (needed : bool) (s : st) :
  old_state s = Some (module_state o) ->
  (o <> Absent -> (_needs_to_apply_container_configs p s).1 = inr needed) ->
  _started w p s =
    (perform_all w p (started_table o needed) ;;;
     when (wait_for_ipv4_addresses p) (_get_addresses w p)) s.
Proof.
  intros Hold Hneeds.
  unfold _started.
  rewrite (bind_inr _ _ _ _ _ (old_state_is_eval _ "absent" _ Hold)).
  destruct o; cbn [module_state started_table String.eqb Ascii.eqb Bool.eqb].
  - (* Absent *)
    cbn [perform_all perform]. unfold bind, ret.
    repeat run_first; reflexivity.
  - (* Stopped *)
    specialize (Hneeds ltac:(discriminate)).
    rewrite !bind_assoc.
    rewrite (bind_inr _ _ _ _ _ (old_state_is_eval _ "frozen" _ Hold)).
    cbn [module_state String.eqb Ascii.eqb Bool.eqb].
    rewrite !bind_assoc.
    rewrite (bind_inr _ _ _ _ _ (old_state_is_eval _ "stopped" _ Hold)).
    cbn [module_state String.eqb Ascii.eqb Bool.eqb when].
    cbn [perform_all perform]. rewrite !bind_assoc.
    apply bind_ext. intros [] s1 Hs1.
    pose proof (perform_same w p Start s ltac:(discriminate)) as [Hoc _].
    cbn [perform] in Hoc. rewrite Hs1 in Hoc. cbn in Hoc.
    unfold apply_if_needed. rewrite !bind_assoc.
    rewrite (bind_inr _ _ _ _ _ (needs_to_apply_same p s s1 needed Hoc Hneeds)).
    destruct needed; cbn [apply_config_if perform_all perform when]; unfold bind, ret;
      repeat run_first; reflexivity.
  - (* Running *)
    specialize (Hneeds ltac:(discriminate)).
    rewrite !bind_assoc.
    rewrite (bind_inr _ _ _ _ _ (old_state_is_eval _ "frozen" _ Hold)).
    cbn [module_state String.eqb Ascii.eqb Bool.eqb].
    rewrite !bind_assoc.
    rewrite (bind_inr _ _ _ _ _ (old_state_is_eval _ "stopped" _ Hold)).
    cbn [module_state String.eqb Ascii.eqb Bool.eqb when]. rewrite bind_ret_l.
    unfold apply_if_needed. rewrite !bind_assoc.
    rewrite (bind_inr _ _ _ _ _ (needs_to_apply_same p s s needed eq_refl Hneeds)).
    destruct needed; cbn [apply_config_if perform_all perform when]; unfold bind, ret;
      repeat run_first; reflexivity.
  - (* Frozen *)
    specialize (Hneeds ltac:(discriminate)).
    rewrite !bind_assoc.
    rewrite (bind_inr _ _ _ _ _ (old_state_is_eval _ "frozen" _ Hold)).
    cbn [module_state String.eqb Ascii.eqb Bool.eqb].
    cbn [perform_all perform]. rewrite !bind_assoc.
    apply bind_ext. intros [] s1 Hs1.
    pose proof (perform_same w p Unfreeze s ltac:(discriminate)) as [Hoc _].
    cbn [perform] in Hoc. rewrite Hs1 in Hoc. cbn in Hoc.
    unfold apply_if_needed. rewrite !bind_assoc.
    rewrite (bind_inr _ _ _ _ _ (needs_to_apply_same p s s1 needed Hoc Hneeds)).
    destruct needed; cbn [apply_config_if perform_all perform when]; unfold bind, ret;
      repeat run_first; reflexivity.
Qed.

(** ** A program logic for the methods *)

Section Rules.

Context (I : st -> Prop) (E : exn -> st -> Prop).

Lemma inv_ret {A} (a : A) : inv I E (ret a).
Proof. intros s Hs. exact Hs. Qed.

Lemma inv_gets {A} (f : st -> A) : inv I E (gets f).
Proof. intros s Hs. exact Hs. Qed.

Lemma inv_raise {A} e : (forall s, I s -> E e s) -> inv I E (@raise A e).
Proof. intros H s Hs. apply H, Hs. Qed.

Lemma inv_modify f : (forall s, I s -> I (f s)) -> inv I E (modify f).
Proof. intros H s Hs. apply H, Hs. Qed.

Lemma inv_bind {A B} (m : M A) (f : A -> M B) :
  inv I E m -> (forall a, inv I E (f a)) -> inv I E (bind m f).
Proof.
  intros Hm Hf s Hs. unfold bind. specialize (Hm s Hs).
  destruct (m s) as [[e|a] s']; [exact Hm|]. apply Hf, Hm.
Qed.

Lemma inv_rename {A} (E' : exn -> st -> Prop) (m : M A) msg :
  inv I E' m ->
  (forall m0 s, E' (LXDClientException m0) s -> E (LXDClientException msg) s) ->
  (forall e s, (forall m0, e <> LXDClientException m0) -> E' e s -> E e s) ->
  inv I E (rename_client_exception m msg).
Proof.
  intros Hm Hlxd Hpy s Hs. unfold rename_client_exception. specialize (Hm s Hs).
  destruct (m s) as [[e|a] s']; [|exact Hm].
  destruct e; try (apply Hpy; [discriminate|exact Hm]). eapply Hlxd, Hm.
Qed.

(** A call of the client: the call is recorded and time passes. *)
Lemma inv_client_do w method u b ok :
  (forall (dt : N) r s, I s -> respond w (trace s) (Do method u b ok) = inr r ->
     I (record_call (Do method u b ok) (Z.of_N dt) s)) ->
  (forall (dt : N) msg s, I s -> respond w (trace s) (Do method u b ok) = inl msg ->
     E (LXDClientException msg) (record_call (Do method u b ok) (Z.of_N dt) s)) ->
  inv I E (client_do w method u b ok).
Proof.
  intros Hok Hfail s Hs. unfold client_do. cbv zeta.
  destruct (respond w (trace s) (Do method u b ok)) eqn:Hr; [apply Hfail|eapply Hok]; eauto.
Qed.

Lemma inv_client_authenticate w pw :
  (forall (dt : N) r s, I s -> respond w (trace s) (Authenticate pw) = inr r ->
     I (record_call (Authenticate pw) (Z.of_N dt) s)) ->
  (forall (dt : N) msg s, I s -> respond w (trace s) (Authenticate pw) = inl msg ->
     E (LXDClientException msg) (record_call (Authenticate pw) (Z.of_N dt) s)) ->
  inv I E (client_authenticate w pw).
Proof.
  intros Hok Hfail s Hs. unfold client_authenticate. cbv zeta.
  destruct (respond w (trace s) (Authenticate pw)) eqn:Hr; [apply Hfail|eapply Hok]; eauto.
Qed.

End Rules.

(** [walk leaf] descends through the binds and the branches of a method
    and leaves the primitive steps to [leaf]; on an exception handler,
    [leaf] applies [inv_rename] and leaves the handled block to [walk]. *)
Ltac head_of t :=
  lazymatch t with
  | ?f _ => head_of f
  | _ => t
  end.

Ltac walk leaf :=
  lazymatch goal with
  | |- inv _ _ (bind _ _) => apply inv_bind; [walk leaf | intros ?; walk leaf]
  | |- inv _ _ (ret _) => apply inv_ret
  | |- inv _ _ (gets _) => apply inv_gets
  | |- inv _ _ (when ?b _) => destruct b eqn:?; cbn [when negb]; walk leaf
  | |- inv _ _ (if ?b then _ else _) => destruct b eqn:?; walk leaf
  | |- inv _ _ (match ?x with _ => _ end) => destruct x eqn:?; walk leaf
  | |- inv _ _ (let _ := _ in _) => cbv zeta; walk leaf
  | |- inv _ _ (rename_client_exception _ _) => leaf; walk leaf
  | |- inv _ _ ?m =>
      first [ assumption
            | solve [leaf]
            | let h := head_of m in progress unfold h; walk leaf
            | fail 1 "walk: no rule for" m ]
  end.

(** ** Frame: what the construction of the request body changes *)

Lemma only_json_changed_refl s : only_json_changed s s.
Proof. repeat split. Qed.

Lemma only_json_changed_store s0 key o s :
  only_json_changed s0 s -> only_json_changed s0 (store_metadata key o s).
Proof.
  unfold store_metadata. destruct (old_container_json s) as [r|]; [|auto].
  destruct (r_metadata r); auto.
Qed.

Ltac frame_leaf :=
  idtac;
  lazymatch goal with
  | |- inv _ _ (raise _) => apply inv_raise; intros; assumption
  | |- inv _ _ (modify _) =>
      apply inv_modify; intros; apply only_json_changed_store; assumption
  end.

Lemma needs_to_change_frame p s0 key :
  inv (only_json_changed s0) (fun _ => only_json_changed s0)
      (_needs_to_change_container_config p key).
Proof. walk frame_leaf. Qed.

Lemma merge_items_frame s0 body_json kvs :
  inv (only_json_changed s0) (fun _ => only_json_changed s0) (merge_items body_json kvs).
Proof.
  induction kvs as [|[k v] kvs IH]; cbn [merge_items]; walk frame_leaf.
Qed.

Lemma build_body_frame p s0 ps body_json :
  inv (only_json_changed s0) (fun _ => only_json_changed s0) (build_body p ps body_json).
Proof.
  revert body_json. induction ps as [|param ps IH]; intros body_json; cbn [build_body].
  - walk frame_leaf.
  - walk ltac:(idtac; lazymatch goal with
               | |- inv _ _ (build_body _ _ _) => apply IH
               | |- inv _ _ (_needs_to_change_container_config _ _) =>
                   apply needs_to_change_frame
               | |- inv _ _ (merge_items _ _) => apply merge_items_frame
               | |- _ => frame_leaf
               end).
Qed.

(** ** The action log *)

Lemma build_body_only_json p ps body_json s :
  only_json_changed s (build_body p ps body_json s).2.
Proof.
  pose proof (build_body_frame p s ps body_json s (only_json_changed_refl s)) as H.
  destruct (build_body p ps body_json s) as [[e|b] s']; exact H.
Qed.

Lemma client_do_trace w m u b ok s :
  trace (client_do w m u b ok s).2 = (trace s ++ [Do m u b ok])%list /\
  actions (client_do w m u b ok s).2 = actions s /\
  diff_before (client_do w m u b ok s).2 = diff_before s /\
  diff_after (client_do w m u b ok s).2 = diff_after s.
Proof. unfold client_do. destruct (respond _ _ _); repeat split. Qed.

(** Projections of updated states. *)
Ltac proj_simpl :=
  cbn [old_container_json old_state actions diff_before diff_after addresses
       trace clock append_action set_old_container_json set_old_state
       set_diff_before set_diff_after set_addresses record_call advance_clock
       set_after_instance d_state d_instance fst snd] in *.

(** A method that returns has logged its name, once. *)
Lemma perform_log w p op s s' :
  perform w p op s = (inr tt, s') -> actions s' = (actions s ++ [log_name op])%list.
Proof.
  destruct op; cbn [perform log_name];
    unfold _create_container, _start_container, _stop_container,
           _restart_container, _delete_container, _freeze_container,
           _unfreeze_container, _apply_container_configs, _change_state,
           self_old_container_json, when;
    unfold bind, ret, modify, gets, raise;
    destruct (check_mode p); cbn [negb]; cbv beta iota;
    repeat match goal with
           | |- context [match target p with _ => _ end] => destruct (target p)
           | |- context [if negb (String.eqb ?a ?b) then _ else _] =>
               destruct (String.eqb a b); cbn [negb]
           | |- context [match old_container_json s with _ => _ end] =>
               destruct (old_container_json s)
           | |- context [build_body ?p ?ps ?b ?s] =>
               let H := fresh in
               pose proof (build_body_only_json p ps b s) as H;
               destruct (build_body p ps b s) as [[?|?] ?]; cbn [snd] in H;
               cbv beta iota
           | |- context [client_do ?w ?m ?u ?b ?ok ?s] =>
               let H := fresh in
               pose proof (client_do_trace w m u b ok s) as H;
               destruct (client_do w m u b ok s) as [[?|?] ?]; cbn [snd] in H;
               cbv beta iota
           end;
    intros Heq; try discriminate; injection Heq as <-; proj_simpl;
    repeat match goal with
           | H : _ /\ _ |- _ => destruct H
           | H : only_json_changed _ _ |- _ => unfold only_json_changed in H
           end; proj_simpl; congruence.
Qed.

Lemma perform_all_log w p ops s s' :
  perform_all w p ops s = (inr tt, s') ->
  actions s' = (actions s ++ (log_name <$> ops))%list.
Proof.
  revert s. induction ops as [|op ops IH]; intros s; cbn [perform_all fmap list_fmap].
  - intros [= <-]. symmetry. apply app_nil_r.
  - unfold bind. destruct (perform w p op s) as [[e|[]] s1] eqn:Hop; [discriminate|].
    intros H. rewrite (IH _ H), (perform_log _ _ _ _ _ Hop), <- app_assoc. reflexivity.
Qed.

(** C1. For the desired state started the handler carries out the
    operations of the transition table, in order: create, start when the
    instance is absent; unfreeze when it is frozen and start when it is
    stopped, followed by apply-config exactly when a change is needed;
    apply-config alone, when needed, when it is running.  The address
    wait follows these operations exactly when it was requested, and
    operations that return leave their names in the action log. *)
Theorem started_follows_table w p (o : observed) (needed : bool) (s : st) :
  old_state s = Some (module_state o) ->
  (o <> Absent -> (_needs_to_apply_container_configs p s).1 = inr needed) ->
  _started w p s =
    (perform_all w p (started_table o needed) ;;;
     when (wait_for_ipv4_addresses p) (_get_addresses w p)) s
  /\ (forall s', perform_all w p (started_table o needed) s = (inr tt, s') ->
        actions s' = (actions s ++ (log_name <$> started_table o needed))%list).
Proof.
  intros Hold Hneeds. split.
  - apply started_plan_eq; assumption.
  - intros s'. apply perform_all_log.
Qed.

Lemma started_follows_table_witness :
  let w := one_instance "Frozen" {["limits.cpu" := "1"]} ∅ in
  let p := request_for "started" (Some {["limits.cpu" := "2"]}) true false in
  let s := observed_state w p in
  _started w p s =
    (perform_all w p [Unfreeze; ApplyConfig] ;;;
     when true (_get_addresses w p)) s
  /\ (forall s', perform_all w p [Unfreeze; ApplyConfig] s = (inr tt, s') ->
        actions s' = (actions s ++ ["unfreez"; "apply_container_configs"])%list).
Proof.
  intros w p s.
  apply (started_follows_table w p Frozen true s).
  - vm_compute. reflexivity.
  - intros _. vm_compute. reflexivity.
Defined.

(** ** The address wait *)

(** The loop never runs out of fuel: the clock only moves forward, and
    every iteration sleeps for a second. *)
Lemma fetch_addresses_clock w p c0 ignore :
  inv (fun s => c0 <= clock s)
      (fun e s => e <> FuelExhausted /\ c0 <= clock s)
      (_container_ipv4_addresses w p ignore).
Proof.
  walk ltac:(idtac; lazymatch goal with
             | |- inv _ _ (client_do _ _ _ _ _) =>
                 apply inv_client_do; intros; proj_simpl;
                 [|split; [discriminate|]]; lia
             | |- inv _ _ (raise _) =>
                 apply inv_raise; intros; split; [discriminate|assumption]
             end).
Qed.

Lemma poll_fuel w p fuel due s :
  due - clock s <= Z.of_nat fuel * 1000000 ->
  (poll w p fuel due s).1 <> inl FuelExhausted.
Proof.
  revert s. induction fuel as [|fuel IH]; intros s Hdue.
  - cbn [poll]. unfold bind, datetime_now, gets. cbv beta iota.
    destruct (Z.ltb_spec (clock s) due); [lia|]. discriminate.
  - cbn [poll]. unfold bind, datetime_now, gets, time_sleep, modify. cbv beta iota.
    destruct (Z.ltb_spec (clock s) due); [|discriminate].
    pose proof (fetch_addresses_clock w p (clock s + 1000000) ["lo"]
                  (advance_clock (1 * 1000000) s)) as Hf.
    destruct (_container_ipv4_addresses w p ["lo"] _) as [[e|a] s1].
    + cbn [fst]. intros [= ->]. destruct Hf as [Hf _]; [proj_simpl; lia|]. congruence.
    + destruct (_has_all_ipv4_addresses a); [discriminate|].
      apply IH. specialize (Hf ltac:(proj_simpl; lia)). lia.
Qed.

Lemma get_addresses_total w p s :
  (_get_addresses w p s).1 <> inl FuelExhausted.
Proof.
  unfold _get_addresses, rename_client_exception, bind, datetime_now, gets.
  cbv beta iota zeta.
  pose proof (poll_fuel w p (Z.to_nat (timeout p)) (clock s + timeout p * 1000000) s) as H.
  destruct (poll w p _ _ s) as [[e|a] s1]; [|discriminate].
  destruct e; try discriminate. cbn [fst] in *. apply H. lia.
Qed.

(** C3. At the deadline the address wait gives up silently: with one
    device still without an IPv4 address on every poll, the run ends
    with [exit_json] and without the [addresses] member, instead of the
    failure the design asks for. *)
Theorem deadline_is_not_a_failure :
  let w := one_instance "Running" ∅
             {["eth0" := [("inet", "10.0.0.2")]; "eth1" := [("inet6", "fe80::1")]]} in
  let p := request_for "started" None true false in
  (exists r, run w p = exit_json r /\ res_addresses r = None /\
             changed r = false /\ res_actions r = []) /\
  run_trace w p =
    [Do GET (Url "/1.0/instances/c1" []) NoBody [404];
     Do GET (Url "/1.0/instances/c1/state" []) NoBody [404];
     Do GET (Url "/1.0/instances/c1/state" []) NoBody [404]].
Proof.
  intros w p. split.
  - eexists. split; [vm_compute; reflexivity|]. repeat split.
  - vm_compute. reflexivity.
Qed.

(** C5. From a frozen instance to the desired state absent the handler
    unfreezes, stops and deletes, and the run reports a change; the
    first operation is logged as [unfreez], not [unfreeze]. *)
Theorem frozen_to_absent_log :
  let w := one_instance "Frozen" ∅ ∅ in
  let p := request_for "absent" None false false in
  (exists r, run w p = exit_json r /\ changed r = true /\
             res_actions r = ["unfreez"; "stop"; "delete"]) /\
  run_trace w p =
    [Do GET (Url "/1.0/instances/c1" []) NoBody [404];
     Do PUT (Url "/1.0/instances/c1/state" []) (StateBody "unfreeze" 2 None) [];
     Do PUT (Url "/1.0/instances/c1/state" []) (StateBody "stop" 2 None) [];
     Do DELETE (Url "/1.0/instances/c1" []) NoBody []].
Proof.
  intros w p. split.
  - eexists. split; [vm_compute; reflexivity|]. repeat split.
  - vm_compute. reflexivity.
Qed.

(** ** Invariants of a whole run *)

Lemma inv_final {A} (I : st -> Prop) (m : M A) s :
  inv I (fun _ => I) m -> I s -> I (m s).2.
Proof. intros H Hs. specialize (H s Hs). destruct (m s) as [[e|a] s']; exact H. Qed.

Lemma needs_to_change_py p key :
  inv (fun _ => True) (fun e _ => is_py e) (_needs_to_change_container_config p key).
Proof.
  walk ltac:(idtac; lazymatch goal with
             | |- inv _ _ (raise _) => apply inv_raise; intros ? _ ?; discriminate
             | |- inv _ _ (modify _) => apply inv_modify; intros; exact Logic.I
             end).
Qed.

Lemma any_needs_change_only_json p ps s :
  (any_needs_change p ps s).2 = s.
Proof. rewrite any_needs_change_reads. reflexivity. Qed.

Lemma any_needs_change_py p ps :
  inv (fun _ => True) (fun e _ => is_py e) (any_needs_change p ps).
Proof.
  induction ps as [|param ps IH]; cbn [any_needs_change].
  - apply inv_ret.
  - apply inv_bind; [apply needs_to_change_py|]. intros []; [apply inv_ret|exact IH].
Qed.

(** The comparison neither changes the state nor contacts the client. *)
Lemma needs_to_apply_inv p (I : st -> Prop) (E : exn -> st -> Prop) :
  (forall e s, is_py e -> I s -> E e s) ->
  inv I E (_needs_to_apply_container_configs p).
Proof.
  intros HE s Hs. unfold _needs_to_apply_container_configs.
  pose proof (any_needs_change_only_json p mutable_params s) as Hfr.
  pose proof (any_needs_change_py p mutable_params s Logic.I) as Hpy.
  destruct (any_needs_change p mutable_params s) as [[e|b] s']; cbn [snd] in Hfr; subst s'.
  - apply HE; assumption.
  - exact Hs.
Qed.

(** ** Attributes the caller leaves out *)

Lemma build_config_omitted mp key :
  mp !! key = None \/ mp !! key = Some ONone ->
  _build_config mp !! key = None.
Proof.
  intros Hkey. unfold _build_config.
  assert (Hgen : forall l (acc : gmap string obj), acc !! key = None ->
            foldl (fun cfg attr =>
                     match mp !! attr with
                     | Some ONone | None => cfg
                     | Some param_val => <[attr := param_val]> cfg
                     end) acc l !! key = None).
  { induction l as [|attr l IH]; intros acc Hacc; [exact Hacc|].
    cbn [foldl]. apply IH.
    destruct (decide (attr = key)) as [->|Hne].
    - destruct Hkey as [-> | ->]; exact Hacc.
    - destruct (mp !! attr) as [[]|]; try exact Hacc;
        rewrite lookup_insert_ne by exact Hne; exact Hacc. }
  apply Hgen. apply lookup_empty.
Qed.

Lemma needs_to_change_omitted p key s :
  omitted p key -> _needs_to_change_container_config p key s = (inr false, s).
Proof.
  intros H. unfold _needs_to_change_container_config, config.
  rewrite (build_config_omitted _ _ H). reflexivity.
Qed.

Lemma any_needs_change_omitted p ps s :
  (forall key, key ∈ ps -> omitted p key) ->
  any_needs_change p ps s = (inr false, s).
Proof.
  induction ps as [|param ps IH]; intros H; [reflexivity|].
  cbn [any_needs_change]. unfold bind.
  rewrite needs_to_change_omitted by (apply H; left).
  apply IH. intros key Hkey. apply H. right. exact Hkey.
Qed.

Section Omitted.

Context (w : world) (p : params).
Hypothesis all_omitted : forall key, key ∈ mutable_params -> omitted p key.

Lemma not_applied_append a s :
  a <> "apply_container_configs" -> not_applied s -> not_applied (append_action a s).
Proof.
  unfold not_applied. intros Ha Hs. proj_simpl.
  rewrite elem_of_app, list_elem_of_singleton. intros [?|?]; [auto|congruence].
Qed.

Ltac omitted_leaf :=
  idtac;
  lazymatch goal with
  | |- inv _ _ (raise _) => apply inv_raise; intros; assumption
  | |- inv _ _ (modify (append_action _)) =>
      apply inv_modify; intros; apply not_applied_append; [discriminate|assumption]
  | |- inv _ _ (modify _) => apply inv_modify; intros; assumption
  | |- inv _ _ (client_do _ _ _ _ _) => apply inv_client_do; intros; assumption
  | |- inv _ _ (client_authenticate _ _) =>
      apply inv_client_authenticate; intros; assumption
  | |- inv _ _ (_needs_to_apply_container_configs _) =>
      apply needs_to_apply_inv; intros; assumption
  end.

Lemma apply_if_needed_omitted s : apply_if_needed w p s = (inr tt, s).
Proof.
  unfold apply_if_needed, _needs_to_apply_container_configs, bind.
  rewrite (any_needs_change_omitted p mutable_params s all_omitted). reflexivity.
Qed.

Lemma apply_if_needed_not_applied :
  inv not_applied (fun _ => not_applied) (apply_if_needed w p).
Proof. intros s Hs. rewrite apply_if_needed_omitted. exact Hs. Qed.

Lemma poll_not_applied fuel due :
  inv not_applied (fun _ => not_applied) (poll w p fuel due).
Proof.
  induction fuel as [|fuel IH]; cbn [poll]; walk omitted_leaf.
Qed.

Lemma before_entries_not_applied sections :
  inv not_applied (fun _ => not_applied) (before_entries sections).
Proof.
  induction sections as [|[section content] rest IH]; cbn [before_entries];
    walk omitted_leaf.
Qed.

Ltac omitted_step :=
  idtac;
  lazymatch goal with
  | |- inv _ _ (apply_if_needed _ _) => apply apply_if_needed_not_applied
  | |- inv _ _ (poll _ _ _ _) => apply poll_not_applied
  | |- inv _ _ (before_entries _) => apply before_entries_not_applied
  | |- inv _ _ (rename_client_exception _ _) =>
      apply inv_rename with (E' := fun _ => not_applied); [|auto|auto]
  | |- _ => omitted_leaf
  end.

Lemma stopped_not_applied : inv not_applied (fun _ => not_applied) (_stopped w p).
Proof.
  unfold _stopped.
  apply inv_bind; [walk omitted_step|]. intros [|]; [walk omitted_step|].
  apply inv_bind; [walk omitted_step|]. intros [|]; [|walk omitted_step].
  intros s Hs. unfold _needs_to_apply_container_configs, bind.
  rewrite (any_needs_change_omitted p mutable_params s all_omitted). exact Hs.
Qed.

Lemma run_body_not_applied : inv not_applied (fun _ => not_applied) (run_body w p).
Proof.
  unfold run_body.
  apply inv_bind; [walk omitted_step|intros _].
  apply inv_bind; [|intros _; walk omitted_step].
  unfold dispatch. destruct (assoc (state p) LXD_ANSIBLE_STATES); [|walk omitted_step].
  unfold getattr.
  repeat match goal with
         | |- inv _ _ (if ?b then _ else _) => destruct b
         end;
    try apply stopped_not_applied; walk omitted_step.
Qed.

End Omitted.

(** C10. An attribute left out of the desired specification is never
    reported as differing, whatever the instance holds; when every
    mutable attribute is left out, no run logs an apply-config action. *)
Theorem omitted_attributes_never_apply w p :
  (forall key s, omitted p key ->
     _needs_to_change_container_config p key s = (inr false, s)) /\
  ((forall key, key ∈ mutable_params -> omitted p key) ->
   "apply_container_configs" ∉ actions (run_from w p (init w)).2).
Proof.
  split.
  - intros key s H. apply needs_to_change_omitted, H.
  - intros H.
    assert (Hfin : not_applied (run_body w p (init w)).2).
    { apply inv_final; [apply run_body_not_applied, H|].
      unfold not_applied. cbn. apply not_elem_of_nil. }
    unfold run_from. destruct (run_body w p (init w)) as [[[]|r] s']; exact Hfin.
Qed.

Lemma omitted_attributes_never_apply_witness :
  let w := one_instance "Stopped" {["limits.cpu" := "1"]} ∅ in
  let p := request_for "started" None false false in
  _needs_to_change_container_config p "config" (observed_state w p)
    = (inr false, observed_state w p) /\
  "apply_container_configs" ∉ actions (run_from w p (init w)).2.
Proof.
  intros w p. destruct (omitted_attributes_never_apply w p) as [H1 H2]. split.
  - apply H1. left. vm_compute. reflexivity.
  - apply H2. intros key Hkey. rewrite mutable_params_value in Hkey.
    repeat (apply elem_of_cons in Hkey as [->|Hkey]; [left; vm_compute; reflexivity|]).
    apply elem_of_nil in Hkey. destruct Hkey.
Defined.

(** ** Dry run *)

(** A property of the state that does not look at the fetched document
    is kept by the comparison and by the construction of the body. *)
Lemma build_body_inv p (I : st -> Prop) ps body_json :
  (forall s s', only_json_changed s s' -> I s -> I s') ->
  inv I (fun _ => I) (build_body p ps body_json).
Proof.
  intros HI s Hs. pose proof (build_body_only_json p ps body_json s) as H.
  destruct (build_body p ps body_json s) as [[e|b] s']; exact (HI _ _ H Hs).
Qed.

Section DryRun.

Context (w : world) (p : params).
Hypothesis dry : check_mode p = true.

Lemma read_only_record c dt s :
  is_mutating c = false -> read_only s -> read_only (record_call c dt s).
Proof.
  unfold read_only. intros Hc Hs. proj_simpl. apply Forall_app. split; [exact Hs|].
  constructor; [exact Hc|constructor].
Qed.

Lemma read_only_frame s s' : only_json_changed s s' -> read_only s -> read_only s'.
Proof. unfold read_only. intros (_ & _ & _ & _ & _ & -> & _). auto. Qed.

Ltac guarded :=
  match goal with
  | H : negb (check_mode p) = true |- _ => rewrite dry in H; discriminate H
  end.

Ltac dry_leaf :=
  idtac;
  lazymatch goal with
  | |- inv _ _ (raise _) => apply inv_raise; intros; assumption
  | |- inv _ _ (modify (store_metadata _ _)) =>
      apply inv_modify; intros ? ?; eapply read_only_frame;
      [apply only_json_changed_store, only_json_changed_refl|assumption]
  | |- inv _ _ (modify _) => apply inv_modify; intros; assumption
  | |- inv _ _ (client_do _ GET _ _ _) =>
      apply inv_client_do; intros; cbv beta;
      (apply read_only_record; [reflexivity|assumption])
  | |- inv _ _ (client_do _ _ _ _ _) => guarded
  | |- inv _ _ (client_authenticate _ _) =>
      apply inv_client_authenticate; intros; cbv beta;
      (apply read_only_record; [reflexivity|assumption])
  | |- inv _ _ (_needs_to_apply_container_configs _) =>
      apply needs_to_apply_inv; intros; assumption
  | |- inv _ _ (build_body _ _ _) => apply build_body_inv, read_only_frame
  | |- inv _ _ (rename_client_exception _ _) =>
      apply inv_rename with (E' := fun _ => read_only); [|auto|auto]
  end.

Lemma poll_read_only fuel due :
  inv read_only (fun _ => read_only) (poll w p fuel due).
Proof.
  induction fuel as [|fuel IH]; cbn [poll]; walk dry_leaf.
Qed.

Lemma before_entries_read_only sections :
  inv read_only (fun _ => read_only) (before_entries sections).
Proof.
  induction sections as [|[section content] rest IH]; cbn [before_entries];
    walk dry_leaf.
Qed.

Ltac dry_step :=
  idtac;
  lazymatch goal with
  | |- inv _ _ (poll _ _ _ _) => apply poll_read_only
  | |- inv _ _ (before_entries _) => apply before_entries_read_only
  | |- _ => dry_leaf
  end.

Lemma run_body_read_only : inv read_only (fun _ => read_only) (run_body w p).
Proof. walk dry_step. Qed.

Lemma run_trace_read_only : Forall (fun c => is_mutating c = false) (run_trace w p).
Proof.
  assert (Hfin : read_only (run_body w p (init w)).2).
  { apply inv_final; [apply run_body_read_only|]. constructor. }
  unfold run_trace, run_from. destruct (run_body w p (init w)) as [[[]|r] s']; exact Hfin.
Qed.

(** An operation other than apply-config only logs its name. *)
Lemma perform_dry op s :
  op <> ApplyConfig -> perform w p op s = (inr tt, append_action (log_name op) s).
Proof.
  intros Hop. destruct op; try congruence; cbn [perform log_name];
    unfold _create_container, _start_container, _stop_container,
           _restart_container, _delete_container, _freeze_container,
           _unfreeze_container, _change_state, when, bind;
    rewrite dry; reflexivity.
Qed.

Lemma apply_dry s s' :
  _apply_container_configs w p s = (inr tt, s') ->
  actions s' = (actions s ++ ["apply_container_configs"])%list /\
  trace s' = trace s /\
  exists body_json, d_instance (diff_after s') = Some body_json.
Proof.
  unfold _apply_container_configs, self_old_container_json, when.
  unfold bind, ret, modify, gets, raise. rewrite dry. cbn [negb]. cbv beta iota.
  destruct (old_container_json s); [|discriminate].
  pose proof (build_body_only_json p mutable_params ∅ s) as H.
  destruct (build_body p mutable_params ∅ s) as [[e|b] s1]; [discriminate|].
  cbn [snd] in H. destruct H as (_ & Ha & _ & _ & _ & Ht & _).
  intros [= <-]. proj_simpl. rewrite Ha, Ht. eauto.
Qed.

End DryRun.

(** ** Converged instances *)

Section Converged.

Context (w : world) (p : params).








End Converged.



(** ** The comparison and the merge of [config] *)

Lemma config_differs_true old_configs desired :
  config_differs old_configs desired = true <->
  exists k v, desired !! k = Some v /\ old_configs !! k <> Some v.
Proof.
  unfold config_differs. rewrite existsb_exists. split.
  - intros ([k v] & Hin & H). exists k, v. cbn [fst snd] in H.
    apply list_elem_of_In, elem_of_map_to_list in Hin. split; [exact Hin|].
    destruct (old_configs !! k) as [v'|]; [|discriminate].
    apply negb_true_iff, bool_decide_eq_false in H. congruence.
  - intros (k & v & Hd & Ho). exists (k, v). split.
    + apply list_elem_of_In, elem_of_map_to_list. exact Hd.
    + cbn [fst snd]. destruct (old_configs !! k) as [v'|]; [|reflexivity].
      apply negb_true_iff, bool_decide_eq_false. congruence.
Qed.

Lemma config_differs_false old_configs desired :
  config_differs old_configs desired = false <->
  forall k v, desired !! k = Some v -> old_configs !! k = Some v.
Proof.
  rewrite <- not_true_iff_false, config_differs_true. split.
  - intros H k v Hd. destruct (decide (old_configs !! k = Some v)) as [|Hne]; [assumption|].
    exfalso. apply H. eauto.
  - intros H (k & v & Hd & Ho). apply Ho, H, Hd.
Qed.

Lemma without_volatile_lookup old k :
  without_volatile old !! k = if is_volatile k then None else old !! k.
Proof.
  unfold without_volatile. destruct (is_volatile k) eqn:Hk.
  - apply map_lookup_filter_None. right. intros v _ H. cbn [fst] in H. congruence.
  - destruct (old !! k) as [v|] eqn:Ho.
    + apply map_lookup_filter_Some. split; [exact Ho|exact Hk].
    + apply map_lookup_filter_None. left. exact Ho.
Qed.

(** Assigning the items of a mapping one by one is a left-biased union. *)
Lemma foldl_insert_union (l : list (string * string)) (cur : gmap string string) :
  NoDup l.*1 ->
  foldl (fun m kv => <[kv.1 := kv.2]> m) cur l = list_to_map l ∪ cur.
Proof.
  revert cur. induction l as [|[k v] l IH]; intros cur Hnd; cbn [foldl list_to_map foldr].
  - symmetry. apply (left_id_L ∅ (∪)).
  - cbn [fmap list_fmap fst] in Hnd. apply NoDup_cons in Hnd as [Hk Hnd].
    rewrite IH by exact Hnd. cbn [fst snd uncurry].
    rewrite <- insert_union_r by (apply not_elem_of_list_to_map_1, Hk).
    rewrite insert_union_l. reflexivity.
Qed.

Lemma merge_all (desired cur : gmap string string) :
  foldl (fun m kv => <[kv.1 := kv.2]> m) cur (map_to_list desired) = desired ∪ cur.
Proof.
  rewrite foldl_insert_union by apply NoDup_fst_map_to_list.
  rewrite list_to_map_to_list. reflexivity.
Qed.

Lemma union_unchanged (desired cur : gmap string string) :
  (forall k v, desired !! k = Some v -> cur !! k = Some v) -> desired ∪ cur = cur.
Proof.
  intros H. apply map_eq. intros k. rewrite lookup_union.
  destruct (desired !! k) as [v|] eqn:Hd.
  - rewrite (H _ _ Hd). reflexivity.
  - destruct (cur !! k); reflexivity.
Qed.

(** *** Reading and writing the fetched document *)

Lemma observed_section_read s key o :
  observed_section s key = Some o ->
  exists resp md, old_container_json s = Some resp /\ r_metadata resp = Some md /\
                  md !! key = Some o.
Proof.
  unfold observed_section, old_metadata.
  destruct (old_container_json s) as [resp|]; [|discriminate]. cbn.
  destruct (r_metadata resp) as [md|] eqn:Hr; [|discriminate]. cbn.
  intros H. exists resp, md. auto.
Qed.

Lemma observed_section_store s key o key' :
  is_Some (old_metadata s) ->
  observed_section (store_metadata key o s) key' =
    if decide (key = key') then Some o else observed_section s key'.
Proof.
  unfold observed_section, old_metadata, store_metadata. intros [md Hmd].
  destruct (old_container_json s) as [resp|]; [|discriminate]. cbn in Hmd.
  destruct (r_metadata resp) as [md'|] eqn:Hr; [|discriminate]. cbn. rewrite Hr. cbn.
  rewrite lookup_insert. reflexivity.
Qed.

Lemma store_only_json s key o : only_json_changed s (store_metadata key o s).
Proof. apply only_json_changed_store, only_json_changed_refl. Qed.

Lemma only_json_changed_trans s1 s2 s3 :
  only_json_changed s1 s2 -> only_json_changed s2 s3 -> only_json_changed s1 s3.
Proof.
  unfold only_json_changed. intros (?&?&?&?&?&?&?) (?&?&?&?&?&?&?).
  repeat split; congruence.
Qed.

Lemma metadata_member_read s key o :
  observed_section s key = Some o ->
  (resp_json <- self_old_container_json ;; metadata_member resp_json key) s = (inr o, s).
Proof.
  intros H. apply observed_section_read in H as (resp & md & H1 & H2 & H3).
  unfold self_old_container_json, metadata_member, subscript.
  unfold bind, gets, ret. cbv beta iota. rewrite H1. cbv beta iota. rewrite H2, H3.
  reflexivity.
Qed.

Section Merge.

Context (p : params) (desired : gmap string string).
Hypothesis desired_config : config p !! "config" = Some (ODict desired).

Lemma needs_config_eval s old :
  observed_section s "config" = Some (ODict old) ->
  _needs_to_change_container_config p "config" s =
    (inr (config_differs (without_volatile old) desired), s).
Proof.
  intros H. apply observed_section_read in H as (resp & md & H1 & H2 & H3).
  unfold _needs_to_change_container_config. rewrite desired_config.
  cbn [String.eqb Ascii.eqb Bool.eqb].
  unfold self_old_container_json, metadata_member, subscript, items.
  unfold bind, gets, ret. cbv beta iota. rewrite H1. cbv beta iota. rewrite H2, H3.
  reflexivity.
Qed.

Lemma needs_other_eval s key :
  key <> "config" ->
  (is_Some (config p !! key) -> is_Some (observed_section s key)) ->
  exists b, _needs_to_change_container_config p key s = (inr b, s).
Proof.
  intros Hkey Hpresent. unfold _needs_to_change_container_config.
  destruct (config p !! key) as [d|]; [|eexists; reflexivity].
  destruct (Hpresent ltac:(eauto)) as [o Ho].
  apply String.eqb_neq in Hkey. rewrite Hkey.
  apply observed_section_read in Ho as (resp & md & H1 & H2 & H3).
  unfold self_old_container_json, metadata_member, subscript.
  unfold bind, gets, ret. cbv beta iota. rewrite H1. cbv beta iota. rewrite H2, H3.
  eexists. reflexivity.
Qed.

(** The loop that assigns the desired items to the fetched [config]. *)
Lemma merge_items_eval body_json kvs s cur :
  body_json !! "config" = Some (FromResponse "config") ->
  observed_section s "config" = Some (ODict cur) ->
  exists s',
    merge_items body_json kvs s = (inr tt, s') /\
    only_json_changed s s' /\
    observed_section s' "config" =
      Some (ODict (foldl (fun m kv => <[kv.1 := kv.2]> m) cur kvs)) /\
    (forall key, key <> "config" -> observed_section s' key = observed_section s key).
Proof.
  intros Hb. revert s cur. induction kvs as [|[k v] kvs IH]; intros s cur Hcur.
  - exists s. cbn [merge_items foldl]. split; [reflexivity|].
    split; [apply only_json_changed_refl|]. split; [exact Hcur|reflexivity].
  - cbn [merge_items foldl fst snd].
    pose proof (observed_section_read _ _ _ Hcur) as (resp & md & H1 & H2 & H3).
    set (s1 := store_metadata "config" (ODict (<[k := v]> cur)) s).
    assert (Hmd : is_Some (old_metadata s)).
    { unfold old_metadata. rewrite H1. cbn. rewrite H2. eauto. }
    assert (Hs1 : observed_section s1 "config" = Some (ODict (<[k := v]> cur))).
    { unfold s1. rewrite observed_section_store by exact Hmd.
      rewrite decide_True by reflexivity. reflexivity. }
    destruct (IH s1 _ Hs1) as (s' & Hrun & Hfr & Hcfg & Hother).
    exists s'. split; [|split; [|split]].
    + unfold subscript at 1. rewrite Hb. rewrite bind_ret_l.
      unfold setitem. rewrite bind_assoc.
      unfold self_old_container_json, metadata_member, subscript.
      unfold bind, gets, ret, modify. cbv beta iota. rewrite H1. cbv beta iota.
      rewrite H2, H3. exact Hrun.
    + eapply only_json_changed_trans; [apply store_only_json|exact Hfr].
    + exact Hcfg.
    + intros key Hkey. rewrite (Hother key Hkey). unfold s1.
      rewrite observed_section_store by exact Hmd.
      rewrite decide_False by congruence. reflexivity.
Qed.

(** The construction of the request body: the fetched [config] ends up
    as the union, and the body refers to it. *)
Lemma build_body_eval ps : forall body_json s cur,
  observed_section s "config" = Some (ODict cur) ->
  (forall key, key ∈ ps -> is_Some (config p !! key) -> is_Some (observed_section s key)) ->
  exists body_json' s',
    build_body p ps body_json s = (inr body_json', s') /\
    only_json_changed s s' /\
    observed_section s' "config" =
      Some (ODict (if bool_decide ("config" ∈ ps) then desired ∪ cur else cur)) /\
    body_json' !! "config" =
      (if bool_decide ("config" ∈ ps) then Some (FromResponse "config")
       else body_json !! "config").
Proof.
  induction ps as [|param ps IH]; intros body_json s cur Hcur Hpresent.
  - exists body_json, s. cbn [build_body]. split; [reflexivity|].
    split; [apply only_json_changed_refl|]. split; [exact Hcur|reflexivity].
  - cbn [build_body].
    pose proof (observed_section_read _ _ _ Hcur) as (resp & md & H1 & H2 & H3).
    unfold self_old_container_json at 1. unfold bind at 1 2, gets at 1.
    cbv beta iota. rewrite H1. unfold ret at 1. cbv beta iota. rewrite H2.
    unfold bind at 1, ret at 1. cbv beta iota.
    set (body1 := if bool_decide (is_Some (md !! param))
                  then <[param := FromResponse param]> body_json else body_json).
    destruct (decide (param = "config")) as [->|Hne].
    + (* the [config] attribute *)
      assert (Hbody1 : body1 !! "config" = Some (FromResponse "config")).
      { unfold body1. rewrite bool_decide_eq_true_2 by (rewrite H3; eauto).
        apply lookup_insert_eq. }
      unfold bind at 1. rewrite (needs_config_eval s cur Hcur).
      assert (Hstep : exists s1,
                 (if config_differs (without_volatile cur) desired
                  then (desired0 <- subscript (config p) "config" ;;
                        desired_items <- items desired0 ;;
                        merge_items body1 (map_to_list desired_items) ;;; ret body1)
                  else ret body1) s = (inr body1, s1) /\
                 only_json_changed s s1 /\
                 observed_section s1 "config" = Some (ODict (desired ∪ cur)) /\
                 (forall key, key <> "config" ->
                    observed_section s1 key = observed_section s key)).
      { destruct (config_differs (without_volatile cur) desired) eqn:Hd.
        - destruct (merge_items_eval body1 (map_to_list desired) s cur Hbody1 Hcur)
            as (s1 & Hrun & Hfr & Hcfg & Hother).
          exists s1. split; [|split; [exact Hfr|split; [|exact Hother]]].
          + unfold subscript. rewrite desired_config. rewrite bind_ret_l.
            unfold items. rewrite bind_ret_l. unfold bind. rewrite Hrun. reflexivity.
          + rewrite Hcfg, merge_all. reflexivity.
        - exists s. split; [reflexivity|]. split; [apply only_json_changed_refl|].
          split; [|reflexivity]. rewrite Hcur. do 2 f_equal. symmetry.
          apply union_unchanged. intros k v Hk.
          pose proof (proj1 (config_differs_false _ _) Hd k v Hk) as Hw.
          rewrite without_volatile_lookup in Hw. destruct (is_volatile k); congruence. }
      cbn [String.eqb Ascii.eqb Bool.eqb] in *.
      destruct Hstep as (s1 & Hrun & Hfr & Hcfg & Hother).
      unfold bind at 1. rewrite Hrun.
      destruct (IH body1 s1 (desired ∪ cur) Hcfg) as (b' & s' & Hrun' & Hfr' & Hcfg' & Hb').
      { intros key Hkey Hsome. destruct (decide (key = "config")) as [->|Hk].
        - rewrite Hcfg. eauto.
        - rewrite Hother by exact Hk. apply Hpresent; [right; exact Hkey|exact Hsome]. }
      exists b', s'. split; [exact Hrun'|]. split.
      { eapply only_json_changed_trans; eassumption. }
      rewrite bool_decide_eq_true_2 by left. split.
      * rewrite Hcfg'. do 2 f_equal. destruct (bool_decide ("config" ∈ ps)); [|reflexivity].
        rewrite (assoc_L (∪)), (idemp_L (∪) desired). reflexivity.
      * rewrite Hb'. destruct (bool_decide ("config" ∈ ps)); [reflexivity|exact Hbody1].
    + (* another attribute *)
      destruct (needs_other_eval s param Hne) as [b Hb].
      { apply Hpresent. left. }
      unfold bind at 1. rewrite Hb.
      apply String.eqb_neq in Hne as Hneb. rewrite Hneb.
      set (body2 := if b then <[param := FromParams param]> body1 else body1).
      assert (Hstep : (if b then ret (<[param := FromParams param]> body1) else ret body1) s
                      = (inr body2, s)).
      { unfold body2. destruct b; reflexivity. }
      unfold bind at 1. rewrite Hstep.
      destruct (IH body2 s cur Hcur) as (b' & s' & Hrun' & Hfr' & Hcfg' & Hb').
      { intros key Hkey. apply Hpresent. right. exact Hkey. }
      exists b', s'. split; [exact Hrun'|]. split; [exact Hfr'|].
      assert (Hmem : bool_decide ("config" ∈ param :: ps) = bool_decide ("config" ∈ ps)).
      { apply bool_decide_ext. rewrite elem_of_cons. split; [intros [?|?]|right];
          [congruence|assumption|assumption]. }
      rewrite Hmem. split; [exact Hcfg'|].
      rewrite Hb'. destruct (bool_decide ("config" ∈ ps)); [reflexivity|].
      unfold body2, body1.
      destruct b; destruct (bool_decide (is_Some (md !! param)));
        rewrite ?lookup_insert_ne by congruence; reflexivity.
Qed.

End Merge.

Lemma render_lookup cfg s body_json key r :
  body_json !! key = Some r -> render cfg s body_json !! key = deref cfg s r.
Proof. intros H. unfold render. rewrite lookup_omap, H. reflexivity. Qed.

Section Apply.

Context (w : world) (p : params) (desired old : gmap string string) (s : st).
Hypothesis desired_config : config p !! "config" = Some (ODict desired).
Hypothesis observed_config : observed_section s "config" = Some (ODict old).
Hypothesis present : sections_present p s.
Hypothesis accepted : check_mode p = true \/ accepting w.

(** [_apply_container_configs] returns; the fetched [config] has become
    the union, the instance part of the diff's after side refers to it,
    and so does the body of the request, when one is sent. *)
Lemma apply_configs_eval :
  exists s' body_json,
    _apply_container_configs w p s = (inr tt, s') /\
    d_instance (diff_after s') = Some body_json /\
    render (config p) s' body_json !! "config" = Some (ODict (desired ∪ old)) /\
    (if check_mode p then trace s' = trace s
     else exists pushed,
         trace s' = (trace s ++ [Do PUT (Url (endpoint p ++ "/" ++ name p) [])
                                    (InstanceBody pushed) []])%list /\
         pushed !! "config" = Some (ODict (desired ∪ old))).
Proof.
  destruct (build_body_eval p desired desired_config mutable_params ∅ s old
              observed_config present)
    as (b' & s1 & Hrun & Hfr & Hcfg & Hb').
  rewrite bool_decide_eq_true_2 in Hcfg, Hb' by (rewrite mutable_params_value; left).
  pose proof (observed_section_read _ _ _ observed_config) as (resp & md & H1 & H2 & H3).
  destruct Hfr as (_ & _ & _ & _ & _ & Htr & _).
  assert (Hrender : forall s2, observed_section s2 "config" = observed_section s1 "config" ->
            render (config p) s2 b' !! "config" = Some (ODict (desired ∪ old))).
  { intros s2 Hs2. rewrite (render_lookup _ _ _ _ _ Hb'). cbn [deref].
    fold (observed_section s2 "config"). rewrite Hs2. exact Hcfg. }
  unfold _apply_container_configs, self_old_container_json.
  unfold bind at 1 2, gets at 1. cbv beta iota. rewrite H1. unfold ret at 1.
  cbv beta iota. unfold bind at 1. rewrite Hrun. unfold bind at 1, modify at 1.
  cbv beta iota. destruct (check_mode p) eqn:Hcm; cbn [negb when].
  - eexists _, b'. rewrite bind_ret_l. split; [reflexivity|].
    split; [reflexivity|]. split; [apply Hrender; reflexivity|exact Htr].
  - destruct accepted as [Hc|Hacc]; [congruence|].
    unfold bind at 1 2 3, gets at 1, client_do. cbv beta iota zeta.
    set (c := Do PUT _ _ _).
    destruct (Hacc (trace (set_after_instance b' s1)) c) as [r Hr]. rewrite Hr.
    cbv beta iota. unfold ret at 1, modify. cbv beta iota.
    eexists _, b'. split; [reflexivity|]. split; [reflexivity|].
    split; [apply Hrender; reflexivity|].
    eexists. split; [proj_simpl; rewrite Htr; reflexivity|].
    apply Hrender. reflexivity.
Qed.

End Apply.

(** C7. The [config] that [_apply_container_configs] pushes is the
    observed mapping overlaid with the desired one: every desired key
    has its desired value, every other observed key keeps its observed
    value, and no key is lost.  The [config] attribute needs a change
    exactly when some desired key is missing from the observed mapping
    without its volatile keys, or has another value there. *)
Theorem pushed_config_is_superset_merge w p (desired old : gmap string string) s :
  config p !! "config" = Some (ODict desired) ->
  observed_section s "config" = Some (ODict old) ->
  sections_present p s ->
  check_mode p = true \/ accepting w ->
  exists s' body_json pushed,
    _apply_container_configs w p s = (inr tt, s') /\
    d_instance (diff_after s') = Some body_json /\
    render (config p) s' body_json !! "config" = Some (ODict pushed) /\
    (check_mode p = false ->
       exists body, last (trace s') =
                      Some (Do PUT (Url (endpoint p ++ "/" ++ name p) [])
                               (InstanceBody body) []) /\
                    body !! "config" = Some (ODict pushed)) /\
    (forall k v, desired !! k = Some v -> pushed !! k = Some v) /\
    (forall k, desired !! k = None -> pushed !! k = old !! k) /\
    (forall k, is_Some (old !! k) -> is_Some (pushed !! k)) /\
    exists b, _needs_to_change_container_config p "config" s = (inr b, s) /\
              (b = true <->
               exists k v, desired !! k = Some v /\ without_volatile old !! k <> Some v).
Proof.
  intros Hd Ho Hp Ha.
  destruct (apply_configs_eval w p desired old s Hd Ho Hp Ha)
    as (s' & body_json & Hrun & Hafter & Hrender & Htrace).
  exists s', body_json, (desired ∪ old).
  split; [exact Hrun|]. split; [exact Hafter|]. split; [exact Hrender|].
  split; [|split; [|split; [|split]]].
  - intros Hcm. rewrite Hcm in Htrace. destruct Htrace as (pushed & Htr & Hpushed).
    exists pushed. rewrite Htr, last_snoc. auto.
  - intros k v Hk. apply lookup_union_Some_l, Hk.
  - intros k Hk. apply lookup_union_r, Hk.
  - intros k [v Hk]. rewrite lookup_union. destruct (desired !! k); rewrite ?Hk; eauto.
  - eexists. split; [apply (needs_config_eval p desired Hd s old Ho)|].
    apply config_differs_true.
Qed.

Lemma pushed_config_is_superset_merge_witness :
  let w := one_instance "Running" {["limits.cpu" := "1"; "volatile.idmap.base" := "0"]} ∅ in
  let p := request_for "started" (Some {["limits.cpu" := "2"; "limits.memory" := "1GB"]})
             false false in
  exists s' body_json pushed,
    _apply_container_configs w p (observed_state w p) = (inr tt, s') /\
    d_instance (diff_after s') = Some body_json /\
    render (config p) s' body_json !! "config" = Some (ODict pushed) /\
    pushed !! "limits.cpu" = Some "2" /\
    pushed !! "volatile.idmap.base" = Some "0".
Proof.
  intros w p.
  destruct (pushed_config_is_superset_merge w p
              {["limits.cpu" := "2"; "limits.memory" := "1GB"]}
              {["limits.cpu" := "1"; "volatile.idmap.base" := "0"]}
              (observed_state w p))
    as (s' & body_json & pushed & Hrun & Hafter & Hrender & _ & Hdes & Hobs & _).
  - vm_compute. reflexivity.
  - vm_compute. reflexivity.
  - intros key Hkey _. rewrite mutable_params_value in Hkey.
    repeat (apply elem_of_cons in Hkey as [->|Hkey]; [vm_compute; eauto|]).
    apply elem_of_nil in Hkey. destruct Hkey.
  - right. intros tr c. unfold w. cbn [respond one_instance].
    destruct c as [|[] [path q] ? ?]; try (eexists; reflexivity).
    destruct (String.eqb path "/1.0/instances/c1"); eexists; reflexivity.
  - exists s', body_json, pushed. split; [exact Hrun|]. split; [exact Hafter|].
    split; [exact Hrender|]. split.
    + apply Hdes. vm_compute. reflexivity.
    + rewrite Hobs by (vm_compute; reflexivity). vm_compute. reflexivity.
Defined.

(** C4, as the code has it.  The decision about [config] does not look
    at the observed keys that start with [volatile.]: two observed
    mappings that agree on all other keys get the same decision.  Such a
    key keeps its observed value in the pushed [config] when the desired
    [config] does not name it; when the desired [config] names it, the
    attribute always needs a change and the key gets the desired value. *)
Theorem observed_volatile_keys_are_ignored w p (desired old : gmap string string) s :
  config p !! "config" = Some (ODict desired) ->
  observed_section s "config" = Some (ODict old) ->
  sections_present p s ->
  check_mode p = true \/ accepting w ->
  (forall s2 old2,
     observed_section s2 "config" = Some (ODict old2) ->
     (forall k, is_volatile k = false -> old2 !! k = old !! k) ->
     (_needs_to_change_container_config p "config" s2).1 =
     (_needs_to_change_container_config p "config" s).1) /\
  exists s' body_json pushed,
    _apply_container_configs w p s = (inr tt, s') /\
    d_instance (diff_after s') = Some body_json /\
    render (config p) s' body_json !! "config" = Some (ODict pushed) /\
    (forall k, is_volatile k = true -> desired !! k = None -> pushed !! k = old !! k) /\
    (forall k v, is_volatile k = true -> desired !! k = Some v ->
       _needs_to_change_container_config p "config" s = (inr true, s) /\
       pushed !! k = Some v).
Proof.
  intros Hd Ho Hp Ha. split.
  - intros s2 old2 Ho2 Hagree.
    rewrite (needs_config_eval p desired Hd s2 old2 Ho2).
    rewrite (needs_config_eval p desired Hd s old Ho). cbn [fst]. do 2 f_equal.
    apply map_eq. intros k. rewrite !without_volatile_lookup.
    destruct (is_volatile k) eqn:Hk; [reflexivity|apply Hagree, Hk].
  - destruct (apply_configs_eval w p desired old s Hd Ho Hp Ha)
      as (s' & body_json & Hrun & Hafter & Hrender & _).
    exists s', body_json, (desired ∪ old).
    split; [exact Hrun|]. split; [exact Hafter|]. split; [exact Hrender|]. split.
    + intros k _ Hk. apply lookup_union_r, Hk.
    + intros k v Hvol Hk. split; [|apply lookup_union_Some_l, Hk].
      rewrite (needs_config_eval p desired Hd s old Ho). do 2 f_equal.
      apply config_differs_true. exists k, v. split; [exact Hk|].
      rewrite without_volatile_lookup, Hvol. discriminate.
Qed.

Lemma observed_volatile_keys_are_ignored_witness :
  let w := one_instance "Running" {["limits.cpu" := "1"; "volatile.idmap.base" := "0"]} ∅ in
  let p := request_for "started" (Some {["limits.cpu" := "2"]}) false true in
  exists s' body_json pushed,
    _apply_container_configs w p (observed_state w p) = (inr tt, s') /\
    d_instance (diff_after s') = Some body_json /\
    render (config p) s' body_json !! "config" = Some (ODict pushed) /\
    pushed !! "volatile.idmap.base" = Some "0".
Proof.
  intros w p.
  destruct (observed_volatile_keys_are_ignored w p
              {["limits.cpu" := "2"]}
              {["limits.cpu" := "1"; "volatile.idmap.base" := "0"]}
              (observed_state w p))
    as (_ & s' & body_json & pushed & Hrun & Hafter & Hrender & Hkeep & _).
  - vm_compute. reflexivity.
  - vm_compute. reflexivity.
  - intros key Hkey _. rewrite mutable_params_value in Hkey.
    repeat (apply elem_of_cons in Hkey as [->|Hkey]; [vm_compute; eauto|]).
    apply elem_of_nil in Hkey. destruct Hkey.
  - left. reflexivity.
  - exists s', body_json, pushed. split; [exact Hrun|]. split; [exact Hafter|].
    split; [exact Hrender|].
    rewrite Hkeep by (vm_compute; reflexivity). vm_compute. reflexivity.
Defined.

(** C4 as stated fails when the desired [config] names a volatile key:
    the key is missing from the filtered observed mapping, so the
    attribute needs a change even when the instance already holds the
    desired value, and the key is written with the desired value. *)
Lemma desired_volatile_key_is_written :
  let w := one_instance "Running" {["volatile.eth0.hwaddr" := "00:16:3e:00:00:01"]} ∅ in
  let same := request_for "started" (Some {["volatile.eth0.hwaddr" := "00:16:3e:00:00:01"]})
                false false in
  let other := request_for "started" (Some {["volatile.eth0.hwaddr" := "00:16:3e:00:00:02"]})
                 false false in
  (_needs_to_change_container_config same "config" (observed_state w same)).1 = inr true /\
  (_needs_to_change_container_config other "config" (observed_state w other)).1 = inr true /\
  last (run_trace w other) =
    Some (Do PUT (Url "/1.0/instances/c1" [])
            (InstanceBody
               (<["architecture" := OStr "x86_64"]>
               (<["config" := ODict {["volatile.eth0.hwaddr" := "00:16:3e:00:00:02"]}]>
               (<["devices" := ODevs ∅]>
               (<["ephemeral" := OBool false]>
               (<["profiles" := OList ["default"]]> ∅)))))) []).
Proof.
  intros w same other. split; [vm_compute; reflexivity|].
  split; vm_compute; reflexivity.
Qed.

(** ** Failures of the client *)

Lemma append_inv_head (a x y : string) : a ++ x = a ++ y -> x = y.
Proof. induction a as [|c a IH]; cbn; [auto|]. intros [= H]. auto. Qed.

Lemma append_proper_suffix (a b : string) : b <> "" -> a ++ b <> a.
Proof.
  intros Hb. induction a as [|c a IH]; cbn; [exact Hb|]. intros [= H]. auto.
Qed.

(** The state fetch differs from every other call the module makes. *)
Lemma instance_fetch_is_not_state_fetch p :
  Do GET (Url (endpoint p ++ "/" ++ name p) []) NoBody [404] <> state_fetch p.
Proof.
  unfold state_fetch. intros [= H]. apply append_inv_head in H.
  apply append_inv_head in H. symmetry in H. revert H.
  apply append_proper_suffix. discriminate.
Qed.

Section Failures.

Context (w : world) (p : params).

Lemma all_answered_record c dt r s :
  all_answered w s -> respond w (trace s) c = inr r ->
  all_answered w (record_call c dt s).
Proof.
  unfold all_answered. intros Hs Hr tr c1 tr'. proj_simpl. intros Heq.
  destruct tr' as [|c2 tr'] using rev_ind.
  - apply app_inj_tail in Heq as [<- <-]. eauto.
  - clear IHtr'. rewrite app_comm_cons, app_assoc in Heq.
    apply app_inj_tail in Heq as [Heq _]. eapply Hs. exact Heq.
Qed.

Lemma failed_at_record c dt m0 s :
  all_answered w s -> respond w (trace s) c = inl m0 ->
  failed_at w (record_call c dt s) c m0.
Proof.
  intros Hs Hr. exists (trace s). split; [reflexivity|]. split; [exact Hr|exact Hs].
Qed.

Lemma all_answered_frame s s' : trace s' = trace s -> all_answered w s -> all_answered w s'.
Proof. unfold all_answered. intros ->. auto. Qed.

Ltac failure_leaf E :=
  idtac;
  lazymatch goal with
  | |- inv _ _ (raise _) => apply inv_raise; intros; assumption
  | |- inv _ _ (modify _) =>
      apply inv_modify; intros ? H; eapply all_answered_frame; [|exact H];
      first [ reflexivity
            | eapply eq_trans; [|apply (store_only_json _ _ _)];
              symmetry; apply (store_only_json _ _ _) ]
  | |- inv _ _ (_needs_to_apply_container_configs _) =>
      apply needs_to_apply_inv; intros [] ? Hpy ?; try assumption;
      exfalso; eapply Hpy; reflexivity
  | |- inv _ _ (client_do _ GET (Url (_ ++ "/" ++ _ ++ "/state") []) NoBody [404]) =>
      apply inv_client_do; intros;
      [eapply all_answered_record; eassumption|];
      lazymatch E with
      | raised_polling => apply failed_at_record; assumption
      end
  | |- inv _ _ (client_do _ GET _ _ _) =>
      apply inv_client_do; intros;
      [eapply all_answered_record; eassumption|];
      eexists; split;
      [apply failed_at_record; assumption|apply instance_fetch_is_not_state_fetch]
  | |- inv _ _ (client_do _ _ _ _ _) =>
      apply inv_client_do; intros;
      [eapply all_answered_record; eassumption|];
      eexists; split; [apply failed_at_record; assumption|discriminate]
  | |- inv _ _ (client_authenticate _ _) =>
      apply inv_client_authenticate; intros;
      [eapply all_answered_record; eassumption|];
      eexists; split; [apply failed_at_record; assumption|discriminate]
  end.

Lemma store_keeps_answered key o s :
  all_answered w s -> all_answered w (store_metadata key o s).
Proof.
  apply all_answered_frame. pose proof (store_only_json s key o) as H.
  destruct H as (_ & _ & _ & _ & _ & H & _). exact H.
Qed.

Lemma build_body_answered ps body_json :
  inv (all_answered w) (raised_plain w p) (build_body p ps body_json).
Proof.
  intros s Hs. pose proof (build_body_only_json p ps body_json s) as Hfr.
  assert (Hpy : inv (fun _ => True) (fun e _ => is_py e) (build_body p ps body_json)).
  { clear. revert body_json. induction ps as [|param ps IH]; intros body_json;
      cbn [build_body].
    - apply inv_ret.
    - assert (Hm : forall b kvs, inv (fun _ => True) (fun e _ => is_py e) (merge_items b kvs)).
      { intros b kvs. induction kvs as [|[k v] kvs IHk]; cbn [merge_items];
          walk ltac:(idtac; lazymatch goal with
                     | |- inv _ _ (raise _) => apply inv_raise; intros ? _ ?; discriminate
                     | |- inv _ _ (modify _) => apply inv_modify; intros; exact Logic.I
                     end). }
      walk ltac:(idtac; lazymatch goal with
                 | |- inv _ _ (build_body _ _ _) => apply IH
                 | |- inv _ _ (merge_items _ _) => apply Hm
                 | |- inv _ _ (_needs_to_change_container_config _ _) =>
                     apply needs_to_change_py
                 | |- inv _ _ (raise _) => apply inv_raise; intros ? _ ?; discriminate
                 | |- inv _ _ (modify _) => apply inv_modify; intros; exact Logic.I
                 end). }
  specialize (Hpy s Logic.I).
  destruct (build_body p ps body_json s) as [[e|b] s']; cbn [snd] in Hfr;
    destruct Hfr as (_ & _ & _ & _ & _ & Htr & _).
  - destruct e; try (eapply all_answered_frame; eassumption).
    exfalso. eapply Hpy. reflexivity.
  - eapply all_answered_frame; eassumption.
Qed.

Lemma poll_answered fuel due :
  inv (all_answered w) (raised_polling w p) (poll w p fuel due).
Proof.
  induction fuel as [|fuel IH]; cbn [poll];
    walk ltac:(failure_leaf raised_polling).
Qed.

Lemma before_entries_answered sections :
  inv (all_answered w) (raised_plain w p) (before_entries sections).
Proof.
  induction sections as [|[section content] rest IH]; cbn [before_entries];
    walk ltac:(failure_leaf raised_plain).
Qed.

Lemma get_addresses_answered :
  inv (all_answered w) (raised_in_run w p) (_get_addresses w p).
Proof.
  unfold _get_addresses.
  apply inv_rename with (E' := raised_polling w p).
  - walk ltac:(idtac; lazymatch goal with
               | |- inv _ _ (poll _ _ _ _) => apply poll_answered
               | |- _ => failure_leaf raised_polling
               end).
  - intros m0 s H. exists (state_fetch p), m0. split; [exact H|].
    split; [congruence|reflexivity].
  - intros [] s Hpy H; try exact H. exfalso. eapply Hpy. reflexivity.
Qed.

Lemma plain_in_run {A} (m : M A) :
  inv (all_answered w) (raised_plain w p) m ->
  inv (all_answered w) (raised_in_run w p) m.
Proof.
  intros H s Hs. specialize (H s Hs). destruct (m s) as [[e|a] s']; [|exact H].
  destruct e as [m0| | | |]; try exact H. destruct H as (c & Hc & Hne).
  exists c, m0. split; [exact Hc|]. split; [reflexivity|contradiction].
Qed.

Ltac run_leaf :=
  idtac;
  lazymatch goal with
  | |- inv _ _ (_get_addresses _ _) => apply get_addresses_answered
  | |- inv _ _ (raise _) => apply inv_raise; intros; assumption
  | |- inv _ _ (_needs_to_apply_container_configs _) =>
      apply needs_to_apply_inv; intros [] ? Hpy ?; try assumption;
      exfalso; eapply Hpy; reflexivity
  | |- inv _ _ (before_entries _) => apply plain_in_run, before_entries_answered
  | |- inv _ _ (build_body _ _ _) => apply plain_in_run, build_body_answered
  | |- inv _ _ (client_do _ _ _ _ _) =>
      apply plain_in_run; failure_leaf raised_plain
  | |- inv _ _ (client_authenticate _ _) =>
      apply plain_in_run; failure_leaf raised_plain
  | |- inv _ _ (modify _) => failure_leaf raised_in_run
  end.

Lemma run_body_answered :
  inv (all_answered w) (raised_in_run w p) (run_body w p).
Proof. walk run_leaf. Qed.

Lemma init_answered : all_answered w (init w).
Proof. intros tr c tr' H. cbn in H. destruct tr; discriminate. Qed.

(** A failed call is the last call of the trace. *)
Lemma failed_call_is_last s c m0 tr c' tr' m' :
  failed_at w s c m0 ->
  trace s = (tr ++ c' :: tr')%list -> respond w tr c' = inl m' ->
  tr' = [] /\ c' = c /\ m' = m0.
Proof.
  intros (tr0 & Htr & Hr & Hprev) Heq Hr'. rewrite Htr in Heq.
  destruct tr' as [|c2 tr'] using rev_ind.
  - apply app_inj_tail in Heq as [-> ->]. split; [reflexivity|]. split; congruence.
  - clear IHtr'. rewrite app_comm_cons, app_assoc in Heq.
    apply app_inj_tail in Heq as [Heq _].
    destruct (Hprev _ _ _ Heq) as [r Hr'']. congruence.
Qed.

End Failures.

(** C8, as the code has it.  A call of the client that fails is the last
    call of the run, and the run ends with [fail_json]: [changed] is
    computed from the action log as it stands, and the log and both
    sides of the diff are reported as they stand.  The message is the
    one of the failure, except for a state fetch of the address wait,
    whose failure is reported as [timeout for getting IPv4 addresses]. *)
Theorem failed_call_ends_the_run w p tr c tr' m0 :
  run_trace w p = (tr ++ c :: tr')%list ->
  respond w tr c = inl m0 ->
  tr' = [] /\
  exists f,
    run w p = fail_json f /\
    (c <> state_fetch p -> msg f = m0) /\
    (c = state_fetch p -> msg f = timeout_message) /\
    fail_changed f = bool_decide (0 < length (fail_actions f))%nat /\
    fail_actions f = actions (run_from w p (init w)).2 /\
    fail_diff_before f =
      view p (run_from w p (init w)).2 (diff_before (run_from w p (init w)).2) /\
    fail_diff_after f =
      view p (run_from w p (init w)).2 (diff_after (run_from w p (init w)).2).
Proof.
  intros Htr Hr.
  pose proof (run_body_answered w p (init w) (init_answered w)) as H.
  unfold run_trace, run, run_from in *.
  destruct (run_body w p (init w)) as [[e|r] s'] eqn:Hrun.
  - destruct e as [m| | | |];
      try (cbn [snd] in Htr; destruct (H _ _ _ Htr) as [r Hr']; congruence).
    cbn [snd fst] in *. destruct H as (c0 & m1 & Hfail & Hplain & Hwait).
    destruct (failed_call_is_last w s' c0 m1 tr c tr' m0 Hfail Htr Hr) as (-> & -> & ->).
    split; [reflexivity|]. eexists. split; [reflexivity|].
    cbn [msg fail_changed fail_actions fail_diff_before fail_diff_after].
    repeat split; auto.
  - cbn [snd] in Htr. destruct (H _ _ _ Htr) as [r' Hr']. congruence.
Qed.

Lemma failed_call_ends_the_run_witness :
  let w := failing_state_fetch "Running" ∅ "connection reset" in
  let p := request_for "started" None true false in
  exists f, run w p = fail_json f /\ msg f = timeout_message /\ fail_actions f = [].
Proof.
  intros w p.
  destruct (failed_call_ends_the_run w p
              [Do GET (Url "/1.0/instances/c1" []) NoBody [404]]
              (state_fetch p) [] "connection reset")
    as (_ & f & Hrun & _ & Hmsg & _ & Hact & _).
  - vm_compute. reflexivity.
  - reflexivity.
  - exists f. split; [exact Hrun|]. split; [apply Hmsg; reflexivity|].
    rewrite Hact. vm_compute. reflexivity.
Defined.

(** C8 as stated fails for the address wait: the failure of a state
    fetch is not reported with its own message. *)
Lemma state_fetch_failure_loses_its_message :
  let w := failing_state_fetch "Running" ∅ "connection reset" in
  let p := request_for "started" None true false in
  respond w [Do GET (Url "/1.0/instances/c1" []) NoBody [404]] (state_fetch p)
    = inl "connection reset" /\
  exists f, run w p = fail_json f /\ msg f <> "connection reset".
Proof.
  intros w p. split; [reflexivity|].
  eexists. split; [vm_compute; reflexivity|]. cbn [msg]. discriminate.
Qed.

(** ** The reported diff *)

(** A bind whose continuation relies on a property of the result. *)
Lemma inv_bind_result {A B} (I : st -> Prop) (E : exn -> st -> Prop) (R : A -> Prop)
    (m : M A) (f : A -> M B) :
  (forall s, I s -> match m s with
                    | (inr a, s') => I s' /\ R a
                    | (inl e, s') => E e s'
                    end) ->
  (forall a, R a -> inv I E (f a)) ->
  inv I E (bind m f).
Proof.
  intros Hm Hf s Hs. unfold bind. specialize (Hm s Hs).
  destruct (m s) as [[e|a] s']; [exact Hm|]. destruct Hm as [Hs' Ha]. apply Hf; assumption.
Qed.

(** *** What [observe] leaves behind *)

Lemma before_entries_eval sections s :
  before_entries sections s = (inr (aliases sections), s).
Proof.
  induction sections as [|[section content] rest IH]; [reflexivity|].
  cbn [before_entries aliases foldr]. unfold before_entry, isinstance_dict.
  cbn [negb]. rewrite bind_ret_l. unfold bind. rewrite IH. reflexivity.
Qed.

Lemma aliases_lookup sections key :
  aliases sections !! key =
    if bool_decide (key ∈ sections.*1) then Some (FromResponse key) else None.
Proof.
  induction sections as [|[k v] rest IH]; cbn [aliases foldr fmap list_fmap fst].
  - rewrite lookup_empty. reflexivity.
  - fold (aliases rest). destruct (decide (k = key)) as [->|Hne].
    + rewrite lookup_insert_eq, bool_decide_eq_true_2 by left. reflexivity.
    + rewrite lookup_insert_ne by exact Hne. rewrite IH.
      apply (f_equal (fun b : bool => if b then _ else _)).
      apply bool_decide_ext. rewrite elem_of_cons. split; [auto|].
      intros [?|?]; [congruence|assumption].
Qed.

Lemma aliases_of_sections (md : gmap string obj) key :
  aliases (map_to_list (filter (fun kv : string * obj => kv.1 ∈ mutable_set) md)) !! key =
    if bool_decide (key ∈ mutable_set /\ is_Some (md !! key))
    then Some (FromResponse key) else None.
Proof.
  rewrite aliases_lookup.
  apply (f_equal (fun b : bool => if b then _ else _)).
  apply bool_decide_ext. rewrite list_elem_of_fmap. split.
  - intros ([k v] & -> & Hin). apply elem_of_map_to_list, map_lookup_filter_Some in Hin.
    cbn [fst] in *. destruct Hin as [Hk Hm]. split; [exact Hm|eauto].
  - intros [Hm [v Hv]]. exists (key, v). split; [reflexivity|].
    apply elem_of_map_to_list, map_lookup_filter_Some. split; [exact Hv|exact Hm].
Qed.

Lemma observe_eval w p s0 :
  observe w p (init w) = (inr tt, s0) ->
  exists resp md o,
    fetched w p = inr resp /\ r_metadata resp = Some md /\
    old_container_json s0 = Some resp /\ old_state s0 = Some o /\
    diff_before s0 =
      DiffSide (Some o)
        (Some (aliases (map_to_list
                          (filter (fun kv : string * obj => kv.1 ∈ mutable_set) md)))) /\
    diff_after s0 = DiffSide (Some (state p)) None /\
    actions s0 = [].
Proof.
  unfold observe, fetched.
  set (auth := match trust_password p with
               | Some pw => client_authenticate w pw
               | None => ret tt
               end).
  set (tr := match trust_password p with
             | Some pw => [Authenticate pw]
             | None => []
             end).
  assert (Hauth : forall r s1, auth (init w) = (inr r, s1) ->
            trace s1 = tr /\ actions s1 = [] /\
            diff_before s1 = DiffSide None None /\ diff_after s1 = DiffSide None None).
  { unfold auth, tr. destruct (trust_password p) as [pw|].
    - unfold client_authenticate. cbv zeta. cbn [init trace].
      destruct (respond w [] (Authenticate pw)); [discriminate|].
      intros x s1 [= _ <-]. repeat split.
    - intros x s1 [= _ <-]. repeat split. }
  unfold bind at 1. destruct (auth (init w)) as [[e|[]] s1] eqn:Ha; [discriminate|].
  destruct (Hauth _ _ eq_refl) as (Htr & Hact & Hdb & Hda).
  unfold _get_container_json, client_do. unfold bind at 1. cbv zeta. rewrite Htr.
  destruct (respond w tr _) as [m|resp] eqn:Hresp; [discriminate|].
  unfold bind at 1, modify at 1. cbv beta iota.
  unfold self_old_container_json at 1. unfold bind at 1 2, gets at 1. cbv beta iota.
  cbn [old_container_json set_old_container_json]. unfold ret at 1. cbv beta iota.
  unfold bind at 1.
  match goal with
  | |- context [_container_json_to_module_state resp ?s] =>
      destruct (_container_json_to_module_state resp s) as [[e|o] s2] eqn:Hstate;
      [discriminate|];
      assert (Hs2 : s2 = s)
  end.
  { revert Hstate. unfold _container_json_to_module_state.
    destruct (String.eqb (r_type resp) "error"); [intros [= _ <-]; reflexivity|].
    unfold metadata_member, subscript, bind, ret, raise.
    destruct (r_metadata resp) as [md|]; [|discriminate].
    destruct (md !! "status") as [[]|]; try discriminate.
    destruct (assoc _ _); [|discriminate]. intros [= _ <-]. reflexivity. }
  subst s2.
  unfold bind at 1, modify at 1. cbv beta iota.
  unfold self_old_state at 1. unfold bind at 1 2, gets at 1. cbv beta iota.
  cbn [old_state set_old_state]. unfold ret at 1. cbv beta iota.
  unfold bind at 1, modify at 1. cbv beta iota.
  unfold bind at 1, modify at 1. cbv beta iota.
  unfold self_old_container_json at 1. unfold bind at 1 2, gets at 1. cbv beta iota.
  proj_simpl. unfold ret at 1. cbv beta iota.
  destruct (r_metadata resp) as [md|] eqn:Hmd; [|discriminate].
  unfold bind at 1, ret at 1. cbv beta iota.
  unfold bind at 1. rewrite before_entries_eval. unfold modify. proj_simpl.
  intros [= <-]. exists resp, md, o. proj_simpl.
  rewrite ?Hdb, ?Hda. proj_simpl. repeat split; assumption.
Qed.

(** *** What the handlers keep of the diff *)

Section DiffKept.

Context (w : world) (p : params) (md : gmap string obj) (o : string)
        (before : gmap string ref).

Let anything := fun (_ : exn) (_ : st) => True.

Lemma needs_to_change_inv (I : st -> Prop) key :
  inv I anything (_needs_to_change_container_config p key).
Proof.
  intros s Hs. rewrite needs_to_change_reads.
  destruct (_needs_to_change_container_config p key _).1; [exact Logic.I|exact Hs].
Qed.

Lemma setitem_sections k v :
  inv (sections_kept md) anything (setitem (FromResponse "config") k v).
Proof.
  intros s (Hmd & Hother & Hcfg). unfold setitem, self_old_container_json, metadata_member,
    subscript. unfold bind, gets, ret, raise, modify. cbv beta iota.
  destruct (old_container_json s) as [resp|] eqn:H1; [|exact Logic.I]. cbv beta iota.
  destruct (r_metadata resp) as [md'|] eqn:H2; [|exact Logic.I].
  destruct (md' !! "config") as [c|] eqn:H3; [|exact Logic.I].
  destruct c; try exact Logic.I.
  assert (Hobs : observed_section s "config" = Some (ODict d)).
  { unfold observed_section, old_metadata. rewrite H1. cbn. rewrite H2. cbn. exact H3. }
  split; [|split].
  - unfold old_metadata, store_metadata. rewrite H1, H2. cbn. eauto.
  - intros key Hkey. rewrite observed_section_store by exact Hmd.
    rewrite decide_False by congruence. apply Hother, Hkey.
  - rewrite observed_section_store by exact Hmd. rewrite decide_True by reflexivity.
    split; [intros _; apply Hcfg; rewrite Hobs; eauto|eauto].
Qed.

Lemma merge_items_sections body_json kvs :
  body_ok body_json ->
  inv (sections_kept md) anything (merge_items body_json kvs).
Proof.
  intros Hb. induction kvs as [|[k v] kvs IH]; cbn [merge_items]; [apply inv_ret|].
  unfold subscript. destruct Hb as [-> | ->].
  - intros s Hs. exact Logic.I.
  - change (inv (sections_kept md) anything
              (setitem (FromResponse "config") k v ;;; merge_items body_json kvs)).
    apply inv_bind; [apply setitem_sections|]. intros _. exact IH.
Qed.

Lemma body_ok_alias param body_json (present : bool) :
  body_ok body_json ->
  body_ok (if present then <[param := FromResponse param]> body_json else body_json).
Proof.
  intros Hb. destruct present; [|exact Hb]. unfold body_ok.
  destruct (decide (param = "config")) as [->|Hne].
  - right. apply lookup_insert_eq.
  - rewrite lookup_insert_ne by exact Hne. exact Hb.
Qed.

Lemma build_body_sections ps : forall body_json,
  body_ok body_json ->
  inv (sections_kept md) anything (build_body p ps body_json).
Proof.
  induction ps as [|param ps IH]; intros body_json Hb; cbn [build_body];
    [apply inv_ret|].
  apply inv_bind; [walk ltac:(idtac; apply inv_raise; intros; exact Logic.I)|].
  intros resp.
  apply inv_bind_result with (R := body_ok).
  { intros s Hs. destruct (r_metadata resp); [|exact Logic.I].
    split; [exact Hs|]. apply body_ok_alias, Hb. }
  intros body1 Hb1.
  apply inv_bind; [apply needs_to_change_inv|]. intros b.
  apply inv_bind_result with (R := body_ok); [|intros body2 Hb2; apply IH, Hb2].
  intros s Hs. destruct b; [|split; assumption].
  destruct (String.eqb param "config") eqn:Hparam.
  - unfold subscript.
    destruct (config p !! "config") as [desired|]; [|exact Logic.I].
    rewrite bind_ret_l. unfold items.
    destruct desired; try exact Logic.I. rewrite bind_ret_l.
    pose proof (merge_items_sections body1 (map_to_list d) Hb1 s Hs) as Hm.
    unfold bind. destruct (merge_items body1 (map_to_list d) s) as [[e|[]] s'];
      [exact Logic.I|]. split; assumption.
  - split; [exact Hs|]. unfold body_ok. apply String.eqb_neq in Hparam.
    rewrite lookup_insert_ne by exact Hparam. exact Hb1.
Qed.

Lemma diff_kept_frame s s' :
  only_json_changed s s' -> sections_kept md s' ->
  diff_kept p md o before s -> diff_kept p md o before s'.
Proof.
  intros (H1 & H2 & H3 & H4 & _) Hk (Hb & Ho & Ha & _ & Hiff).
  unfold diff_kept. rewrite H1, H2, H3, H4. auto.
Qed.

Lemma diff_kept_append a s :
  a <> "apply_container_configs" ->
  diff_kept p md o before s -> diff_kept p md o before (append_action a s).
Proof.
  intros Ha (Hb & Ho & Hst & Hk & Hiff). unfold diff_kept. proj_simpl.
  repeat (split; [assumption|]). rewrite Hiff, elem_of_app, list_elem_of_singleton.
  split; [auto|]. intros [?|?]; [assumption|congruence].
Qed.

Lemma apply_diff_kept :
  inv (diff_kept p md o before) anything (_apply_container_configs w p).
Proof.
  intros s Hs. unfold _apply_container_configs, self_old_container_json.
  unfold bind at 1 2, gets at 1. cbv beta iota.
  destruct (old_container_json s) as [resp|] eqn:H1; [|exact Logic.I].
  unfold ret at 1. cbv beta iota. unfold bind at 1.
  pose proof (build_body_only_json p mutable_params ∅ s) as Hfr.
  pose proof (build_body_sections mutable_params ∅ (or_introl (lookup_empty _)) s) as Hsec.
  destruct (build_body p mutable_params ∅ s) as [[e|b] s1]; [exact Logic.I|].
  cbn [snd] in Hfr. specialize (Hsec ltac:(apply Hs)).
  pose proof (diff_kept_frame s s1 Hfr Hsec Hs) as (Hb & Ho & Hst & Hk & _).
  assert (Hfin : forall s2,
            diff_before s2 = diff_before s1 -> old_state s2 = old_state s1 ->
            old_container_json s2 = old_container_json s1 ->
            diff_after s2 = DiffSide (d_state (diff_after s1)) (Some b) ->
            diff_kept p md o before (append_action "apply_container_configs" s2)).
  { intros s2 E1 E2 E3 E4. unfold diff_kept. proj_simpl. rewrite E1, E2, E4. proj_simpl.
    split; [assumption|]. split; [assumption|]. split; [assumption|]. split.
    - unfold sections_kept, observed_section, old_metadata in *. proj_simpl.
      rewrite E3. exact Hk.
    - split; [intros _; apply elem_of_app; right; left|eauto]. }
  unfold bind at 1, modify at 1. cbv beta iota.
  destruct (check_mode p); cbn [negb when].
  - rewrite bind_ret_l. unfold modify. apply Hfin; reflexivity.
  - unfold bind at 1 2 3, gets at 1, client_do. cbv beta iota zeta.
    destruct (respond w _ _); cbv beta iota; [exact Logic.I|].
    unfold ret at 1, modify. cbv beta iota. apply Hfin; reflexivity.
Qed.

Ltac diff_leaf :=
  idtac;
  lazymatch goal with
  | |- inv _ _ (_apply_container_configs _ _) => apply apply_diff_kept
  | |- inv _ _ (raise _) => apply inv_raise; intros; exact Logic.I
  | |- inv _ _ (modify (append_action _)) =>
      apply inv_modify; intros; apply diff_kept_append; [discriminate|assumption]
  | |- inv _ _ (modify _) => apply inv_modify; intros ? H; exact H
  | |- inv _ _ (client_do _ _ _ _ _) =>
      apply inv_client_do; [intros ? ? ? H _; exact H|intros; exact Logic.I]
  | |- inv _ _ (_needs_to_apply_container_configs _) =>
      apply needs_to_apply_inv; intros; exact Logic.I
  | |- inv _ _ (rename_client_exception _ _) =>
      apply inv_rename with (E' := anything); [|intros; exact Logic.I..]
  end.

Lemma poll_diff_kept fuel due :
  inv (diff_kept p md o before) anything (poll w p fuel due).
Proof.
  induction fuel as [|fuel IH]; cbn [poll]; walk diff_leaf.
Qed.

Lemma dispatch_diff_kept :
  inv (diff_kept p md o before) anything (dispatch w p).
Proof.
  walk ltac:(idtac; lazymatch goal with
             | |- inv _ _ (poll _ _ _ _) => apply poll_diff_kept
             | |- _ => diff_leaf
             end).
Qed.

End DiffKept.

(** C9, as the code has it.  When a run ends with [exit_json], dry run
    or not, the before side of the diff holds the observed state and one
    entry for every mutable attribute of the fetched document, with the
    fetched content for every attribute other than [config]; the after
    side holds the desired state, and it holds instance attributes
    exactly when apply-config was carried out. *)
Theorem diff_of_a_completed_run w p r :
  run w p = exit_json r ->
  exists resp md before,
    fetched w p = inr resp /\ r_metadata resp = Some md /\
    v_state (res_diff_before r) = Some (res_old_state r) /\
    v_state (res_diff_after r) = Some (state p) /\
    v_instance (res_diff_before r) = Some before /\
    (forall key, is_Some (before !! key) <-> key ∈ mutable_set /\ is_Some (md !! key)) /\
    (forall key, key <> "config" -> key ∈ mutable_set -> before !! key = md !! key) /\
    (is_Some (v_instance (res_diff_after r)) <->
     "apply_container_configs" ∈ res_actions r).
Proof.
  unfold run, run_from, run_body. unfold bind at 1.
  destruct (observe w p (init w)) as [[e|[]] s0] eqn:Hobs.
  { destruct e; discriminate. }
  destruct (observe_eval w p s0 Hobs)
    as (resp & md & o & Hf & Hmd & Hjson & Hold & Hbefore & Hafter & Hact).
  set (B := aliases _) in Hbefore.
  assert (H0 : diff_kept p md o B s0).
  { unfold diff_kept. rewrite Hbefore, Hold, Hafter, Hact. cbn [d_state d_instance].
    repeat (split; [reflexivity|]). split.
    - unfold sections_kept, observed_section, old_metadata. rewrite Hjson. cbn.
      rewrite Hmd. cbn. split; [eauto|]. split; [reflexivity|reflexivity].
    - split; [intros [? [=]]|intros H; apply elem_of_nil in H; destruct H]. }
  pose proof (dispatch_diff_kept w p md o B s0 H0) as H1.
  unfold bind at 1. destruct (dispatch w p s0) as [[e|[]] s1].
  { destruct e; discriminate. }
  destruct H1 as (Hb1 & Ho1 & Hst1 & (Hmd1 & Hother & Hcfg) & Hiff).
  unfold report, self_old_state. unfold bind, gets, ret. cbv beta iota.
  rewrite Ho1. cbv beta iota. cbn [fst]. intros [= <-].
  cbn [res_diff_before res_diff_after res_old_state res_actions].
  unfold view. rewrite Hb1. cbn [d_state d_instance v_state v_instance fmap option_fmap option_map].
  exists resp, md, (render (config p) s1 B).
  assert (Hlook : forall key,
            render (config p) s1 B !! key =
              if bool_decide (key ∈ mutable_set /\ is_Some (md !! key))
              then observed_section s1 key else None).
  { intros key. unfold render. rewrite lookup_omap. unfold B.
    rewrite aliases_of_sections. destruct (bool_decide _); reflexivity. }
  split; [exact Hf|]. split; [exact Hmd|]. split; [reflexivity|].
  split; [exact Hst1|]. split; [reflexivity|]. split; [|split].
  - intros key. rewrite Hlook. destruct (bool_decide _) eqn:Hdec.
    + apply bool_decide_eq_true in Hdec. split; [auto|]. intros _.
      destruct (decide (key = "config")) as [->|Hne].
      * apply Hcfg, Hdec.
      * rewrite Hother by exact Hne. apply Hdec.
    + apply bool_decide_eq_false in Hdec. split; [intros [? [=]]|contradiction].
  - intros key Hne Hmut. rewrite Hlook. destruct (bool_decide _) eqn:Hdec.
    + apply Hother, Hne.
    + apply bool_decide_eq_false in Hdec. destruct (md !! key) eqn:Hk; [|reflexivity].
      exfalso. apply Hdec. split; [exact Hmut|eauto].
  - rewrite fmap_is_Some. exact Hiff.
Qed.

Lemma diff_of_a_completed_run_witness :
  let w := one_instance "Running" {["limits.cpu" := "1"]} ∅ in
  let p := request_for "started" (Some {["limits.cpu" := "2"]}) false true in
  exists r before,
    run w p = exit_json r /\
    v_instance (res_diff_before r) = Some before /\
    before !! "profiles" = Some (OList ["default"]) /\
    is_Some (v_instance (res_diff_after r)).
Proof.
  intros w p.
  destruct (run w p) as [r| |] eqn:Hrun; [|vm_compute in Hrun; discriminate..].
  destruct (diff_of_a_completed_run w p r Hrun)
    as (resp & md & before & Hf & Hmd & _ & _ & Hb & _ & Hother & Hiff).
  exists r, before. split; [reflexivity|]. split; [exact Hb|]. split.
  - rewrite Hother; [|discriminate|vm_compute; reflexivity].
    vm_compute in Hf. injection Hf as <-. injection Hmd as <-. vm_compute. reflexivity.
  - apply Hiff. vm_compute in Hrun. injection Hrun as <-. left.
Defined.

(** C9 as stated fails: the after side has no instance attributes when
    apply-config is not carried out, here for a stopped instance that is
    started and whose attributes are as desired. *)
Lemma diff_after_without_instance :
  let w := one_instance "Stopped" {["limits.cpu" := "1"]} ∅ in
  let p := request_for "started" (Some {["limits.cpu" := "1"]}) false false in
  exists r, run w p = exit_json r /\ res_actions r = ["start"] /\
            res_diff_after r = DiffView (Some "started") None.
Proof.
  intros w p. eexists. split; [vm_compute; reflexivity|]. split; reflexivity.
Qed.

(** ** The fuel of the polling loop is never the reason a run stops *)

Section Fuel.

Context (w : world) (p : params).

Let fine := fun (_ : st) => True.
Let not_fuel := fun (e : exn) (_ : st) => e <> FuelExhausted.

Ltac fuel_leaf :=
  idtac;
  lazymatch goal with
  | |- inv _ _ (raise _) => apply inv_raise; intros; discriminate
  | |- inv _ _ (modify _) => apply inv_modify; intros; exact Logic.I
  | |- inv _ _ (client_do _ _ _ _ _) =>
      apply inv_client_do; intros; [exact Logic.I|discriminate]
  | |- inv _ _ (client_authenticate _ _) =>
      apply inv_client_authenticate; intros; [exact Logic.I|discriminate]
  | |- inv _ _ (_get_addresses _ _) =>
      let s := fresh "s" in
      intros s _; pose proof (get_addresses_total w p s);
      destruct (_get_addresses w p s) as [[?|?] ?];
      [unfold not_fuel; cbn [fst] in *; congruence|exact Logic.I]
  end.

Lemma any_needs_change_fuel ps : inv fine not_fuel (any_needs_change p ps).
Proof. induction ps as [|param ps IH]; cbn [any_needs_change]; walk fuel_leaf. Qed.

Lemma merge_items_fuel body_json kvs : inv fine not_fuel (merge_items body_json kvs).
Proof. induction kvs as [|[k v] kvs IH]; cbn [merge_items]; walk fuel_leaf. Qed.

Lemma build_body_fuel ps : forall body_json, inv fine not_fuel (build_body p ps body_json).
Proof.
  induction ps as [|param ps IH]; intros body_json; cbn [build_body].
  - apply inv_ret.
  - walk ltac:(idtac; lazymatch goal with
               | |- inv _ _ (build_body _ _ _) => apply IH
               | |- inv _ _ (merge_items _ _) => apply merge_items_fuel
               | |- _ => fuel_leaf
               end).
Qed.

Lemma before_entries_fuel sections : inv fine not_fuel (before_entries sections).
Proof.
  induction sections as [|[section content] rest IH]; cbn [before_entries];
    walk fuel_leaf.
Qed.

Lemma run_body_fuel : inv fine not_fuel (run_body w p).
Proof.
  walk ltac:(idtac; lazymatch goal with
             | |- inv _ _ (any_needs_change _ _) => apply any_needs_change_fuel
             | |- inv _ _ (build_body _ _ _) => apply build_body_fuel
             | |- inv _ _ (before_entries _) => apply before_entries_fuel
             | |- _ => fuel_leaf
             end).
Qed.

Lemma run_never_out_of_fuel : run w p <> uncaught FuelExhausted.
Proof.
  pose proof (run_body_fuel (init w) Logic.I) as H. unfold run, run_from.
  destruct (run_body w p (init w)) as [[e|r] s']; [|discriminate].
  destruct e; cbn [fst]; try discriminate. congruence.
Qed.

End Fuel.

(** ** Scenarios of the design *)

(** An absent instance and the desired state started; the not-found
    answer carries an empty metadata mapping. *)
Example absent_to_started :
  let w := {| respond := fun _ c =>
                match c with
                | Do GET _ _ _ => inr (Response "error" (Some ∅))
                | _ => inr (Response "sync" None)
                end;
              elapsed := fun _ _ => 0%N; start_time := 0 |} in
  let p := request_for "started" None false false in
  exists r, run w p = exit_json r /\ res_actions r = ["create"; "start"] /\
            res_old_state r = "absent" /\ changed r = true.
Proof. intros w p. eexists. split; [vm_compute; reflexivity|]. repeat split. Qed.

(** The same, with the not-found answer carrying a null metadata member:
    [run] stops with an exception that its handler does not catch. *)
Example absent_with_null_metadata :
  let w := {| respond := fun _ c =>
                match c with
                | Do GET _ _ _ => inr (Response "error" None)
                | _ => inr (Response "sync" None)
                end;
              elapsed := fun _ _ => 0%N; start_time := 0 |} in
  let p := request_for "started" None false false in
  run w p = uncaught (AttributeError "items") /\
  run_trace w p = [Do GET (Url "/1.0/instances/c1" []) NoBody [404]].
Proof. intros w p. split; vm_compute; reflexivity. Qed.

(** A running instance whose [limits.cpu] is to change. *)
Example running_config_change :
  let w := one_instance "Running" {["limits.cpu" := "1"]} ∅ in
  let p := request_for "started" (Some {["limits.cpu" := "2"]}) false false in
  exists r after,
    run w p = exit_json r /\ res_actions r = ["apply_container_configs"] /\
    changed r = true /\ v_instance (res_diff_after r) = Some after /\
    after !! "config" = Some (ODict {["limits.cpu" := "2"]}).
Proof.
  intros w p. eexists _, _. split; [vm_compute; reflexivity|].
  split; [reflexivity|]. split; [reflexivity|]. split; [reflexivity|].
  vm_compute. reflexivity.
Qed.

(** A running instance and the desired state frozen. *)
Example running_to_frozen :
  let w := one_instance "Running" {["limits.cpu" := "1"]} ∅ in
  (exists r, run w (request_for "frozen" (Some {["limits.cpu" := "1"]}) false false)
             = exit_json r /\ res_actions r = ["freeze"]) /\
  (exists r, run w (request_for "frozen" (Some {["limits.cpu" := "2"]}) false false)
             = exit_json r /\ res_actions r = ["apply_container_configs"; "freeze"]).
Proof.
  intros w. split; eexists; (split; [vm_compute; reflexivity|reflexivity]).
Qed.

(** The address wait succeeds once every device other than [lo] has an
    IPv4 address. *)
Example addresses_reported :
  let w := one_instance "Running" ∅
             {["lo" := [("inet", "127.0.0.1")];
               "eth0" := [("inet6", "fe80::1"); ("inet", "10.0.0.2")]]} in
  let p := request_for "started" None true false in
  exists r, run w p = exit_json r /\
            res_addresses r = Some {["eth0" := ["10.0.0.2"]]}.
Proof. intros w p. eexists. split; [vm_compute; reflexivity|]. vm_compute. reflexivity. Qed.

(** *** Two observations on the before side of the diff *)

(** The before side keeps the volatile keys of the observed [config]:
    the test that selects the filtering branch of [run] looks at the
    name of the section, not at its content. *)
Example before_side_keeps_volatile_keys :
  let w := one_instance "Running" {["limits.cpu" := "1"; "volatile.idmap.base" := "0"]} ∅ in
  let p := request_for "started" (Some {["limits.cpu" := "1"]}) false false in
  exists r before,
    run w p = exit_json r /\ v_instance (res_diff_before r) = Some before /\
    before !! "config" =
      Some (ODict {["limits.cpu" := "1"; "volatile.idmap.base" := "0"]}).
Proof.
  intros w p. eexists _, _. split; [vm_compute; reflexivity|].
  split; [reflexivity|]. vm_compute. reflexivity.
Qed.

(** The before side shares the [config] object with the request body,
    so after apply-config it shows the merged values, not the observed
    ones. *)
Example before_side_follows_the_merge :
  let w := one_instance "Running" {["limits.cpu" := "1"]} ∅ in
  let p := request_for "started" (Some {["limits.cpu" := "2"]}) false false in
  exists r before,
    run w p = exit_json r /\ v_instance (res_diff_before r) = Some before /\
    before !! "config" = Some (ODict {["limits.cpu" := "2"]}).
Proof.
  intros w p. eexists _, _. split; [vm_compute; reflexivity|].
  split; [reflexivity|]. vm_compute. reflexivity.
Qed.

(** * Further properties of the handlers *)

(** ** The other rows of the transition table *)

(** The test [self.old_state == o'] at the head of a handler. *)
Ltac eval_old_state H :=
  rewrite ?bind_assoc;
  rewrite (bind_inr _ _ _ _ _ (old_state_is_eval _ _ _ H));
  cbn [module_state String.eqb Ascii.eqb Bool.eqb when negb];
  repeat (rewrite bind_assoc || rewrite bind_ret_l).

(** After an operation other than apply-config the observation is the
    same. *)
Lemma perform_keeps_observation w p op s s1 o needed :
  op <> ApplyConfig ->
  perform w p op s = (inr tt, s1) ->
  old_state s = Some o ->
  (_needs_to_apply_container_configs p s).1 = inr needed ->
  old_state s1 = Some o /\
  _needs_to_apply_container_configs p s1 = (inr needed, s1).
Proof.
  intros Hop Hrun Hold Hneeds.
  pose proof (perform_same w p op s Hop) as [Hoc Hos]. rewrite Hrun in Hoc, Hos.
  cbn [snd] in Hoc, Hos. split; [congruence|].
  apply (needs_to_apply_same p s s1 needed Hoc Hneeds).
Qed.

Lemma apply_if_needed_eval w p s needed :
  _needs_to_apply_container_configs p s = (inr needed, s) ->
  apply_if_needed w p s = perform_all w p (apply_config_if needed) s.
Proof.
  intros H. unfold apply_if_needed. rewrite (bind_inr _ _ _ _ _ H).
  destruct needed; cbn [apply_config_if perform_all perform when]; [|reflexivity].
  rewrite bind_ret_r. reflexivity.
Qed.

Lemma perform_all_app w p ops1 ops2 s :
  perform_all w p (ops1 ++ ops2) s =
  (perform_all w p ops1 ;;; perform_all w p ops2) s.
Proof.
  revert s. induction ops1 as [|op ops1 IH]; intros s; cbn [perform_all app].
  - reflexivity.
  - rewrite bind_assoc. apply bind_ext. intros [] s1 _. apply IH.
Qed.

Lemma bind_first {A B} (m m' : M A) (f : A -> M B) s :
  m s = m' s -> bind m f s = bind m' f s.
Proof. intros H. unfold bind. rewrite H. reflexivity. Qed.

Lemma needs_at_state p s needed :
  (_needs_to_apply_container_configs p s).1 = inr needed ->
  _needs_to_apply_container_configs p s = (inr needed, s).
Proof. apply needs_to_apply_same. reflexivity. Qed.

Lemma stopped_plan_eq w p (o : observed) (needed : bool) (s : st) :
  old_state s = Some (module_state o) ->
  (o <> Absent -> (_needs_to_apply_container_configs p s).1 = inr needed) ->
  _stopped w p s = perform_all w p (stopped_table o needed) s.
Proof.
  intros Hold Hneeds. unfold _stopped. eval_old_state Hold.
  destruct o; cbn [module_state stopped_table String.eqb Ascii.eqb Bool.eqb].
  - cbn [perform_all perform]. rewrite bind_ret_r. reflexivity.
  - specialize (Hneeds ltac:(discriminate)). eval_old_state Hold.
    rewrite (bind_inr _ _ _ _ _ (needs_at_state p s needed Hneeds)).
    destruct needed; cbn [when perform_all perform]; [|reflexivity].
    apply bind_ext. intros [] s1 _. apply bind_ext. intros [] s2 _.
    rewrite bind_ret_r. reflexivity.
  - specialize (Hneeds ltac:(discriminate)). eval_old_state Hold. eval_old_state Hold.
    rewrite (bind_first _ _ _ _
               (apply_if_needed_eval w p s needed (needs_at_state p s needed Hneeds))).
    rewrite perform_all_app. apply bind_ext. intros [] s1 _.
    cbn [perform_all perform]. rewrite bind_ret_r. reflexivity.
  - specialize (Hneeds ltac:(discriminate)). eval_old_state Hold. eval_old_state Hold.
    cbn [app perform_all perform]. apply bind_ext. intros [] s1 Hs1.
    destruct (perform_keeps_observation w p Unfreeze s s1 _ needed
                ltac:(discriminate) Hs1 Hold Hneeds) as [Hold1 Hneeds1].
    rewrite (bind_first _ _ _ _ (apply_if_needed_eval w p s1 needed Hneeds1)).
    rewrite perform_all_app. apply bind_ext. intros [] s2 _.
    cbn [perform_all perform]. rewrite bind_ret_r. reflexivity.
Qed.

Lemma restarted_plan_eq w p (o : observed) (needed : bool) (s : st) :
  old_state s = Some (module_state o) ->
  (o <> Absent -> (_needs_to_apply_container_configs p s).1 = inr needed) ->
  _restarted w p s =
    (perform_all w p (restarted_table o needed) ;;;
     when (wait_for_ipv4_addresses p) (_get_addresses w p)) s.
Proof.
  intros Hold Hneeds. unfold _restarted. eval_old_state Hold.
  destruct o; cbn [module_state restarted_table String.eqb Ascii.eqb Bool.eqb].
  - cbn [perform_all perform]. rewrite !bind_assoc.
    apply bind_ext. intros [] s1 _; cbv beta. rewrite !bind_assoc.
    apply bind_ext. intros [] s2 _; cbv beta. rewrite bind_ret_l. reflexivity.
  - specialize (Hneeds ltac:(discriminate)). eval_old_state Hold.
    rewrite (bind_first _ _ _ _
               (apply_if_needed_eval w p s needed (needs_at_state p s needed Hneeds))).
    rewrite (bind_first _ _ _ _ (perform_all_app w p _ _ s)). rewrite !bind_assoc.
    apply bind_ext. intros [] s1 _; cbv beta. cbn [perform_all perform]. rewrite !bind_assoc.
    apply bind_ext. intros [] s2 _; cbv beta. rewrite bind_ret_l. reflexivity.
  - specialize (Hneeds ltac:(discriminate)). eval_old_state Hold.
    rewrite (bind_first _ _ _ _
               (apply_if_needed_eval w p s needed (needs_at_state p s needed Hneeds))).
    rewrite (bind_first _ _ _ _ (perform_all_app w p _ _ s)). rewrite !bind_assoc.
    apply bind_ext. intros [] s1 _; cbv beta. cbn [perform_all perform]. rewrite !bind_assoc.
    apply bind_ext. intros [] s2 _; cbv beta. rewrite bind_ret_l. reflexivity.
  - specialize (Hneeds ltac:(discriminate)). eval_old_state Hold.
    cbn [app perform_all perform]. rewrite !bind_assoc.
    apply bind_ext. intros [] s1 Hs1; cbv beta.
    destruct (perform_keeps_observation w p Unfreeze s s1 _ needed
                ltac:(discriminate) Hs1 Hold Hneeds) as [Hold1 Hneeds1].
    rewrite !bind_assoc.
    rewrite (bind_first _ _ _ _ (apply_if_needed_eval w p s1 needed Hneeds1)).
    rewrite (bind_first _ _ _ _ (perform_all_app w p _ _ s1)). rewrite !bind_assoc.
    apply bind_ext. intros [] s2 _; cbv beta. cbn [perform_all perform]. rewrite !bind_assoc.
    apply bind_ext. intros [] s3 _; cbv beta. rewrite bind_ret_l. reflexivity.
Qed.

Lemma destroyed_plan_eq w p (o : observed) (s : st) :
  old_state s = Some (module_state o) ->
  _destroyed w p s = perform_all w p (destroyed_table o) s.
Proof.
  intros Hold. unfold _destroyed. eval_old_state Hold.
  destruct o; cbn [module_state destroyed_table String.eqb Ascii.eqb Bool.eqb negb when];
    [reflexivity|..]; eval_old_state Hold.
  - eval_old_state Hold. cbn [perform_all perform]. rewrite bind_ret_r. reflexivity.
  - eval_old_state Hold. cbn [perform_all perform].
    apply bind_ext. intros [] s1 _; cbv beta. rewrite bind_ret_r. reflexivity.
  - cbn [perform_all perform]. apply bind_ext. intros [] s1 Hs1; cbv beta.
    pose proof (perform_same w p Unfreeze s ltac:(discriminate)) as [_ Hos].
    cbn [perform] in Hos. rewrite Hs1 in Hos. cbn [snd] in Hos. rewrite Hold in Hos.
    eval_old_state Hos. apply bind_ext. intros [] s2 _; cbv beta.
    rewrite bind_ret_r. reflexivity.
Qed.

Lemma frozen_plan_eq w p (o : observed) (needed : bool) (s : st) :
  old_state s = Some (module_state o) ->
  (o <> Absent -> (_needs_to_apply_container_configs p s).1 = inr needed) ->
  _frozen w p s = perform_all w p (frozen_table o needed) s.
Proof.
  intros Hold Hneeds. unfold _frozen. eval_old_state Hold.
  destruct o; cbn [module_state frozen_table String.eqb Ascii.eqb Bool.eqb].
  - cbn [perform_all perform]. apply bind_ext. intros [] s1 _; cbv beta.
    apply bind_ext. intros [] s2 _; cbv beta. rewrite bind_ret_r. reflexivity.
  - specialize (Hneeds ltac:(discriminate)). eval_old_state Hold.
    cbn [app perform_all perform]. apply bind_ext. intros [] s1 Hs1; cbv beta.
    destruct (perform_keeps_observation w p Start s s1 _ needed
                ltac:(discriminate) Hs1 Hold Hneeds) as [Hold1 Hneeds1].
    rewrite (bind_first _ _ _ _ (apply_if_needed_eval w p s1 needed Hneeds1)).
    rewrite perform_all_app. apply bind_ext. intros [] s2 _; cbv beta.
    cbn [perform_all perform]. rewrite bind_ret_r. reflexivity.
  - specialize (Hneeds ltac:(discriminate)). eval_old_state Hold.
    rewrite (bind_first _ _ _ _
               (apply_if_needed_eval w p s needed (needs_at_state p s needed Hneeds))).
    rewrite perform_all_app. apply bind_ext. intros [] s1 _; cbv beta.
    cbn [perform_all perform]. rewrite bind_ret_r. reflexivity.
  - specialize (Hneeds ltac:(discriminate)). eval_old_state Hold.
    rewrite (bind_first _ _ _ _
               (apply_if_needed_eval w p s needed (needs_at_state p s needed Hneeds))).
    rewrite perform_all_app. apply bind_ext. intros [] s1 _; cbv beta.
    cbn [perform_all perform]. rewrite bind_ret_r. reflexivity.
Qed.

(** X1. [_stopped] carries out its row of the table: create for an
    absent instance; start, apply-config, stop for a stopped instance
    that needs a change and nothing for one that does not; for a frozen
    or running instance unfreeze (when frozen), apply-config when a
    change is needed, then stop.  Operations that return leave their
    names in the action log. *)
Theorem stopped_follows_table w p (o : observed) (needed : bool) (s : st) :
  old_state s = Some (module_state o) ->
  (o <> Absent -> (_needs_to_apply_container_configs p s).1 = inr needed) ->
  _stopped w p s = perform_all w p (stopped_table o needed) s /\
  (forall s', _stopped w p s = (inr tt, s') ->
     actions s' = (actions s ++ (log_name <$> stopped_table o needed))%list).
Proof.
  intros Hold Hneeds. pose proof (stopped_plan_eq w p o needed s Hold Hneeds) as Heq.
  split; [exact Heq|]. intros s'. rewrite Heq. apply perform_all_log.
Qed.

Lemma stopped_follows_table_witness :
  let w := one_instance "Stopped" {["limits.cpu" := "1"]} ∅ in
  let p := request_for "stopped" (Some {["limits.cpu" := "2"]}) false true in
  let s := observed_state w p in
  _stopped w p s = perform_all w p [Start; ApplyConfig; Stop] s.
Proof.
  intros w p s.
  apply (stopped_follows_table w p Stopped true s).
  - vm_compute. reflexivity.
  - intros _. vm_compute. reflexivity.
Defined.

(** X2. [_restarted] carries out its row of the table: create and start
    for an absent instance; otherwise unfreeze (when frozen),
    apply-config when a change is needed, then restart.  The address
    wait follows exactly when it was requested. *)
Theorem restarted_follows_table w p (o : observed) (needed : bool) (s : st) :
  old_state s = Some (module_state o) ->
  (o <> Absent -> (_needs_to_apply_container_configs p s).1 = inr needed) ->
  _restarted w p s =
    (perform_all w p (restarted_table o needed) ;;;
     when (wait_for_ipv4_addresses p) (_get_addresses w p)) s /\
  (forall s', perform_all w p (restarted_table o needed) s = (inr tt, s') ->
     actions s' = (actions s ++ (log_name <$> restarted_table o needed))%list).
Proof.
  intros Hold Hneeds. split; [apply restarted_plan_eq; assumption|].
  intros s'. apply perform_all_log.
Qed.

Lemma restarted_follows_table_witness :
  let w := one_instance "Frozen" {["limits.cpu" := "1"]} ∅ in
  let p := request_for "restarted" (Some {["limits.cpu" := "1"]}) true true in
  let s := observed_state w p in
  _restarted w p s =
    (perform_all w p [Unfreeze; Restart] ;;; when true (_get_addresses w p)) s.
Proof.
  intros w p s.
  apply (restarted_follows_table w p Frozen false s).
  - vm_compute. reflexivity.
  - intros _. vm_compute. reflexivity.
Defined.

(** X3. [_destroyed] carries out its row of the table, whatever the
    attributes are: nothing for an absent instance, delete for a stopped
    one, stop and delete for a running one, unfreeze, stop and delete
    for a frozen one. *)
Theorem destroyed_follows_table w p (o : observed) (s : st) :
  old_state s = Some (module_state o) ->
  _destroyed w p s = perform_all w p (destroyed_table o) s /\
  (forall s', _destroyed w p s = (inr tt, s') ->
     actions s' = (actions s ++ (log_name <$> destroyed_table o))%list).
Proof.
  intros Hold. pose proof (destroyed_plan_eq w p o s Hold) as Heq.
  split; [exact Heq|]. intros s'. rewrite Heq. apply perform_all_log.
Qed.

Lemma destroyed_follows_table_witness :
  let w := one_instance "Running" ∅ ∅ in
  let p := request_for "absent" None false false in
  let s := observed_state w p in
  _destroyed w p s = perform_all w p [Stop; Delete] s.
Proof.
  intros w p s.
  apply (destroyed_follows_table w p Running s). vm_compute. reflexivity.
Defined.

(** X4. [_frozen] carries out its row of the table: create, start and
    freeze for an absent instance; otherwise start (when stopped),
    apply-config when a change is needed, then freeze, also when the
    instance is frozen already. *)
Theorem frozen_follows_table w p (o : observed) (needed : bool) (s : st) :
  old_state s = Some (module_state o) ->
  (o <> Absent -> (_needs_to_apply_container_configs p s).1 = inr needed) ->
  _frozen w p s = perform_all w p (frozen_table o needed) s /\
  (forall s', _frozen w p s = (inr tt, s') ->
     actions s' = (actions s ++ (log_name <$> frozen_table o needed))%list).
Proof.
  intros Hold Hneeds. pose proof (frozen_plan_eq w p o needed s Hold Hneeds) as Heq.
  split; [exact Heq|]. intros s'. rewrite Heq. apply perform_all_log.
Qed.

Lemma frozen_follows_table_witness :
  let w := one_instance "Stopped" {["limits.cpu" := "1"]} ∅ in
  let p := request_for "frozen" (Some {["limits.cpu" := "2"]}) false true in
  let s := observed_state w p in
  _frozen w p s = perform_all w p [Start; ApplyConfig; Freeze] s.
Proof.
  intros w p s.
  apply (frozen_follows_table w p Stopped true s).
  - vm_compute. reflexivity.
  - intros _. vm_compute. reflexivity.
Defined.

(** ** The requests of the executor *)

Lemma perform_accepted w p op s :
  accepting w -> check_mode p = false -> op <> ApplyConfig ->
  exists dt,
    perform w p op s =
      (inr tt, append_action (log_name op) (record_call (request_of p op) dt s)).
Proof.
  intros Hacc Hcm Hop.
  assert (Hdo : forall m u b ok (s0 : st),
            exists r, client_do w m u b ok s0 =
              (inr r, record_call (Do m u b ok)
                        (Z.of_N (elapsed w (trace s0) (Do m u b ok))) s0)).
  { intros m u b ok s0. unfold client_do. cbv zeta.
    destruct (Hacc (trace s0) (Do m u b ok)) as [r Hr]. rewrite Hr. eauto. }
  destruct op; try congruence; cbn [perform log_name request_of];
    unfold _create_container, _start_container, _stop_container,
           _restart_container, _delete_container, _freeze_container,
           _unfreeze_container, _change_state, when;
    rewrite Hcm; cbn [negb]; cbv zeta.
  - destruct (target p) as [t|]; [destruct (String.eqb t ""); cbn [negb]|];
      match goal with
      | |- context [client_do w ?m ?u ?b ?ok] =>
          destruct (Hdo m u b ok s) as [r Hr]
      end;
      unfold bind, ret, modify; rewrite Hr; eauto.
  - destruct (Hdo PUT (Url (endpoint p ++ "/" ++ name p ++ "/state") [])
                (StateBody "start" (timeout p) None) [] s) as [r Hr].
    unfold bind, ret, modify. rewrite Hr. eauto.
  - destruct (Hdo PUT (Url (endpoint p ++ "/" ++ name p ++ "/state") [])
                (StateBody "stop" (timeout p) (if force_stop p then Some true else None))
                [] s) as [r Hr].
    unfold bind, ret, modify. rewrite Hr. eauto.
  - destruct (Hdo PUT (Url (endpoint p ++ "/" ++ name p ++ "/state") [])
                (StateBody "restart" (timeout p) (if force_stop p then Some true else None))
                [] s) as [r Hr].
    unfold bind, ret, modify. rewrite Hr. eauto.
  - destruct (Hdo DELETE (Url (endpoint p ++ "/" ++ name p) []) NoBody [] s) as [r Hr].
    unfold bind, ret, modify. rewrite Hr. eauto.
  - destruct (Hdo PUT (Url (endpoint p ++ "/" ++ name p ++ "/state") [])
                (StateBody "freeze" (timeout p) None) [] s) as [r Hr].
    unfold bind, ret, modify. rewrite Hr. eauto.
  - destruct (Hdo PUT (Url (endpoint p ++ "/" ++ name p ++ "/state") [])
                (StateBody "unfreeze" (timeout p) None) [] s) as [r Hr].
    unfold bind, ret, modify. rewrite Hr. eauto.
Qed.

(** X5. In a run that is not a dry run, against a control plane that
    accepts every request, operations other than apply-config send one
    request each, in order: create posts the desired attributes with the
    name (to the target node when one is given), the state changes put
    their action with the timeout, and only stop and restart carry the
    force flag, when [force_stop] is set.  Each operation logs its name. *)
Theorem plain_operations_send_one_request_each w p ops s :
  accepting w -> check_mode p = false -> ApplyConfig ∉ ops ->
  exists s',
    perform_all w p ops s = (inr tt, s') /\
    actions s' = (actions s ++ (log_name <$> ops))%list /\
    trace s' = (trace s ++ (request_of p <$> ops))%list.
Proof.
  intros Hacc Hcm. revert s. induction ops as [|op ops IH]; intros s Hops.
  - exists s. cbn. rewrite !app_nil_r. auto.
  - apply not_elem_of_cons in Hops as [Hop Hops].
    destruct (perform_accepted w p op s Hacc Hcm ltac:(congruence)) as [dt Hrun].
    destruct (IH (append_action (log_name op) (record_call (request_of p op) dt s)) Hops)
      as (s' & Hrun' & Hact & Htr).
    exists s'. cbn [perform_all]. rewrite (bind_inr _ _ _ _ _ Hrun).
    split; [exact Hrun'|]. rewrite Hact, Htr. proj_simpl.
    cbn [fmap list_fmap]. rewrite <- !app_assoc. auto.
Qed.

Lemma plain_operations_send_one_request_each_witness :
  let w := one_instance "Frozen" ∅ ∅ in
  let p := request_for "absent" None false false in
  exists s',
    perform_all w p [Unfreeze; Stop; Delete] (observed_state w p) = (inr tt, s') /\
    actions s' = ["unfreez"; "stop"; "delete"].
Proof.
  intros w p.
  destruct (plain_operations_send_one_request_each w p [Unfreeze; Stop; Delete]
              (observed_state w p))
    as (s' & Hrun & Hact & _).
  - intros tr c. unfold w. cbn [respond one_instance].
    destruct c as [|[] [path q] ? ?]; try (eexists; reflexivity).
    destruct (String.eqb path "/1.0/instances/c1"); eexists; reflexivity.
  - reflexivity.
  - intros H. repeat (apply elem_of_cons in H as [H|H]; [discriminate|]).
    apply elem_of_nil in H. exact H.
  - exists s'. split; [exact Hrun|]. rewrite Hact. vm_compute. reflexivity.
Defined.

(** ** The start of a run *)

Lemma authentication_eval w p :
  authenticated w p ->
  (match trust_password p with
   | Some pw => client_authenticate w pw
   | None => ret tt
   end) (init w) = (inr tt, after_authentication w p).
Proof.
  unfold authenticated, after_authentication. destruct (trust_password p) as [pw|];
    [|reflexivity].
  intros [r Hr]. unfold client_authenticate. cbv zeta. cbn [init trace]. rewrite Hr.
  reflexivity.
Qed.

Lemma fetched_trace w p :
  trace (after_authentication w p) =
    match trust_password p with
    | Some pw => [Authenticate pw]
    | None => []
    end.
Proof. unfold after_authentication. destruct (trust_password p); reflexivity. Qed.

Lemma fetch_eval w p :
  _get_container_json w p (after_authentication w p) =
    match fetched w p with
    | inl m => (inl (LXDClientException m), after_fetch w p)
    | inr resp => (inr resp, after_fetch w p)
    end.
Proof.
  unfold _get_container_json, client_do, fetched, after_fetch, instance_fetch. cbv zeta.
  rewrite fetched_trace. destruct (respond w _ _); reflexivity.
Qed.

(** [observe], from the answer to the fetch on. *)
Lemma observe_from_fetch w p resp :
  authenticated w p -> fetched w p = inr resp ->
  observe w p (init w) =
    (o <- _container_json_to_module_state resp ;;
     modify (set_old_state o) ;;;
     old <- self_old_state ;;
     modify (fun s => set_diff_before (DiffSide (Some old) (d_instance (diff_before s))) s) ;;;
     modify (fun s => set_diff_after (DiffSide (Some (state p)) (d_instance (diff_after s))) s) ;;;
     resp_json <- self_old_container_json ;;
     old_sections <-
       match r_metadata resp_json with
       | None => raise (AttributeError "items")
       | Some md => ret (filter (fun kv : string * obj => kv.1 ∈ mutable_set) md)
       end ;;
     before <- before_entries (map_to_list (old_sections : gmap string obj)) ;;
     modify (fun s => set_diff_before (DiffSide (d_state (diff_before s)) (Some before)) s))
      (set_old_container_json resp (after_fetch w p)).
Proof.
  intros Hauth Hf. unfold observe.
  rewrite (bind_inr _ _ _ _ _ (authentication_eval w p Hauth)).
  unfold bind at 1. rewrite fetch_eval, Hf.
  unfold bind at 1, modify at 1. cbv beta iota.
  unfold self_old_container_json at 1. unfold bind at 1 2, gets at 1. cbv beta iota.
  cbn [old_container_json set_old_container_json]. reflexivity.
Qed.

(** X6. When the fetch of the instance fails, the run ends with
    [fail_json] carrying the message of the failure, [changed] false, an
    empty action log and an empty diff; the fetch is the last call. *)
Theorem failed_fetch_reports_nothing w p m :
  authenticated w p -> fetched w p = inl m ->
  run w p = fail_json {| msg := m; fail_changed := false; fail_actions := [];
                         fail_diff_before := DiffView None None;
                         fail_diff_after := DiffView None None |} /\
  run_trace w p = (trace (after_authentication w p) ++ [instance_fetch p])%list.
Proof.
  intros Hauth Hf.
  assert (Hrun : run_body w p (init w) = (inl (LXDClientException m), after_fetch w p)).
  { unfold run_body, observe.
    rewrite bind_assoc, (bind_inr _ _ _ _ _ (authentication_eval w p Hauth)).
    rewrite bind_assoc. unfold bind at 1. rewrite fetch_eval, Hf. reflexivity. }
  unfold run, run_trace, run_from. rewrite Hrun. cbn [fst snd]. split; [|reflexivity].
  unfold after_fetch, after_authentication.
  destruct (trust_password p); reflexivity.
Qed.

Lemma failed_fetch_reports_nothing_witness :
  let w := {| respond := fun _ _ => inl "not authorized";
              elapsed := fun _ _ => 0%N; start_time := 0 |} in
  let p := request_for "started" None false false in
  exists f, run w p = fail_json f /\ msg f = "not authorized" /\ fail_actions f = [].
Proof.
  intros w p.
  destruct (failed_fetch_reports_nothing w p "not authorized") as [Hrun _].
  - exact Logic.I.
  - reflexivity.
  - eexists. split; [exact Hrun|]. split; reflexivity.
Defined.

(** X7. An instance whose status is not Running, Stopped or Frozen is
    not handled: [run] stops with a [KeyError] that its handler does not
    catch, and the fetch is the only request. *)
Theorem unknown_status_is_not_handled w p resp md status :
  authenticated w p -> fetched w p = inr resp ->
  String.eqb (r_type resp) "error" = false ->
  r_metadata resp = Some md -> md !! "status" = Some (OStr status) ->
  assoc status ANSIBLE_LXD_STATES = None ->
  run w p = uncaught (KeyError status) /\
  run_trace w p = (trace (after_authentication w p) ++ [instance_fetch p])%list /\
  actions (run_from w p (init w)).2 = [].
Proof.
  intros Hauth Hf Htype Hmd Hst Hassoc.
  assert (Hrun : run_body w p (init w) =
                 (inl (KeyError status), set_old_container_json resp (after_fetch w p))).
  { unfold run_body. unfold bind at 1.
    rewrite (observe_from_fetch w p resp Hauth Hf).
    unfold bind at 1. unfold _container_json_to_module_state. rewrite Htype.
    unfold metadata_member, subscript. rewrite Hmd, Hst.
    rewrite bind_ret_l, Hassoc. reflexivity. }
  unfold run, run_trace, run_from. rewrite Hrun. cbn [fst snd].
  split; [reflexivity|]. split; [reflexivity|].
  unfold after_fetch, after_authentication. destruct (trust_password p); reflexivity.
Qed.

Lemma unknown_status_is_not_handled_witness :
  let w := one_instance "Error" ∅ ∅ in
  let p := request_for "started" None false false in
  run w p = uncaught (KeyError "Error").
Proof.
  intros w p.
  refine (proj1 (unknown_status_is_not_handled w p (instance_document "Error" ∅) _ "Error"
                   _ _ _ _ _ _)).
  - exact Logic.I.
  - reflexivity.
  - reflexivity.
  - reflexivity.
  - vm_compute. reflexivity.
  - reflexivity.
Defined.

(** X8. When the not-found answer to the fetch carries a null metadata
    member, the instance is taken as absent but [run] stops, before any
    handler, with an [AttributeError] that its handler does not catch:
    nothing is created. *)
Theorem absent_with_null_metadata_is_not_handled w p resp :
  authenticated w p -> fetched w p = inr resp ->
  r_type resp = "error" -> r_metadata resp = None ->
  run w p = uncaught (AttributeError "items") /\
  run_trace w p = (trace (after_authentication w p) ++ [instance_fetch p])%list /\
  old_state (run_from w p (init w)).2 = Some "absent" /\
  actions (run_from w p (init w)).2 = [].
Proof.
  intros Hauth Hf Htype Hmd.
  assert (Hrun : exists s', run_body w p (init w) = (inl (AttributeError "items"), s') /\
                            trace s' = trace (after_fetch w p) /\
                            old_state s' = Some "absent" /\
                            actions s' = actions (after_fetch w p)).
  { unfold run_body. unfold bind at 1.
    rewrite (observe_from_fetch w p resp Hauth Hf).
    unfold bind at 1. unfold _container_json_to_module_state. rewrite Htype.
    cbn [String.eqb Ascii.eqb Bool.eqb]. unfold ret at 1. cbv beta iota.
    unfold bind at 1, modify at 1. cbv beta iota.
    unfold self_old_state at 1. unfold bind at 1 2, gets at 1. cbv beta iota.
    cbn [old_state set_old_state]. unfold ret at 1. cbv beta iota.
    unfold bind at 1, modify at 1. cbv beta iota.
    unfold bind at 1, modify at 1. cbv beta iota.
    unfold self_old_container_json at 1. unfold bind at 1 2, gets at 1. cbv beta iota.
    proj_simpl. unfold ret at 1. cbv beta iota. rewrite Hmd.
    unfold bind at 1, raise at 1. cbv beta iota.
    eexists. split; [reflexivity|]. proj_simpl. auto. }
  destruct Hrun as (s' & Hrun & Htr & Hos & Hact).
  unfold run, run_trace, run_from. rewrite Hrun. cbn [fst snd].
  split; [reflexivity|]. split; [rewrite Htr; reflexivity|]. split; [exact Hos|].
  rewrite Hact. unfold after_fetch, after_authentication.
  destruct (trust_password p); reflexivity.
Qed.

Lemma absent_with_null_metadata_is_not_handled_witness :
  let w := {| respond := fun _ c =>
                match c with
                | Do GET _ _ _ => inr (Response "error" None)
                | _ => inr (Response "sync" None)
                end;
              elapsed := fun _ _ => 0%N; start_time := 0 |} in
  let p := request_for "started" None false false in
  run w p = uncaught (AttributeError "items").
Proof.
  intros w p.
  refine (proj1 (absent_with_null_metadata_is_not_handled w p (Response "error" None)
                   _ _ _ _)).
  - exact Logic.I.
  - reflexivity.
  - reflexivity.
  - reflexivity.
Defined.

(** ** The address wait, poll by poll *)

Lemma only_waited_refl s : only_waited s s.
Proof. repeat split. Qed.

Lemma only_waited_trans s1 s2 s3 :
  only_waited s1 s2 -> only_waited s2 s3 -> only_waited s1 s3.
Proof.
  unfold only_waited. intros (?&?&?&?&?) (?&?&?&?&?). repeat split; congruence.
Qed.

Lemma loopback_filtered (n : gmap string (list (string * string))) :
  (inet_addresses <$>
     filter (fun kv : string * list (string * string) => kv.1 ∉ ["lo"]) n) !! "lo" = None.
Proof.
  rewrite lookup_fmap. apply fmap_None, map_lookup_filter_None. right.
  intros v _ H. apply H. left.
Qed.

(** One poll: a state fetch, which takes time, and nothing else. *)
Lemma fetch_addresses_spec w p s r s' :
  _container_ipv4_addresses w p ["lo"] s = (r, s') ->
  trace s' = (trace s ++ [state_fetch p])%list /\
  clock s <= clock s' /\
  only_waited s s' /\
  addresses s' = addresses s /\
  (forall a, r = inr a -> a !! "lo" = None).
Proof.
  unfold _container_ipv4_addresses, _get_container_state_json, client_do.
  unfold bind at 1. cbv zeta. fold (state_fetch p).
  set (s1 := record_call (state_fetch p) _ s).
  assert (H1 : forall r0, r0 = r -> (forall a, r0 = inr a -> a !! "lo" = None) ->
               s1 = s' ->
               trace s' = (trace s ++ [state_fetch p])%list /\ clock s <= clock s' /\
               only_waited s s' /\ addresses s' = addresses s /\
               (forall a, r = inr a -> a !! "lo" = None)).
  { intros r0 <- Hr <-. unfold s1. proj_simpl.
    split; [reflexivity|]. split; [lia|]. split; [repeat split|]. split; [reflexivity|].
    exact Hr. }
  destruct (respond w (trace s) (state_fetch p)) as [m|resp].
  { intros [= Hr Hs]. apply (H1 _ Hr); [congruence|exact Hs]. }
  unfold metadata_member, subscript, bind, ret, raise.
  destruct (r_metadata resp) as [md|];
    [|intros [= Hr Hs]; apply (H1 _ Hr); [congruence|exact Hs]].
  destruct (md !! "network") as [net|];
    [|intros [= Hr Hs]; apply (H1 _ Hr); [congruence|exact Hs]].
  unfold network_of, ret, raise.
  destruct (truthy net); [destruct net|];
    intros [= Hr Hs]; apply (H1 _ Hr); try congruence;
    intros a [= <-]; apply loopback_filtered.
Qed.

Lemma has_all_usable a :
  _has_all_ipv4_addresses a = true -> a !! "lo" = None -> usable_addresses a.
Proof.
  unfold _has_all_ipv4_addresses, usable_addresses. rewrite andb_true_iff.
  intros [H1 H2] Hlo. apply bool_decide_eq_true in H1, H2.
  split; [exact H1|]. split; [|exact Hlo].
  intros k v Hk. specialize (H2 k v Hk). cbn beta in H2.
  destruct v; [cbn [length] in H2; lia|congruence].
Qed.

Lemma poll_spec w p fuel : forall due s r s',
  poll w p fuel due s = (r, s') ->
  exists n : nat,
    (n <= fuel)%nat /\
    trace s' = (trace s ++ replicate n (state_fetch p))%list /\
    clock s + Z.of_nat n * 1000000 <= clock s' /\
    only_waited s s' /\
    (r = inr tt ->
       (exists a, addresses s' = Some a /\ usable_addresses a) \/
       (addresses s' = addresses s /\ due <= clock s')).
Proof.
  induction fuel as [|fuel IH]; intros due s r s'; cbn [poll];
    unfold bind at 1, datetime_now, gets; cbv beta iota;
    destruct (Z.ltb_spec (clock s) due) as [Hlt|Hge].
  - unfold raise. intros [= <- <-]. exists 0%nat. cbn [replicate]. rewrite app_nil_r.
    split; [lia|]. split; [reflexivity|]. split; [lia|].
    split; [apply only_waited_refl|]. intros [=].
  - unfold ret. intros [= <- <-]. exists 0%nat. cbn [replicate]. rewrite app_nil_r.
    split; [lia|]. split; [reflexivity|]. split; [lia|].
    split; [apply only_waited_refl|]. intros _. right. split; [reflexivity|lia].
  - unfold bind at 1, time_sleep, modify. cbv beta iota.
    set (s1 := advance_clock (1 * 1000000) s).
    unfold bind at 1.
    destruct (_container_ipv4_addresses w p ["lo"] s1) as [[e|a] s2] eqn:Hfetch;
      destruct (fetch_addresses_spec _ _ _ _ _ Hfetch) as (Htr & Hclk & Hw & Haddr & Hlo);
      unfold s1 in Htr, Hclk, Hw, Haddr; unfold only_waited in Hw;
      revert Htr Hclk Hw Haddr; proj_simpl; intros Htr Hclk Hw Haddr.
    + intros [= <- <-]. exists 1%nat. cbn [replicate]. split; [lia|]. split; [exact Htr|].
      split; [lia|]. split; [exact Hw|]. intros [=].
    + destruct (_has_all_ipv4_addresses a) eqn:Hall.
      * unfold modify. intros [= <- <-]. exists 1%nat. cbn [replicate].
        unfold only_waited. proj_simpl.
        split; [lia|]. split; [exact Htr|].
        split; [lia|]. split; [exact Hw|].
        intros _. left. exists a. split; [reflexivity|].
        apply has_all_usable; [exact Hall|apply Hlo; reflexivity].
      * intros Hpoll. destruct (IH due s2 r s' Hpoll) as (n & Hn & Htr' & Hclk' & Hw' & Hres).
        exists (S n). split; [lia|]. split.
        { rewrite Htr', Htr. cbn [replicate]. rewrite <- app_assoc. reflexivity. }
        split; [lia|].
        split; [eapply only_waited_trans; [exact Hw|exact Hw']|].
        intros Hr. destruct (Hres Hr) as [Hfound|[Hsame Hdue]]; [left; exact Hfound|].
        right. split; [|exact Hdue]. rewrite Hsame, Haddr. reflexivity.
  - unfold ret. intros [= <- <-]. exists 0%nat. cbn [replicate]. rewrite app_nil_r.
    split; [lia|]. split; [reflexivity|]. split; [lia|].
    split; [apply only_waited_refl|]. intros _. right. split; [reflexivity|lia].
Qed.

Lemma get_addresses_spec w p s r s' :
  _get_addresses w p s = (r, s') ->
  exists n : nat,
    (n <= Z.to_nat (timeout p))%nat /\
    trace s' = (trace s ++ replicate n (state_fetch p))%list /\
    clock s + Z.of_nat n * 1000000 <= clock s' /\
    only_waited s s' /\
    (r = inr tt ->
       (exists a, addresses s' = Some a /\ usable_addresses a) \/
       (addresses s' = addresses s /\ clock s + timeout p * 1000000 <= clock s')).
Proof.
  unfold _get_addresses, rename_client_exception. unfold bind at 1, datetime_now, gets.
  cbv beta iota zeta.
  destruct (poll w p (Z.to_nat (timeout p)) (clock s + timeout p * 1000000) s)
    as [r0 s0] eqn:Hpoll.
  destruct (poll_spec _ _ _ _ _ _ _ Hpoll) as (n & Hn & Htr & Hclk & Hw & Hres).
  intros Hret. exists n.
  assert (Hs : s0 = s') by (destruct r0 as [[]|]; congruence). subst s0.
  repeat (split; [assumption|]).
  intros ->. apply Hres. destruct r0 as [[]|[]]; congruence.
Qed.


(** ** The addresses a run reports *)

Section Addresses.

Context (w : world) (p : params).

Let anything := fun (_ : exn) (_ : st) => True.

Lemma store_metadata_addresses key o s :
  addresses (store_metadata key o s) = addresses s.
Proof. apply (only_json_changed_store s key o s (only_json_changed_refl s)). Qed.















End Addresses.



(** ** The desired specification *)

Lemma build_config_fold (mp : gmap string obj) key : forall l (acc : gmap string obj),
  foldl (fun cfg attr =>
           match mp !! attr with
           | Some ONone | None => cfg
           | Some param_val => <[attr := param_val]> cfg
           end) acc l !! key =
  if bool_decide (key ∈ l)
  then match mp !! key with
       | Some ONone | None => acc !! key
       | Some v => Some v
       end
  else acc !! key.
Proof.
  induction l as [|attr l IH]; intros acc; [reflexivity|].
  cbn [foldl]. rewrite IH. destruct (decide (key = attr)) as [->|Hne].
  - rewrite (bool_decide_eq_true_2 (attr ∈ attr :: l)) by left.
    destruct (mp !! attr) as [[]|]; rewrite ?lookup_insert_eq;
      destruct (bool_decide (attr ∈ l)); reflexivity.
  - assert (Hmem : bool_decide (key ∈ attr :: l) = bool_decide (key ∈ l)).
    { apply bool_decide_ext. rewrite elem_of_cons. split; [intros [?|?]|right];
        [congruence|assumption|assumption]. }
    rewrite Hmem.
    destruct (mp !! attr) as [[]|]; rewrite ?lookup_insert_ne by congruence; reflexivity.
Qed.

(** X11. The desired specification holds exactly the configuration
    attributes that were supplied with a value other than [None]: a
    module parameter that is no configuration attribute (the name, the
    state, the timeout) never enters it, and a null attribute is left
    out. *)
Theorem build_config_lookup (mp : gmap string obj) key :
  _build_config mp !! key =
    if bool_decide (key ∈ CONFIG_PARAMS)
    then match mp !! key with
         | Some ONone => None
         | v => v
         end
    else None.
Proof.
  unfold _build_config. rewrite build_config_fold, lookup_empty.
  destruct (bool_decide (key ∈ CONFIG_PARAMS)); [|reflexivity].
  destruct (mp !! key) as [[]|]; reflexivity.
Qed.

(** ** The attributes of the request that applies the configuration *)

Section Body.

Context (p : params).

(** The comparison of one attribute, when it returns. *)
Lemma needs_to_change_value key s b s1 :
  _needs_to_change_container_config p key s = (inr b, s1) ->
  key <> "config" \/ config p !! "config" = None ->
  s1 = s /\
  match config p !! key with
  | None => b = false
  | Some d => exists o, observed_section s key = Some o /\ b = negb (bool_decide (d = o))
  end.
Proof.
  intros Hrun Hkey. pose proof (needs_to_change_reads p key s) as Hreads.
  rewrite Hrun in Hreads. injection Hreads as _ <-. split; [reflexivity|].
  revert Hrun. unfold _needs_to_change_container_config.
  destruct (config p !! key) as [d|] eqn:Hd; [|intros [= <-]; reflexivity].
  destruct (String.eqb_spec key "config") as [->|Hne]; [destruct Hkey; congruence|].
  unfold self_old_container_json, metadata_member, subscript, observed_section, old_metadata.
  unfold bind, gets, ret, raise. cbv beta iota.
  destruct (old_container_json s1) as [resp|]; [|intros [=]]. cbn.
  destruct (r_metadata resp) as [md|]; [|intros [=]]. cbn.
  destruct (md !! key) as [o|]; [|intros [=]].
  intros [= <-]. exists o. split; reflexivity.
Qed.

(** The reference the loop leaves for an attribute. *)
Let slot (s : st) (key : string) (fallback : option ref) : option ref :=
  match config p !! key with
  | Some d =>
      Some (if bool_decide (observed_section s key = Some d)
            then FromResponse key else FromParams key)
  | None =>
      if bool_decide (is_Some (observed_section s key))
      then Some (FromResponse key) else fallback
  end.

Lemma build_body_attribute ps : forall body_json s body_json' s',
  build_body p ps body_json s = (inr body_json', s') ->
  forall key, key <> "config" \/ config p !! "config" = None ->
    observed_section s' key = observed_section s key /\
    body_json' !! key =
      if bool_decide (key ∈ ps) then slot s key (body_json !! key) else body_json !! key.
Proof.
  induction ps as [|param ps IH]; intros body_json s body_json' s'.
  { cbn [build_body]. intros [= <- <-] key _. split; reflexivity. }
  cbn [build_body]. unfold self_old_container_json at 1.
  unfold bind at 1 2, gets at 1. cbv beta iota.
  destruct (old_container_json s) as [resp|] eqn:H1; [|intros [=]].
  unfold ret at 1. cbv beta iota.
  destruct (r_metadata resp) as [md|] eqn:H2; [|intros [=]].
  unfold bind at 1, ret at 1. cbv beta iota.
  assert (Hobs : forall key, observed_section s key = md !! key).
  { intros key. unfold observed_section, old_metadata. rewrite H1. cbn. rewrite H2.
    reflexivity. }
  set (body1 := if bool_decide (is_Some (md !! param))
                then <[param := FromResponse param]> body_json else body_json).
  unfold bind at 1.
  destruct (_needs_to_change_container_config p param s) as [[e|b] s1] eqn:Hneed;
    [intros [=]|].
  assert (Hs1 : s1 = s).
  { pose proof (needs_to_change_reads p param s) as Hreads.
    rewrite Hneed in Hreads. injection Hreads as _ <-. reflexivity. }
  subst s1. unfold bind at 1.
  destruct ((if b
             then if String.eqb param "config"
                  then desired <- subscript (config p) "config" ;;
                       desired_items <- items desired ;;
                       merge_items body1 (map_to_list desired_items) ;;; ret body1
                  else ret (<[param := FromParams param]> body1)
             else ret body1) s) as [[e|body2] s2] eqn:Hstep; [intros [=]|].
  intros Hrest key Hkey.
  destruct (IH _ _ _ _ Hrest key Hkey) as [Hkeep Hlook].
  (* the state after the step, and the body it leaves *)
  assert (Hs2 : observed_section s2 key = observed_section s key /\
                body2 !! key =
                  if decide (key = param) then slot s key (body_json !! key)
                  else body_json !! key).
  { destruct (decide (key = param)) as [->|Hne].
    - destruct (needs_to_change_value _ _ _ _ Hneed Hkey) as [_ Hb].
      unfold slot.
      destruct (config p !! param) as [d|] eqn:Hd.
      + destruct Hb as (o & Ho & ->). rewrite Hobs in Ho.
        assert (Hparam : param <> "config") by (destruct Hkey; congruence).
        apply String.eqb_neq in Hparam. rewrite Hparam in Hstep.
        unfold body1 in Hstep. rewrite Ho in Hstep.
        rewrite (bool_decide_eq_true_2 (is_Some (Some o))) in Hstep by eauto.
        destruct (decide (d = o)) as [->|Hdo].
        * rewrite (bool_decide_eq_true_2 (o = o)) in Hstep by reflexivity.
          cbn [negb] in Hstep. injection Hstep as <- <-.
          split; [reflexivity|]. rewrite Hobs, Ho.
          rewrite (bool_decide_eq_true_2 (Some o = Some o)) by reflexivity.
          apply lookup_insert_eq.
        * rewrite (bool_decide_eq_false_2 (d = o)) in Hstep by exact Hdo.
          cbn [negb] in Hstep. injection Hstep as <- <-.
          split; [reflexivity|]. rewrite Hobs, Ho.
          rewrite (bool_decide_eq_false_2 (Some o = Some d)) by congruence.
          apply lookup_insert_eq.
      + subst b. injection Hstep as <- <-. split; [reflexivity|]. rewrite Hobs.
        unfold body1.
        destruct (bool_decide (is_Some (md !! param))); [apply lookup_insert_eq|reflexivity].
    - assert (Hbody1 : body1 !! key = body_json !! key).
      { unfold body1. destruct (bool_decide (is_Some (md !! param)));
          [apply lookup_insert_ne; congruence|reflexivity]. }
      destruct b; [|injection Hstep as <- <-; split; [reflexivity|exact Hbody1]].
      destruct (String.eqb_spec param "config") as [->|Hparam];
        [|injection Hstep as <- <-; split; [reflexivity|];
          rewrite lookup_insert_ne by congruence; exact Hbody1].
      (* the merge of [config]: another section is not touched *)
      revert Hneed. unfold _needs_to_change_container_config.
      destruct (config p !! "config") as [desired|] eqn:Hd; [|intros [=]].
      cbn [String.eqb Ascii.eqb Bool.eqb].
      unfold self_old_container_json, metadata_member, subscript, items.
      unfold bind, gets, ret, raise. cbv beta iota. rewrite H1. cbv beta iota. rewrite H2.
      destruct (md !! "config") as [old|] eqn:Hold; [|intros [=]].
      destruct old as [| | | |cur| |]; cbv beta iota; try (intros [=]; fail).
      destruct desired as [| | | |des| |]; cbv beta iota; try (intros [=]; fail). intros _.
      assert (Hcur : observed_section s "config" = Some (ODict cur)).
      { rewrite Hobs. exact Hold. }
      assert (Hb1 : body1 !! "config" = Some (FromResponse "config")).
      { unfold body1. rewrite ?Hold. rewrite bool_decide_eq_true_2 by eauto.
        apply lookup_insert_eq. }
      destruct (merge_items_eval body1 (map_to_list des) s cur Hb1 Hcur)
        as (s3 & Hrun & _ & _ & Hother).
      revert Hstep. unfold subscript. rewrite Hd. rewrite bind_ret_l.
      unfold items. rewrite bind_ret_l. unfold bind. rewrite Hrun. unfold ret.
      intros [= <- <-]. split; [apply Hother; congruence|exact Hbody1]. }
  destruct Hs2 as [Hkeep2 Hlook2].
  split; [rewrite Hkeep, Hkeep2; reflexivity|].
  rewrite Hlook. unfold slot in *. rewrite Hkeep2, Hlook2.
  destruct (decide (key = param)) as [->|Hne].
  - rewrite (bool_decide_eq_true_2 (param ∈ param :: ps)) by left.
    destruct (bool_decide (param ∈ ps)); [|reflexivity].
    destruct (config p !! param); [reflexivity|].
    destruct (bool_decide (is_Some (observed_section s param))); reflexivity.
  - assert (Hmem : bool_decide (key ∈ param :: ps) = bool_decide (key ∈ ps)).
    { apply bool_decide_ext. rewrite elem_of_cons. split; [intros [?|?]|right];
        [congruence|assumption|assumption]. }
    rewrite Hmem. reflexivity.
Qed.

(** An attribute the loop does not visit gets no entry. *)
Lemma build_body_elsewhere ps : forall body_json s body_json' s' key,
  build_body p ps body_json s = (inr body_json', s') ->
  key ∉ ps -> body_json' !! key = body_json !! key.
Proof.
  induction ps as [|param ps IH]; intros body_json s body_json' s' key.
  { cbn [build_body]. intros [= <- <-] _. reflexivity. }
  cbn [build_body]. intros Hrun Hkey.
  apply not_elem_of_cons in Hkey as [Hne Hkey].
  revert Hrun. unfold bind at 1.
  destruct (self_old_container_json s) as [[e|resp] s0]; [intros [=]|].
  unfold bind at 1.
  destruct (r_metadata resp) as [md|]; [|intros [=]]. unfold ret at 1.
  set (body1 := if bool_decide (is_Some (md !! param))
                then <[param := FromResponse param]> body_json else body_json).
  assert (Hbody1 : body1 !! key = body_json !! key).
  { unfold body1. destruct (bool_decide (is_Some (md !! param)));
      [apply lookup_insert_ne; congruence|reflexivity]. }
  unfold bind at 1.
  destruct (_needs_to_change_container_config p param s0) as [[e|b] s1]; [intros [=]|].
  unfold bind at 1.
  destruct ((if b
             then if String.eqb param "config"
                  then desired <- subscript (config p) "config" ;;
                       desired_items <- items desired ;;
                       merge_items body1 (map_to_list desired_items) ;;; ret body1
                  else ret (<[param := FromParams param]> body1)
             else ret body1) s1) as [[e|body2] s2] eqn:Hstep; [intros [=]|].
  intros Hrest. rewrite (IH _ _ _ _ _ Hrest Hkey), <- Hbody1.
  destruct b; [|injection Hstep as <- _; reflexivity].
  destruct (String.eqb param "config").
  - revert Hstep. unfold bind.
    destruct (subscript (config p) "config" s1) as [[e|desired] s3]; [intros [=]|].
    destruct (items desired s3) as [[e|desired_items] s4]; [intros [=]|].
    destruct (merge_items body1 (map_to_list desired_items) s4) as [[e|[]] s5];
      [intros [=]|].
    unfold ret. intros [= <- _]. reflexivity.
  - injection Hstep as <- _. apply lookup_insert_ne. congruence.
Qed.

End Body.

(** What [_apply_container_configs] does after the body is built. *)
Lemma apply_configs_finish w p s s' :
  _apply_container_configs w p s = (inr tt, s') ->
  exists body_json s1,
    build_body p mutable_params ∅ s = (inr body_json, s1) /\
    old_container_json s' = old_container_json s1 /\
    d_instance (diff_after s') = Some body_json /\
    (if check_mode p then trace s' = trace s
     else trace s' =
          (trace s ++ [Do PUT (Url (endpoint p ++ "/" ++ name p) [])
                          (InstanceBody (render (config p) s' body_json)) []])%list).
Proof.
  unfold _apply_container_configs. unfold bind at 1.
  destruct (self_old_container_json s) as [[e|resp] s0] eqn:Hself; [intros [=]|].
  assert (s0 = s) as ->.
  { revert Hself. unfold self_old_container_json, bind, gets, ret, raise.
    destruct (old_container_json s); intros [= _ <-]; reflexivity. }
  unfold bind at 1.
  pose proof (build_body_only_json p mutable_params ∅ s) as Hfr.
  destruct (build_body p mutable_params ∅ s) as [[e|body_json] s1]; [intros [=]|].
  cbn [snd] in Hfr. destruct Hfr as (_ & _ & _ & _ & _ & Htr & _).
  unfold bind at 1, modify at 1. cbv beta iota.
  destruct (check_mode p); cbn [negb when].
  - rewrite bind_ret_l. unfold modify. intros [= <-]. exists body_json, s1.
    split; [reflexivity|]. proj_simpl. repeat split. exact Htr.
  - unfold bind at 1 2 3, gets at 1, client_do. cbv beta iota zeta.
    destruct (respond w _ _); cbv beta iota; [intros [=]|].
    unfold ret at 1, modify. cbv beta iota. intros [= <-]. exists body_json, s1.
    split; [reflexivity|]. proj_simpl. split; [reflexivity|]. split; [reflexivity|].
    rewrite Htr. reflexivity.
Qed.

Lemma render_same_document cfg s s' body_json :
  old_container_json s' = old_container_json s ->
  render cfg s' body_json = render cfg s body_json.
Proof.
  intros H. unfold render. apply map_eq. intros k. rewrite !lookup_omap.
  destruct (body_json !! k) as [[]|]; cbn [mbind option_bind deref]; try reflexivity.
  unfold old_metadata. rewrite H. reflexivity.
Qed.

(** X12. The request that applies the configuration replaces the whole
    instance, so it carries every mutable attribute: one the caller
    supplied has the supplied value, one the caller left out keeps the
    value of the fetched document.  An attribute that is not mutable
    (the name, the source, the type, the status) is never part of it.
    The same mapping is what the after side of the diff shows; a dry
    run builds it and sends nothing. *)
Theorem applied_attributes_are_desired_or_observed w p s s' :
  _apply_container_configs w p s = (inr tt, s') ->
  exists body_json,
    d_instance (diff_after s') = Some body_json /\
    (if check_mode p then trace s' = trace s
     else trace s' =
          (trace s ++ [Do PUT (Url (endpoint p ++ "/" ++ name p) [])
                          (InstanceBody (render (config p) s' body_json)) []])%list) /\
    (forall key, key ∈ mutable_params ->
       key <> "config" \/ config p !! "config" = None ->
       render (config p) s' body_json !! key =
         match config p !! key with
         | Some d => Some d
         | None => observed_section s key
         end) /\
    (forall key, key ∉ mutable_params -> render (config p) s' body_json !! key = None).
Proof.
  intros Hrun.
  destruct (apply_configs_finish _ _ _ _ Hrun) as (body_json & s1 & Hbody & Hdoc & Hafter & Htr).
  exists body_json. split; [exact Hafter|]. split; [exact Htr|].
  rewrite (render_same_document _ _ _ _ Hdoc). split.
  - intros key Hmem Hkey.
    destruct (build_body_attribute p mutable_params _ _ _ _ Hbody key Hkey) as [Hkeep Hlook].
    rewrite bool_decide_eq_true_2 in Hlook by exact Hmem. rewrite lookup_empty in Hlook.
    unfold render. rewrite lookup_omap, Hlook.
    destruct (config p !! key) as [d|] eqn:Hd.
    + destruct (decide (observed_section s key = Some d)) as [Ho|Ho].
      * rewrite bool_decide_eq_true_2 by exact Ho. cbn [mbind option_bind deref].
        fold (observed_section s1 key). rewrite Hkeep. exact Ho.
      * rewrite bool_decide_eq_false_2 by exact Ho. cbn [mbind option_bind deref]. exact Hd.
    + destruct (observed_section s key) as [o|] eqn:Ho.
      * rewrite bool_decide_eq_true_2 by eauto. cbn [mbind option_bind deref].
        fold (observed_section s1 key). exact Hkeep.
      * rewrite bool_decide_eq_false_2 by (intros [? ?]; congruence). reflexivity.
  - intros key Hkey. unfold render.
    rewrite lookup_omap, (build_body_elsewhere p _ _ _ _ _ _ Hbody Hkey), lookup_empty.
    reflexivity.
Qed.

Lemma applied_attributes_are_desired_or_observed_witness :
  let w := one_instance "Running" {["limits.cpu" := "1"]} ∅ in
  let p := request_for "started" (Some {["limits.cpu" := "2"]}) false false in
  exists s' body_json,
    _apply_container_configs w p (observed_state w p) = (inr tt, s') /\
    d_instance (diff_after s') = Some body_json /\
    render (config p) s' body_json !! "profiles" = Some (OList ["default"]) /\
    render (config p) s' body_json !! "name" = None.
Proof.
  intros w p.
  destruct (_apply_container_configs w p (observed_state w p)) as [[e|[]] s'] eqn:Hrun;
    [vm_compute in Hrun; discriminate|].
  destruct (applied_attributes_are_desired_or_observed w p _ s' Hrun)
    as (body_json & Hafter & _ & Hin & Hout).
  exists s', body_json. split; [reflexivity|]. split; [exact Hafter|]. split.
  - rewrite Hin; [vm_compute; reflexivity| |left; discriminate].
    rewrite mutable_params_value. do 4 right. left.
  - apply Hout. rewrite mutable_params_value. intros H.
    repeat (apply elem_of_cons in H as [H|H]; [discriminate|]).
    apply elem_of_nil in H. exact H.
Defined.

(** ** The action log and the requests sent *)

Lemma mutating_requests_snoc tr c :
  mutating_requests (tr ++ [c]) =
    (mutating_requests tr + (if is_mutating c then 1 else 0))%nat.
Proof.
  unfold mutating_requests. rewrite filter_app, length_app. f_equal.
  rewrite filter_cons, filter_nil. destruct (is_mutating c); reflexivity.
Qed.

Lemma accounted_record c dt s :
  is_mutating c = false -> accounted s -> accounted (record_call c dt s).
Proof.
  unfold accounted. intros Hc Hs. proj_simpl. rewrite mutating_requests_snoc, Hc. lia.
Qed.

Lemma sent_record c dt s :
  is_mutating c = true -> accounted s -> sent_unlogged (record_call c dt s).
Proof.
  unfold accounted, sent_unlogged. intros Hc Hs. proj_simpl.
  rewrite mutating_requests_snoc, Hc. lia.
Qed.

Lemma failed_record c dt m s :
  accounted s -> failed_unlogged (LXDClientException m) (record_call c dt s).
Proof.
  unfold accounted. intros Hs. exists c. proj_simpl. split; [apply last_snoc|].
  rewrite mutating_requests_snoc. lia.
Qed.

Lemma logged a s : sent_unlogged s -> accounted (append_action a s).
Proof.
  unfold accounted, sent_unlogged. intros Hs. proj_simpl. rewrite length_app. cbn [length].
  lia.
Qed.

Lemma accounted_frame s s' : only_json_changed s s' -> accounted s -> accounted s'.
Proof.
  unfold accounted. intros (_ & Ha & _ & _ & _ & Ht & _). rewrite Ha, Ht. auto.
Qed.

Section Accounting.

Context (w : world) (p : params).
Hypothesis real : check_mode p = false.

(** A method that sends one mutating request and then logs itself. *)
Lemma logged_request (m : M unit) a :
  (forall s, accounted s ->
     match m s with
     | (inr _, s') => sent_unlogged s'
     | (inl e, s') => failed_unlogged e s'
     end) ->
  inv accounted failed_unlogged (m ;;; modify (append_action a)).
Proof.
  intros Hm s Hs. specialize (Hm s Hs). unfold bind, modify.
  destruct (m s) as [[e|[]] s']; [exact Hm|]. apply logged, Hm.
Qed.

Lemma mutating_do meth u b ok s :
  is_mutating (Do meth u b ok) = true ->
  accounted s ->
  match (client_do w meth u b ok ;;; ret tt) s with
  | (inr _, s') => sent_unlogged s'
  | (inl e, s') => failed_unlogged e s'
  end.
Proof.
  intros Hc Hs. unfold bind, client_do, ret. cbv zeta.
  destruct (respond w (trace s) (Do meth u b ok)); cbv beta iota.
  - apply failed_record, Hs.
  - apply sent_record; assumption.
Qed.

Lemma perform_accounted op :
  op <> ApplyConfig -> inv accounted failed_unlogged (perform w p op).
Proof.
  intros Hop.
  destruct op; try congruence; cbn [perform];
    unfold _create_container, _start_container, _stop_container,
           _restart_container, _delete_container, _freeze_container,
           _unfreeze_container, _change_state, when;
    rewrite real; cbn [negb]; cbv zeta;
    apply logged_request; intros s Hs;
    try (apply mutating_do; [reflexivity|exact Hs]).
  destruct (target p) as [t|]; [destruct (String.eqb t ""); cbn [negb]|];
    (apply mutating_do; [reflexivity|exact Hs]).
Qed.

Lemma merge_items_py b kvs :
  inv (fun _ => True) (fun e _ => is_py e) (merge_items b kvs).
Proof.
  induction kvs as [|[k v] kvs IHk]; cbn [merge_items];
    walk ltac:(idtac; lazymatch goal with
               | |- inv _ _ (raise _) => apply inv_raise; intros ? _ ?; discriminate
               | |- inv _ _ (modify _) => apply inv_modify; intros; exact Logic.I
               end).
Qed.

Lemma build_body_py ps : forall body_json,
  inv (fun _ => True) (fun e _ => is_py e) (build_body p ps body_json).
Proof.
  induction ps as [|param ps IH]; intros body_json; cbn [build_body].
  - apply inv_ret.
  - walk ltac:(idtac; lazymatch goal with
               | |- inv _ _ (build_body _ _ _) => apply IH
               | |- inv _ _ (merge_items _ _) => apply merge_items_py
               | |- inv _ _ (_needs_to_change_container_config _ _) =>
                   apply needs_to_change_py
               | |- inv _ _ (raise _) => apply inv_raise; intros ? _ ?; discriminate
               | |- inv _ _ (modify _) => apply inv_modify; intros; exact Logic.I
               end).
Qed.

Lemma build_body_accounted ps body_json :
  inv accounted failed_unlogged (build_body p ps body_json).
Proof.
  intros s Hs. pose proof (build_body_only_json p ps body_json s) as Hfr.
  pose proof (build_body_py ps body_json s Logic.I) as Hpy.
  destruct (build_body p ps body_json s) as [[e|b] s']; cbn [snd] in Hfr.
  - destruct e; try exact Logic.I. exfalso. eapply Hpy. reflexivity.
  - eapply accounted_frame; eassumption.
Qed.

Ltac account_leaf :=
  idtac;
  lazymatch goal with
  | |- inv _ _ (raise _) => apply inv_raise; intros; exact Logic.I
  | |- inv _ _ (build_body _ _ _) => apply build_body_accounted
  | |- inv _ _ (_needs_to_apply_container_configs _) =>
      apply needs_to_apply_inv; intros [] ? Hpy ?; try exact Logic.I;
      exfalso; eapply Hpy; reflexivity
  | |- inv _ _ (modify _) => apply inv_modify; intros ? H; exact H
  | |- inv _ _ (client_do _ GET _ _ _) =>
      apply inv_client_do; intros;
      [apply accounted_record; [reflexivity|assumption]|apply failed_record; assumption]
  | |- inv _ _ (client_authenticate _ _) =>
      apply inv_client_authenticate; intros;
      [apply accounted_record; [reflexivity|assumption]|apply failed_record; assumption]
  | |- inv _ _ (rename_client_exception _ _) =>
      apply inv_rename with (E' := failed_unlogged);
      [|intros ? ? H; exact H|intros ? ? _ H; exact H]
  end.

Lemma apply_accounted : inv accounted failed_unlogged (_apply_container_configs w p).
Proof.
  unfold _apply_container_configs.
  apply inv_bind; [walk account_leaf|intros _].
  apply inv_bind; [apply build_body_accounted|intros body_json].
  apply inv_bind; [account_leaf|intros _].
  rewrite real. cbn [negb when]. apply logged_request. intros s Hs.
  unfold bind at 1, gets. cbv beta iota. apply mutating_do; [reflexivity|exact Hs].
Qed.

Lemma poll_accounted fuel due : inv accounted failed_unlogged (poll w p fuel due).
Proof. induction fuel as [|fuel IH]; cbn [poll]; walk account_leaf. Qed.

Lemma before_entries_accounted sections :
  inv accounted failed_unlogged (before_entries sections).
Proof.
  induction sections as [|[section content] rest IH]; cbn [before_entries];
    walk account_leaf.
Qed.

Ltac account_step :=
  idtac;
  lazymatch goal with
  | |- inv _ _ (_create_container _ _) => apply (perform_accounted Create); discriminate
  | |- inv _ _ (_start_container _ _) => apply (perform_accounted Start); discriminate
  | |- inv _ _ (_stop_container _ _) => apply (perform_accounted Stop); discriminate
  | |- inv _ _ (_restart_container _ _) => apply (perform_accounted Restart); discriminate
  | |- inv _ _ (_delete_container _ _) => apply (perform_accounted Delete); discriminate
  | |- inv _ _ (_freeze_container _ _) => apply (perform_accounted Freeze); discriminate
  | |- inv _ _ (_unfreeze_container _ _) => apply (perform_accounted Unfreeze); discriminate
  | |- inv _ _ (_apply_container_configs _ _) => apply apply_accounted
  | |- inv _ _ (poll _ _ _ _) => apply poll_accounted
  | |- inv _ _ (before_entries _) => apply before_entries_accounted
  | |- _ => account_leaf
  end.

Lemma run_body_accounted : inv accounted failed_unlogged (run_body w p).
Proof. walk account_step. Qed.

End Accounting.

Lemma run_body_reports w p s r s' :
  run_body w p s = (inr r, s') -> res_actions r = actions s'.
Proof.
  unfold run_body. unfold bind at 1.
  destruct (observe w p s) as [[e|[]] s1]; [intros [=]|].
  unfold bind at 1. destruct (dispatch w p s1) as [[e|[]] s2]; [intros [=]|].
  unfold report, self_old_state, bind, gets, ret, raise.
  destruct (old_state s2); intros [= <- <-]. reflexivity.
Qed.

(** X13. In a run that is not a dry run, the action log accounts for
    the requests that change the control plane: a run that completes
    has logged one action for each such request it sent, and a run that
    fails has logged one for each except the request that failed, if
    that was one. *)
Theorem every_answered_request_is_logged w p :
  check_mode p = false ->
  (forall r, run w p = exit_json r ->
     length (res_actions r) = mutating_requests (run_trace w p)) /\
  (forall f, run w p = fail_json f ->
     exists c, last (run_trace w p) = Some c /\
               mutating_requests (run_trace w p) =
                 (length (fail_actions f) + (if is_mutating c then 1 else 0))%nat).
Proof.
  intros Hreal.
  assert (Hinit : accounted (init w)) by reflexivity.
  pose proof (run_body_accounted w p Hreal (init w) Hinit) as H.
  unfold run, run_trace, run_from.
  destruct (run_body w p (init w)) as [[e|r] s'] eqn:Hrun; cbn [fst snd].
  - split; [destruct e; intros r [=]|].
    destruct e; intros f [= <-]. cbn [fail_actions]. exact H.
  - split; [|intros f [=]]. intros r' [= <-].
    rewrite (run_body_reports _ _ _ _ _ Hrun). exact H.
Qed.

Lemma every_answered_request_is_logged_witness :
  let w := one_instance "Stopped" {["limits.cpu" := "1"]} ∅ in
  let p := request_for "started" (Some {["limits.cpu" := "2"]}) false false in
  exists r, run w p = exit_json r /\
            res_actions r = ["start"; "apply_container_configs"] /\
            mutating_requests (run_trace w p) = 2%nat.
Proof.
  intros w p.
  destruct (run w p) as [r| |] eqn:Hrun; [|vm_compute in Hrun; discriminate..].
  destruct (every_answered_request_is_logged w p eq_refl) as [Hlog _].
  specialize (Hlog r Hrun).
  assert (Hr : res_actions r = ["start"; "apply_container_configs"]).
  { vm_compute in Hrun. injection Hrun as <-. reflexivity. }
  exists r. split; [reflexivity|]. split; [exact Hr|].
  rewrite <- Hlog, Hr. reflexivity.
Defined.

(** ** The observed state a run reports *)

Lemma module_state_value resp s o s' :
  _container_json_to_module_state resp s = (inr o, s') ->
  if String.eqb (r_type resp) "error" then o = "absent"
  else exists md status,
      r_metadata resp = Some md /\ md !! "status" = Some (OStr status) /\
      assoc status ANSIBLE_LXD_STATES = Some o.
Proof.
  unfold _container_json_to_module_state.
  destruct (String.eqb (r_type resp) "error"); [intros [= <- _]; reflexivity|].
  unfold metadata_member, subscript, bind, ret, raise.
  destruct (r_metadata resp) as [md|]; cbv beta iota; [|intros [=]].
  destruct (md !! "status") as [[| |status| | | |]|] eqn:Hst; cbv beta iota;
    try (intros [=]; fail).
  destruct (assoc status ANSIBLE_LXD_STATES) as [a|] eqn:Ha; cbv beta iota;
    [|intros [=]].
  intros [= <- _]. exists md, status. auto.
Qed.

Lemma lxd_state_is_module_state status o :
  assoc status ANSIBLE_LXD_STATES = Some o -> o ∈ module_states.
Proof.
  unfold ANSIBLE_LXD_STATES, module_states. cbn [assoc].
  destruct (String.eqb status "Running"); [intros [= <-]; set_solver|].
  destruct (String.eqb status "Stopped"); [intros [= <-]; set_solver|].
  destruct (String.eqb status "Frozen"); [intros [= <-]; set_solver|].
  intros [=].
Qed.

Section OldState.

Context (w : world) (p : params).

Let anything := fun (_ : exn) (_ : st) => True.

Lemma observe_authenticated s0 :
  observe w p (init w) = (inr tt, s0) -> authenticated w p.
Proof.
  unfold observe, authenticated. unfold bind at 1.
  destruct (trust_password p) as [pw|]; [|intros; exact Logic.I].
  unfold client_authenticate. cbv zeta. cbn [init trace].
  destruct (respond w [] (Authenticate pw)) as [m|r]; [intros [=]|eauto].
Qed.

Ltac old_state_leaf :=
  idtac;
  lazymatch goal with
  | |- inv _ _ (raise _) => apply inv_raise; intros; exact Logic.I
  | |- inv _ _ (modify _) => apply inv_modify; intros ? H; exact H
  end.

Lemma before_entries_old_state o sections :
  inv (fun s => old_state s = Some o) anything (before_entries sections).
Proof.
  induction sections as [|[section content] rest IH]; cbn [before_entries];
    walk old_state_leaf.
Qed.

(** The state [observe] stores is the one derived from the answer to
    the fetch. *)
Lemma observe_old_state s0 o :
  observe w p (init w) = (inr tt, s0) -> old_state s0 = Some o ->
  exists resp s s',
    fetched w p = inr resp /\ _container_json_to_module_state resp s = (inr o, s').
Proof.
  intros Hobs Hold.
  destruct (observe_eval w p s0 Hobs) as (resp & _ & _ & Hf & _).
  pose proof (observe_authenticated s0 Hobs) as Hauth.
  rewrite (observe_from_fetch w p resp Hauth Hf) in Hobs.
  exists resp. revert Hobs. unfold bind at 1.
  set (s := set_old_container_json resp (after_fetch w p)).
  destruct (_container_json_to_module_state resp s) as [[e|o'] s'] eqn:Hstate;
    [intros [=]|].
  intros Hrest. exists s, s'. split; [exact Hf|].
  enough (o' = o) as <- by exact Hstate.
  assert (Hkeep : inv (fun s => old_state s = Some o') anything
            (old <- self_old_state ;;
             modify (fun s => set_diff_before
                                (DiffSide (Some old) (d_instance (diff_before s))) s) ;;;
             modify (fun s => set_diff_after
                                (DiffSide (Some (state p)) (d_instance (diff_after s))) s) ;;;
             resp_json <- self_old_container_json ;;
             old_sections <-
               match r_metadata resp_json with
               | None => raise (AttributeError "items")
               | Some md => ret (filter (fun kv : string * obj => kv.1 ∈ mutable_set) md)
               end ;;
             before <- before_entries (map_to_list (old_sections : gmap string obj)) ;;
             modify (fun s => set_diff_before
                                (DiffSide (d_state (diff_before s)) (Some before)) s))).
  { walk ltac:(idtac; lazymatch goal with
               | |- inv _ _ (before_entries _) => apply before_entries_old_state
               | |- _ => old_state_leaf
               end). }
  revert Hrest. unfold bind at 1, modify at 1. cbv beta iota. intros Hrest.
  specialize (Hkeep (set_old_state o' s') eq_refl). rewrite Hrest in Hkeep.
  congruence.
Qed.

End OldState.

(** X14. The [old_state] of a completed run is derived from the answer
    to the fetch of the instance alone: [absent] when the answer is an
    error document, and otherwise the module state that corresponds to
    the status of the instance.  It is one of [absent], [started],
    [stopped] and [frozen]. *)
Theorem reported_old_state_is_the_fetched_status w p r :
  run w p = exit_json r ->
  exists resp,
    fetched w p = inr resp /\
    (if String.eqb (r_type resp) "error" then res_old_state r = "absent"
     else exists md status,
         r_metadata resp = Some md /\ md !! "status" = Some (OStr status) /\
         assoc status ANSIBLE_LXD_STATES = Some (res_old_state r)) /\
    res_old_state r ∈ module_states.
Proof.
  unfold run, run_from, run_body. unfold bind at 1.
  destruct (observe w p (init w)) as [[e|[]] s0] eqn:Hobs.
  { destruct e; discriminate. }
  destruct (observe_eval w p s0 Hobs)
    as (resp & md & o & Hf & Hmd & Hjson & Hold & Hbefore & Hafter & Hact).
  set (B := aliases _) in Hbefore.
  assert (H0 : diff_kept p md o B s0).
  { unfold diff_kept. rewrite Hbefore, Hold, Hafter, Hact. cbn [d_state d_instance].
    repeat (split; [reflexivity|]). split.
    - unfold sections_kept, observed_section, old_metadata. rewrite Hjson. cbn.
      rewrite Hmd. cbn. split; [eauto|]. split; [reflexivity|reflexivity].
    - split; [intros [? [=]]|intros H; apply elem_of_nil in H; destruct H]. }
  pose proof (dispatch_diff_kept w p md o B s0 H0) as H1.
  unfold bind at 1. destruct (dispatch w p s0) as [[e|[]] s1].
  { destruct e; discriminate. }
  destruct H1 as (_ & Ho1 & _).
  unfold report, self_old_state. unfold bind, gets, ret. cbv beta iota.
  rewrite Ho1. cbv beta iota. cbn [fst]. intros [= <-]. cbn [res_old_state].
  destruct (observe_old_state w p s0 o Hobs Hold) as (resp' & s & s' & Hf' & Hstate).
  exists resp'. split; [exact Hf'|].
  pose proof (module_state_value _ _ _ _ Hstate) as Hval. split; [exact Hval|].
  destruct (String.eqb (r_type resp') "error").
  - subst o. unfold module_states. set_solver.
  - destruct Hval as (? & status & _ & _ & Ha). eapply lxd_state_is_module_state, Ha.
Qed.

Lemma reported_old_state_is_the_fetched_status_witness :
  let w := one_instance "Frozen" ∅ ∅ in
  let p := request_for "started" None false false in
  exists r, run w p = exit_json r /\ res_old_state r ∈ module_states.
Proof.
  intros w p.
  destruct (run w p) as [r| |] eqn:Hrun; [|vm_compute in Hrun; discriminate..].
  destruct (reported_old_state_is_the_fetched_status w p r Hrun) as (resp & _ & _ & H).
  exists r. split; [reflexivity|exact H].
Defined.

(** ** Dry run and real run side by side *)

Lemma same_ret {A} (a : A) : same_effect (ret a) (ret a).
Proof. intros s1 s2 H. split; [reflexivity|exact H]. Qed.

Lemma same_raise_l {A} e (m : M A) : same_effect (raise e) m.
Proof. intros s1 s2 H. exact Logic.I. Qed.

Lemma same_bind {A B} (m1 m2 : M A) (f1 f2 : A -> M B) :
  same_effect m1 m2 -> (forall a, same_effect (f1 a) (f2 a)) ->
  same_effect (bind m1 f1) (bind m2 f2).
Proof.
  intros Hm Hf s1 s2 H. unfold bind. specialize (Hm s1 s2 H).
  destruct (m1 s1) as [[e1|a1] t1]; [exact Logic.I|].
  destruct (m2 s2) as [[e2|a2] t2].
  - destruct (f1 a1 t1) as [[?|?] ?]; exact Logic.I.
  - destruct Hm as [-> Ht]. apply Hf, Ht.
Qed.

Lemma same_gets {A} (f : st -> A) :
  (forall s1 s2, only_waited s1 s2 -> f s1 = f s2) -> same_effect (gets f) (gets f).
Proof. intros Hf s1 s2 H. split; [apply Hf, H|exact H]. Qed.

Lemma same_modify (f1 f2 : st -> st) :
  (forall s1 s2, only_waited s1 s2 -> only_waited (f1 s1) (f2 s2)) ->
  same_effect (modify f1) (modify f2).
Proof. intros Hf s1 s2 H. split; [reflexivity|apply Hf, H]. Qed.

(** Two steps that each touch only the clock, the calls and the
    addresses. *)
Lemma same_independent (m1 m2 : M unit) :
  (forall s, only_waited s (m1 s).2) -> (forall s, only_waited s (m2 s).2) ->
  same_effect m1 m2.
Proof.
  intros H1 H2 s1 s2 H. specialize (H1 s1). specialize (H2 s2).
  destruct (m1 s1) as [[?|[]] t1]; [exact Logic.I|].
  destruct (m2 s2) as [[?|[]] t2]; [exact Logic.I|]. cbn [snd] in *.
  split; [reflexivity|].
  unfold only_waited in *. destruct H as (?&?&?&?&?), H1 as (?&?&?&?&?), H2 as (?&?&?&?&?).
  repeat split; congruence.
Qed.

Lemma request_only_waited w meth u b ok s :
  only_waited s ((client_do w meth u b ok ;;; ret tt) s).2.
Proof.
  unfold bind, client_do, ret. cbv zeta.
  destruct (respond w (trace s) (Do meth u b ok)); cbn [snd]; repeat split.
Qed.

Lemma rendered_request_only_waited w (f : st -> gmap string obj) u s :
  only_waited s ((rendered <- gets f ;;
                  client_do w PUT u (InstanceBody rendered) [] ;;; ret tt) s).2.
Proof.
  unfold bind, gets, client_do, ret. cbv zeta beta iota.
  destruct (respond w (trace s) _); cbn [snd]; repeat split.
Qed.

Lemma get_addresses_only_waited w p s : only_waited s (_get_addresses w p s).2.
Proof.
  destruct (_get_addresses w p s) as [r s'] eqn:Hrun.
  destruct (get_addresses_spec _ _ _ _ _ Hrun) as (n & _ & _ & _ & Hw & _). exact Hw.
Qed.

Lemma append_only_waited a s1 s2 :
  only_waited s1 s2 -> only_waited (append_action a s1) (append_action a s2).
Proof.
  unfold only_waited. intros (?&?&?&?&?). proj_simpl. repeat split; congruence.
Qed.

Lemma set_after_only_waited b s1 s2 :
  only_waited s1 s2 -> only_waited (set_after_instance b s1) (set_after_instance b s2).
Proof.
  unfold only_waited. intros (?&?&?&?&?). proj_simpl. repeat split; congruence.
Qed.

Lemma store_only_waited key o s1 s2 :
  only_waited s1 s2 -> only_waited (store_metadata key o s1) (store_metadata key o s2).
Proof.
  unfold only_waited, store_metadata. intros (Hj&?&?&?&?). rewrite Hj.
  destruct (old_container_json s1) as [r|] eqn:Hr; cbv beta iota;
    [|repeat split; congruence].
  destruct (r_metadata r); cbv beta iota; proj_simpl; repeat split; congruence.
Qed.

(** [walk2 leaf] descends through two methods of the same shape. *)
Ltac walk2 leaf :=
  cbn [with_check_mode name state timeout wait_for_ipv4_addresses force_stop target
       trust_password instances_endpoint check_mode negb];
  lazymatch goal with
  | |- same_effect (bind _ _) (bind _ _) =>
      apply same_bind; [walk2 leaf | intros ?; walk2 leaf]
  | |- same_effect (ret ?a) (ret ?a) => apply same_ret
  | |- same_effect (raise _) _ => apply same_raise_l
  | |- same_effect (when true _) _ => cbn [when]; walk2 leaf
  | |- same_effect (when false _) _ => cbn [when]; walk2 leaf
  | |- same_effect (when ?b _) (when ?b _) => destruct b eqn:?; cbn [when]; walk2 leaf
  | |- same_effect (if ?b then _ else _) (if ?b then _ else _) =>
      destruct b eqn:?; walk2 leaf
  | |- same_effect (match ?x with _ => _ end) (match ?x with _ => _ end) =>
      destruct x eqn:?; walk2 leaf
  | |- same_effect (let _ := _ in _) _ => cbv zeta; walk2 leaf
  | |- same_effect ?m1 _ =>
      first [ assumption
            | solve [leaf]
            | let h := head_of m1 in progress unfold h; walk2 leaf
            | fail 1 "walk2: no rule for" m1 ]
  end.

Ltac same_leaf :=
  idtac;
  lazymatch goal with
  | |- same_effect (gets _) (gets _) =>
      apply same_gets; intros ? ? H; symmetry; apply H
  | |- same_effect (modify (store_metadata _ _)) _ =>
      apply same_modify; intros ? ?; apply store_only_waited
  | |- same_effect (modify (append_action _)) _ =>
      apply same_modify; intros ? ?; apply append_only_waited
  | |- same_effect (modify (set_after_instance _)) _ =>
      apply same_modify; intros ? ?; apply set_after_only_waited
  end.

Lemma merge_items_same_effect body_json kvs :
  same_effect (merge_items body_json kvs) (merge_items body_json kvs).
Proof. induction kvs as [|[k v] kvs IH]; cbn [merge_items]; walk2 same_leaf. Qed.

Section SameConfig.

Context (p1 p2 : params).
Hypothesis same_config : config p1 = config p2.

Lemma needs_to_change_same_effect key :
  same_effect (_needs_to_change_container_config p1 key)
              (_needs_to_change_container_config p2 key).
Proof.
  unfold _needs_to_change_container_config. rewrite same_config. walk2 same_leaf.
Qed.

Lemma any_needs_change_same_effect ps :
  same_effect (any_needs_change p1 ps) (any_needs_change p2 ps).
Proof.
  induction ps as [|param ps IH]; cbn [any_needs_change];
    walk2 ltac:(idtac; lazymatch goal with
                | |- same_effect (_needs_to_change_container_config _ _) _ =>
                    apply needs_to_change_same_effect
                | |- _ => same_leaf
                end).
Qed.

Lemma build_body_same_effect ps : forall body_json,
  same_effect (build_body p1 ps body_json) (build_body p2 ps body_json).
Proof.
  induction ps as [|param ps IH]; intros body_json; cbn [build_body];
    rewrite ?same_config;
    walk2 ltac:(idtac; lazymatch goal with
                | |- same_effect (build_body _ _ _) _ => apply IH
                | |- same_effect (merge_items _ _) _ => apply merge_items_same_effect
                | |- same_effect (_needs_to_change_container_config _ _) _ =>
                    apply needs_to_change_same_effect
                | |- _ => same_leaf
                end).
Qed.

End SameConfig.

Lemma config_check_mode b p : config (with_check_mode b p) = config p.
Proof. unfold config. cbn [with_check_mode module_params]. reflexivity. Qed.

Section Prediction.

Context (w : world) (p : params).

Ltac skip_leaf :=
  idtac;
  lazymatch goal with
  | |- same_effect (ret tt) (match ?x with _ => _ end) => destruct x; skip_leaf
  | |- same_effect (ret tt) (if ?b then _ else _) => destruct b; skip_leaf
  | |- same_effect (ret tt) (bind (client_do _ _ _ _ _) _) =>
      apply same_independent; intros ?; [apply only_waited_refl|apply request_only_waited]
  | |- same_effect (ret tt) (bind (gets _) _) =>
      apply same_independent; intros ?;
      [apply only_waited_refl|apply rendered_request_only_waited]
  end.

Ltac run_pair_leaf :=
  idtac;
  lazymatch goal with
  | |- same_effect (ret tt) _ => skip_leaf
  | |- same_effect (_get_addresses _ _) _ =>
      apply same_independent; intros ?; apply get_addresses_only_waited
  | |- same_effect (_needs_to_apply_container_configs _) _ =>
      unfold _needs_to_apply_container_configs;
      apply any_needs_change_same_effect; rewrite !config_check_mode; reflexivity
  | |- same_effect (build_body _ _ _) _ =>
      apply build_body_same_effect; rewrite !config_check_mode; reflexivity
  | |- _ => same_leaf
  end.

Lemma dispatch_same_effect :
  same_effect (dispatch w (with_check_mode true p)) (dispatch w (with_check_mode false p)).
Proof. walk2 run_pair_leaf. Qed.

End Prediction.

Lemma observe_check_mode w b p : observe w (with_check_mode b p) = observe w p.
Proof.
  unfold observe, _get_container_json, endpoint.
  cbn [with_check_mode name state trust_password instances_endpoint]. reflexivity.
Qed.

(** X15. A dry run predicts the real run: when both complete, they
    report the same action log, the same [changed] flag, the same
    observed state and the same diff.  (They may differ in the addresses
    they report, which each run polls for on its own.) *)
Theorem dry_run_predicts_the_real_run w p r_dry r_real :
  run w (with_check_mode true p) = exit_json r_dry ->
  run w (with_check_mode false p) = exit_json r_real ->
  res_actions r_dry = res_actions r_real /\
  changed r_dry = changed r_real /\
  res_old_state r_dry = res_old_state r_real /\
  res_diff_before r_dry = res_diff_before r_real /\
  res_diff_after r_dry = res_diff_after r_real.
Proof.
  unfold run, run_from, run_body. rewrite !observe_check_mode.
  unfold bind at 1 3.
  destruct (observe w p (init w)) as [[e|[]] s0]; [destruct e; discriminate|].
  pose proof (dispatch_same_effect w p s0 s0 (only_waited_refl s0)) as Hd.
  unfold bind at 1 2.
  destruct (dispatch w (with_check_mode true p) s0) as [[e|[]] t1];
    [destruct e; discriminate|].
  destruct (dispatch w (with_check_mode false p) s0) as [[e|[]] t2];
    [destruct e; discriminate|].
  destruct Hd as [_ (Hj & Ho & Ha & Hb & Hf)].
  unfold report, self_old_state, bind, gets, ret, raise. rewrite Ho.
  destruct (old_state t1) as [o|]; [|discriminate]. cbn [fst].
  intros [= <-] [= <-].
  cbn [res_actions changed res_old_state res_diff_before res_diff_after].
  unfold view. rewrite !config_check_mode, Ha, Hb, Hf.
  assert (Hr : forall x : option (gmap string ref),
            render (config p) t2 <$> x = render (config p) t1 <$> x).
  { intros [b|]; cbn [fmap option_fmap option_map]; [|reflexivity].
    rewrite (render_same_document _ _ _ _ Hj). reflexivity. }
  rewrite !Hr. repeat split.
Qed.

Lemma dry_run_predicts_the_real_run_witness :
  let w := one_instance "Stopped" {["limits.cpu" := "1"]} ∅ in
  let p := request_for "started" (Some {["limits.cpu" := "2"]}) false false in
  exists r_dry r_real,
    run w (with_check_mode true p) = exit_json r_dry /\
    run w (with_check_mode false p) = exit_json r_real /\
    res_actions r_dry = res_actions r_real /\
    res_diff_after r_dry = res_diff_after r_real.
Proof.
  intros w p.
  destruct (run w (with_check_mode true p)) as [r_dry| |] eqn:Hdry;
    [|vm_compute in Hdry; discriminate..].
  destruct (run w (with_check_mode false p)) as [r_real| |] eqn:Hreal;
    [|vm_compute in Hreal; discriminate..].
  destruct (dry_run_predicts_the_real_run w p r_dry r_real Hdry Hreal)
    as (Ha & _ & _ & _ & Hafter).
  exists r_dry, r_real. repeat split; assumption.
Defined.

(** ** When the configuration is applied *)

Section Needed.

Context (p : params) (s : st).

Hypothesis others_present :
  forall key d, key ∈ mutable_params -> key <> "config" ->
    config p !! key = Some d -> is_Some (observed_section s key).

Hypothesis config_present :
  forall d, config p !! "config" = Some d ->
    exists desired cur, d = ODict desired /\ observed_section s "config" = Some (ODict cur).

(** The attribute differs from what was fetched. *)
Let differs (key : string) : Prop :=
  (key = "config" /\
   exists desired cur k v,
     config p !! "config" = Some (ODict desired) /\
     observed_section s "config" = Some (ODict cur) /\
     desired !! k = Some v /\ without_volatile cur !! k <> Some v) \/
  (key <> "config" /\
   exists d, config p !! key = Some d /\ observed_section s key <> Some d).

Lemma needs_to_change_iff key :
  key ∈ mutable_params ->
  exists b, _needs_to_change_container_config p key s = (inr b, s) /\
            (b = true <-> differs key).
Proof.
  intros Hmem. destruct (decide (key = "config")) as [->|Hne].
  - assert (Hcase : (exists d, config p !! "config" = Some d) \/
                    config p !! "config" = None)
      by (destruct (config p !! "config"); eauto).
    destruct Hcase as [[d Hd]|Hd].
    + destruct (config_present d Hd) as (desired & cur & -> & Hcur).
      exists (config_differs (without_volatile cur) desired).
      split; [apply (needs_config_eval p desired Hd s cur Hcur)|].
      rewrite config_differs_true. unfold differs. split.
      * intros (k & v & Hk & Hv). left. split; [reflexivity|].
        exists desired, cur, k, v. auto.
      * intros [[_ (desired' & cur' & k & v & H1 & H2 & Hk & Hv)]|[Hne _]];
          [|congruence].
        assert (desired' = desired) as -> by congruence.
        assert (cur' = cur) as -> by congruence. eauto.
    + exists false. split.
      * unfold _needs_to_change_container_config. rewrite Hd. reflexivity.
      * split; [discriminate|].
        intros [[_ (? & ? & ? & ? & H1 & _)]|[Hne _]]; congruence.
  - destruct (needs_other_eval p s key Hne) as [b Hb].
    { intros [d Hd]. eapply others_present; eassumption. }
    exists b. split; [exact Hb|].
    destruct (needs_to_change_value p key s b s Hb (or_introl Hne)) as [_ Hval].
    unfold differs. destruct (config p !! key) as [d|] eqn:Hd.
    + destruct Hval as (o & Ho & ->). rewrite Ho. split.
      * intros Htrue. right. split; [exact Hne|]. exists d. split; [reflexivity|].
        intros [= ->]. rewrite bool_decide_eq_true_2 in Htrue by reflexivity.
        discriminate.
      * intros [[Hc _]|[_ (d' & [= <-] & Hdiff)]]; [congruence|].
        rewrite bool_decide_eq_false_2; [reflexivity|]. intros ->. apply Hdiff. reflexivity.
    + subst b. split; [discriminate|].
      intros [[Hc _]|[_ (d' & [=] & _)]]. congruence.
Qed.

Lemma any_needs_change_iff ps :
  (forall key, key ∈ ps -> key ∈ mutable_params) ->
  exists b, any_needs_change p ps s = (inr b, s) /\
            (b = true <-> exists key, key ∈ ps /\ differs key).
Proof.
  induction ps as [|param ps IH]; intros Hps.
  - exists false. split; [reflexivity|]. split; [discriminate|].
    intros (key & Hkey & _). apply elem_of_nil in Hkey. destruct Hkey.
  - destruct (needs_to_change_iff param) as (b & Hb & Hiff); [apply Hps; left|].
    destruct IH as (b' & Hb' & Hiff'); [intros key Hkey; apply Hps; right; exact Hkey|].
    cbn [any_needs_change]. unfold bind. rewrite Hb. destruct b.
    + exists true. split; [reflexivity|]. split; [|reflexivity].
      intros _. exists param. split; [left|]. apply Hiff. reflexivity.
    + exists b'. split; [exact Hb'|]. rewrite Hiff'. split.
      * intros (key & Hkey & Hd). exists key. split; [right; exact Hkey|exact Hd].
      * intros (key & Hkey & Hd). apply elem_of_cons in Hkey as [->|Hkey].
        -- apply Hiff in Hd. discriminate.
        -- eauto.
Qed.

End Needed.

(** X16. When every mutable attribute the caller supplied is present in
    the fetched document (and [config] is a mapping on both sides), the
    decision to apply the configuration returns, reads only, and is
    positive exactly when some supplied attribute differs from the
    fetched one: for [config], when a desired key is missing from the
    fetched keys that are not volatile or has another value; for any
    other attribute, when the supplied value is not the fetched one. *)
Theorem apply_is_needed_iff p s :
  (forall key d, key ∈ mutable_params -> key <> "config" ->
     config p !! key = Some d -> is_Some (observed_section s key)) ->
  (forall d, config p !! "config" = Some d ->
     exists desired cur,
       d = ODict desired /\ observed_section s "config" = Some (ODict cur)) ->
  exists b,
    _needs_to_apply_container_configs p s = (inr b, s) /\
    (b = true <->
     (exists desired cur k v,
        config p !! "config" = Some (ODict desired) /\
        observed_section s "config" = Some (ODict cur) /\
        desired !! k = Some v /\ without_volatile cur !! k <> Some v) \/
     (exists key d,
        key ∈ mutable_params /\ key <> "config" /\
        config p !! key = Some d /\ observed_section s key <> Some d)).
Proof.
  intros Hothers Hconfig.
  destruct (any_needs_change_iff p s Hothers Hconfig mutable_params (fun _ H => H))
    as (b & Hb & Hiff).
  exists b. split; [exact Hb|]. rewrite Hiff. split.
  - intros (key & Hkey & [[_ H]|[Hne (d & Hd & Hdiff)]]); [left; exact H|].
    right. exists key, d. auto.
  - intros [H|(key & d & Hkey & Hne & Hd & Hdiff)].
    + exists "config". split; [rewrite mutable_params_value; left|].
      left. split; [reflexivity|exact H].
    + exists key. split; [exact Hkey|]. right. split; [exact Hne|]. eauto.
Qed.

Lemma apply_is_needed_iff_witness :
  let w := one_instance "Running" {["limits.cpu" := "1"; "volatile.idmap.base" := "0"]} ∅ in
  let p := request_for "started" (Some {["limits.cpu" := "1"]}) false false in
  _needs_to_apply_container_configs p (observed_state w p) =
    (inr false, observed_state w p).
Proof.
  intros w p.
  destruct (apply_is_needed_iff p (observed_state w p)) as (b & Hb & Hiff).
  - intros key d Hkey Hne Hd. rewrite mutable_params_value in Hkey.
    repeat (apply elem_of_cons in Hkey as [->|Hkey]; [vm_compute; eauto|]).
    apply elem_of_nil in Hkey. destruct Hkey.
  - intros d Hd. vm_compute in Hd. injection Hd as <-.
    eexists _, _. split; [reflexivity|]. vm_compute. reflexivity.
  - destruct b; [|exact Hb]. exfalso.
    destruct (proj1 Hiff eq_refl)
      as [(desired & cur & k & v & Hd & Hc & Hk & Hv)|(key & d & Hkey & Hne & Hd & Hdiff)].
    + assert (Hd' : config p !! "config" = Some (ODict {["limits.cpu" := "1"]}))
        by (vm_compute; reflexivity).
      assert (Hc' : observed_section (observed_state w p) "config" =
                    Some (ODict {["limits.cpu" := "1"; "volatile.idmap.base" := "0"]}))
        by (vm_compute; reflexivity).
      rewrite Hd' in Hd. injection Hd as <-. rewrite Hc' in Hc. injection Hc as <-.
      apply lookup_singleton_Some in Hk as [<- <-]. apply Hv. vm_compute. reflexivity.
    + rewrite mutable_params_value in Hkey.
      repeat (apply elem_of_cons in Hkey as [->|Hkey];
              [first [congruence | vm_compute in Hd; discriminate]|]).
      apply elem_of_nil in Hkey. destruct Hkey.
Defined.

(** ** Authentication *)

(** X17. When a trust password is given, the run authenticates before
    anything else; when that fails, the run ends with [fail_json]
    carrying the message of the failure, [changed] false, an empty
    action log and an empty diff, and the instance is never fetched. *)
Theorem failed_authentication_reports_nothing w p pw m :
  trust_password p = Some pw ->
  respond w [] (Authenticate pw) = inl m ->
  run w p = fail_json {| msg := m; fail_changed := false; fail_actions := [];
                         fail_diff_before := DiffView None None;
                         fail_diff_after := DiffView None None |} /\
  run_trace w p = [Authenticate pw].
Proof.
  intros Hpw Hfail.
  assert (Hrun : run_body w p (init w) =
                 (inl (LXDClientException m),
                  record_call (Authenticate pw)
                    (Z.of_N (elapsed w [] (Authenticate pw))) (init w))).
  { unfold run_body, observe. rewrite Hpw. rewrite !bind_assoc.
    unfold bind at 1, client_authenticate. cbv zeta. cbn [init trace].
    rewrite Hfail. reflexivity. }
  unfold run, run_trace, run_from. rewrite Hrun. cbn [fst snd]. split; reflexivity.
Qed.

Lemma failed_authentication_reports_nothing_witness :
  let w := {| respond := fun _ c =>
                match c with
                | Authenticate _ => inl "not authorized"
                | _ => inr (Response "sync" None)
                end;
              elapsed := fun _ _ => 0%N; start_time := 0 |} in
  let p := {| name := "c1"; module_params := ∅; state := "started"; timeout := 30;
              wait_for_ipv4_addresses := false; force_stop := false; target := None;
              trust_password := Some "secret"; instances_endpoint := "/instances";
              check_mode := false |} in
  run_trace w p = [Authenticate "secret"].
Proof.
  intros w p.
  destruct (failed_authentication_reports_nothing w p "secret" "not authorized")
    as [_ Htrace]; [reflexivity|reflexivity|exact Htrace].
Defined.

(** ** The dry run as a whole *)

Lemma bind_inr_inv {A B} (m : M A) (f : A -> M B) s b s' :
  bind m f s = (inr b, s') -> exists a s1, m s = (inr a, s1) /\ f a s1 = (inr b, s').
Proof.
  unfold bind. destruct (m s) as [[e|a] s1]; [intros [=]|]. eauto.
Qed.

(** *** The body a dry run records *)

Lemma needs_to_change_check_mode b p key :
  _needs_to_change_container_config (with_check_mode b p) key =
  _needs_to_change_container_config p key.
Proof.
  unfold _needs_to_change_container_config. rewrite config_check_mode. reflexivity.
Qed.

(** The loop that builds the request body does not look at the mode. *)
Lemma build_body_check_mode b p ps : forall body_json s,
  build_body (with_check_mode b p) ps body_json s = build_body p ps body_json s.
Proof.
  induction ps as [|param ps IH]; intros body_json s; [reflexivity|].
  cbn [build_body]. rewrite needs_to_change_check_mode, config_check_mode.
  apply bind_ext. intros resp s0 _.
  apply bind_ext. intros body1 s1 _.
  apply bind_ext. intros b0 s2 _.
  apply bind_ext. intros body2 s3 _.
  apply IH.
Qed.

(** *** The address wait polls *)

Lemma last_replicate {A} (l : list A) n x :
  last (l ++ replicate (S n) x)%list = Some x.
Proof.
  assert (H : replicate (S n) x = (replicate n x ++ [x])%list).
  { induction n as [|n IH]; [reflexivity|].
    change (replicate (S (S n)) x) with (x :: replicate (S n) x).
    rewrite IH at 1. reflexivity. }
  rewrite H, app_assoc. apply last_snoc.
Qed.

Lemma poll_polls w p fuel due s r s' :
  clock s < due ->
  poll w p (S fuel) due s = (r, s') ->
  exists n, trace s' = (trace s ++ replicate (S n) (state_fetch p))%list.
Proof.
  intros Hlt. cbn [poll]. unfold bind at 1, datetime_now, gets. cbv beta iota.
  destruct (Z.ltb_spec (clock s) due) as [_|Hge]; [|lia].
  unfold bind at 1, time_sleep, modify. cbv beta iota.
  set (s1 := advance_clock (1 * 1000000) s).
  unfold bind at 1.
  destruct (_container_ipv4_addresses w p ["lo"] s1) as [[e|a] s2] eqn:Hfetch;
    destruct (fetch_addresses_spec _ _ _ _ _ Hfetch) as (Htr & _);
    unfold s1 in Htr; revert Htr; proj_simpl; intros Htr.
  - intros [= <- <-]. exists 0%nat. exact Htr.
  - destruct (_has_all_ipv4_addresses a).
    + unfold modify. intros [= <- <-]. exists 0%nat. proj_simpl. exact Htr.
    + intros Hrest. destruct (poll_spec _ _ _ _ _ _ _ Hrest) as (n & _ & Htr' & _).
      exists n. rewrite Htr', Htr, <- app_assoc. reflexivity.
Qed.

Lemma get_addresses_polls w p s r s' :
  0 < timeout p ->
  _get_addresses w p s = (r, s') ->
  exists n, trace s' = (trace s ++ replicate (S n) (state_fetch p))%list.
Proof.
  intros Hpos. unfold _get_addresses, rename_client_exception.
  unfold bind at 1, datetime_now, gets. cbv beta iota zeta.
  destruct (Z.to_nat (timeout p)) as [|fuel] eqn:Hfuel; [exfalso; lia|].
  destruct (poll w p (S fuel) (clock s + timeout p * 1000000) s) as [r0 s0] eqn:Hpoll.
  assert (Hdue : clock s < clock s + timeout p * 1000000) by lia.
  destruct (poll_polls _ _ _ _ _ _ _ Hdue Hpoll) as [n Hn].
  intros Hret. exists n.
  assert (s0 = s') as <- by (destruct r0 as [[]|]; congruence). exact Hn.
Qed.

Section Waiter.

Context (w : world) (p : params).
Hypothesis wait : wait_for_ipv4_addresses p = true.

Lemma started_ends_with_the_wait s s' :
  _started w p s = (inr tt, s') -> exists s1, _get_addresses w p s1 = (inr tt, s').
Proof.
  unfold _started. rewrite wait. cbn [when]. intros H.
  apply bind_inr_inv in H as (absent & s0 & _ & H).
  apply bind_inr_inv in H as ([] & s1 & _ & H). eauto.
Qed.

Lemma restarted_ends_with_the_wait s s' :
  _restarted w p s = (inr tt, s') -> exists s1, _get_addresses w p s1 = (inr tt, s').
Proof.
  unfold _restarted. rewrite wait. cbn [when]. intros H.
  apply bind_inr_inv in H as (absent & s0 & _ & H).
  apply bind_inr_inv in H as ([] & s1 & _ & H). eauto.
Qed.

Lemma run_ends_with_the_wait r :
  0 < timeout p ->
  state p = "started" \/ state p = "restarted" ->
  run w p = exit_json r ->
  last (run_trace w p) = Some (state_fetch p).
Proof.
  intros Hpos Hst. unfold run, run_trace, run_from.
  destruct (run_body w p (init w)) as [[e|r0] s'] eqn:Hrun; [destruct e; intros [=]|].
  intros _. cbn [snd]. unfold run_body in Hrun.
  apply bind_inr_inv in Hrun as ([] & s0 & _ & Hrun).
  apply bind_inr_inv in Hrun as ([] & s1 & Hd & Hrep).
  assert (s' = s1) as ->.
  { revert Hrep. unfold report, self_old_state, bind, gets, ret, raise.
    destruct (old_state s1); intros [= _ <-]; reflexivity. }
  assert (Hwait : exists s2, _get_addresses w p s2 = (inr tt, s1)).
  { revert Hd. unfold dispatch.
    destruct Hst as [-> | ->]; cbn [assoc LXD_ANSIBLE_STATES String.eqb Ascii.eqb Bool.eqb];
      unfold getattr; cbn [String.eqb Ascii.eqb Bool.eqb];
      [apply started_ends_with_the_wait|apply restarted_ends_with_the_wait]. }
  destruct Hwait as [s2 Hget].
  destruct (get_addresses_polls _ _ _ _ _ Hpos Hget) as [n ->].
  apply last_replicate.
Qed.

End Waiter.

(** *** Apply-config in a dry run *)

Lemma apply_dry_records_the_body w p s s' :
  check_mode p = true ->
  _apply_container_configs w p s = (inr tt, s') ->
  exists body_json s1,
    build_body p mutable_params ∅ s = (inr body_json, s1) /\
    actions s' = (actions s ++ ["apply_container_configs"])%list /\
    trace s' = trace s /\
    diff_after s' = DiffSide (d_state (diff_after s)) (Some body_json) /\
    (forall s'',
       _apply_container_configs w (with_check_mode false p) s = (inr tt, s'') ->
       trace s'' =
         (trace s ++ [Do PUT (Url (endpoint p ++ "/" ++ name p) [])
                         (InstanceBody (render (config p) s' body_json)) []])%list).
Proof.
  intros dry Hrun.
  assert (Hdry : exists body_json s1,
             build_body p mutable_params ∅ s = (inr body_json, s1) /\
             actions s' = (actions s ++ ["apply_container_configs"])%list /\
             trace s' = trace s /\
             diff_after s' = DiffSide (d_state (diff_after s)) (Some body_json) /\
             old_container_json s' = old_container_json s1).
  { revert Hrun. unfold _apply_container_configs, self_old_container_json, when.
    unfold bind, ret, modify, gets, raise. rewrite dry. cbn [negb]. cbv beta iota.
    destruct (old_container_json s); [|discriminate].
    pose proof (build_body_only_json p mutable_params ∅ s) as H.
    destruct (build_body p mutable_params ∅ s) as [[e|b] s1]; [discriminate|].
    cbn [snd] in H. destruct H as (_ & Ha & _ & Hda & _ & Ht & _).
    intros [= <-]. exists b, s1. proj_simpl. rewrite Ha, Ht, Hda. auto. }
  destruct Hdry as (body_json & s1 & Hbody & Hact & Htr & Hafter & Hdoc).
  exists body_json, s1. repeat (split; [assumption|]).
  intros s'' Hreal.
  destruct (apply_configs_finish _ _ _ _ Hreal) as (body' & s1' & Hbody' & Hdoc' & _ & Htr').
  rewrite build_body_check_mode, Hbody in Hbody'. injection Hbody' as <- <-.
  cbn [check_mode with_check_mode] in Htr'. rewrite Htr'.
  rewrite config_check_mode.
  rewrite (render_same_document (config p) s1 s'' body_json Hdoc').
  rewrite (render_same_document (config p) s1 s' body_json Hdoc).
  reflexivity.
Qed.

(** C2, as the code has it.  In a dry run the client receives no
    mutating request: the calls are the authentication, when a trust
    password was given, and read-only fetches.  Every operation other
    than apply-config returns at once with its name appended to the
    action log.  Apply-config, when it returns, has appended its name,
    contacted nothing and recorded, as the instance part of the diff's
    after side, the body its loop built: the body the same call sends
    outside a dry run.  The address wait is not skipped: a dry run for
    the desired state started or restarted that asks for the wait with
    a positive timeout and completes has polled the state of the
    instance, and that fetch is its last call. *)
Theorem dry_run_is_read_only w p :
  check_mode p = true ->
  Forall (fun c => is_mutating c = false) (run_trace w p) /\
  (forall op s, op <> ApplyConfig ->
     perform w p op s = (inr tt, append_action (log_name op) s)) /\
  (forall s s', perform w p ApplyConfig s = (inr tt, s') ->
     exists body_json s1,
       build_body p mutable_params ∅ s = (inr body_json, s1) /\
       actions s' = (actions s ++ [log_name ApplyConfig])%list /\
       trace s' = trace s /\
       diff_after s' = DiffSide (d_state (diff_after s)) (Some body_json) /\
       (forall s'',
          perform w (with_check_mode false p) ApplyConfig s = (inr tt, s'') ->
          trace s'' =
            (trace s ++ [Do PUT (Url (endpoint p ++ "/" ++ name p) [])
                            (InstanceBody (render (config p) s' body_json)) []])%list)) /\
  (wait_for_ipv4_addresses p = true -> 0 < timeout p ->
   state p = "started" \/ state p = "restarted" ->
   forall r, run w p = exit_json r ->
     last (run_trace w p) = Some (state_fetch p)).
Proof.
  intros dry. split; [|split; [|split]].
  - apply run_trace_read_only, dry.
  - intros op s. apply perform_dry, dry.
  - intros s s'. apply apply_dry_records_the_body, dry.
  - intros Hwait Hpos Hst r. apply run_ends_with_the_wait; assumption.
Qed.

Lemma dry_run_is_read_only_witness :
  let w := one_instance "Stopped" {["limits.cpu" := "1"]} ∅ in
  let p := request_for "started" (Some {["limits.cpu" := "2"]}) true true in
  Forall (fun c => is_mutating c = false) (run_trace w p) /\
  perform w p Start (observed_state w p)
    = (inr tt, append_action "start" (observed_state w p)).
Proof.
  intros w p.
  destruct (dry_run_is_read_only w p) as (H1 & H2 & _); [reflexivity|].
  split; [exact H1|]. apply H2. discriminate.
Defined.

(** C2 as stated fails: in a dry run the address wait is not skipped.
    With the wait requested it fetches the state of the instance on
    every poll until the deadline. *)
Lemma dry_run_waiter_polls :
  let w := one_instance "Running" ∅ {["eth0" := []]} in
  let p := request_for "started" None true true in
  check_mode p = true /\ ~ waiter_skipped w p.
Proof.
  intros w p. split; [reflexivity|].
  intros H. apply (H (state_fetch p)); [|reflexivity].
  vm_compute. right. left.
Qed.

(** ** Runs on a converged instance *)






